(** * Planning-and-dispatch engine of the LLM-driven common agent

    A shallow embedding of the coordinator found in
    [common-agent/src/common_agent_llm_driven.py], of its streaming route
    ([routes.py]), of the LLM provider ([llm/provider_enhanced.py]), of the
    MCP stdio client ([mcp/mcp_protocol_client.py]) and of the reply parser
    ([core/json_parser.py]).

    Python values are JSON-shaped: the coordinator only ever handles what
    [json.loads] produced or what it built from dict and list literals.
    Effects (outbound HTTP and MCP traffic, the clock, the registry, the
    task table, yielded events, raised exceptions) are threaded through a
    small state-and-exception monad with an event writer.  The network,
    the clock and the LLM are oracles. *)

From Stdlib Require Import List String Ascii ZArith Lia Bool Arith DecimalString.
Import ListNotations.

Local Open Scope list_scope.
Local Open Scope string_scope.

(* ================================================================== *)
(** ** Python values and built-ins *)
(* ================================================================== *)

Module Py.

(** JSON-shaped Python values.  Integers are exact; a float is carried
    as its printed text and never computed with.  A [dict] keeps its keys
    in insertion order, like a Python dict. *)
#[local] Unset Elimination Schemes.
Inductive json : Type :=
| JNull
| JBool (b : bool)
| JInt (n : Z)
| JFloat (text : string)
| JStr (s : string)
| JArr (items : list json)
| JObj (fields : list (string * json)).
#[local] Set Elimination Schemes.

Definition dict := list (string * json).

(** [d.get(k)] *)
Fixpoint dict_get (k : string) (d : dict) : option json :=
  match d with
  | [] => None
  | (k', v) :: d' => if String.eqb k k' then Some v else dict_get k d'
  end.

(** [d.get(k, dflt)] *)
Definition dict_get_default (k : string) (dflt : json) (d : dict) : json :=
  match dict_get k d with Some v => v | None => dflt end.

(** [k in d] *)
Definition dict_mem (k : string) (d : dict) : bool :=
  match dict_get k d with Some _ => true | None => false end.

(** [d[k] = v]: an existing key keeps its position, a new key goes last. *)
Fixpoint dict_set (k : string) (v : json) (d : dict) : dict :=
  match d with
  | [] => [(k, v)]
  | (k', v') :: d' =>
      if String.eqb k k' then (k', v) :: d' else (k', v') :: dict_set k v d'
  end.

(** [list(d.keys())] *)
Definition dict_keys (d : dict) : list string := map fst d.

(** Truth value of a Python object. *)
Definition truthy (v : json) : bool :=
  match v with
  | JNull => false
  | JBool b => b
  | JInt n => negb (n =? 0)%Z
  | JFloat t => negb ((t =? "0.0") || (t =? "-0.0"))
  | JStr s => negb (s =? "")
  | JArr l => match l with [] => false | _ => true end
  | JObj l => match l with [] => false | _ => true end
  end.

(** Python's [==] on JSON-shaped values ([True == 1], dicts compared
    regardless of key order; floats compared by their text). *)
Fixpoint py_eqb (a b : json) {struct a} : bool :=
  match a with
  | JNull => match b with JNull => true | _ => false end
  | JBool x =>
      match b with
      | JBool y => Bool.eqb x y
      | JInt y => (y =? (if x then 1 else 0))%Z
      | _ => false
      end
  | JInt x =>
      match b with
      | JInt y => (x =? y)%Z
      | JBool y => (x =? (if y then 1 else 0))%Z
      | _ => false
      end
  | JFloat x => match b with JFloat y => String.eqb x y | _ => false end
  | JStr x => match b with JStr y => String.eqb x y | _ => false end
  | JArr xs =>
      match b with
      | JArr ys =>
          (fix go (xs ys : list json) : bool :=
             match xs, ys with
             | [], [] => true
             | x :: xs', y :: ys' => py_eqb x y && go xs' ys'
             | _, _ => false
             end) xs ys
      | _ => false
      end
  | JObj xs =>
      match b with
      | JObj ys =>
          Nat.eqb (List.length xs) (List.length ys) &&
          (fix go (xs : list (string * json)) : bool :=
             match xs with
             | [] => true
             | (k, v) :: xs' =>
                 match dict_get k ys with
                 | Some w => py_eqb v w
                 | None => false
                 end && go xs'
             end) xs
      | _ => false
      end
  end.

(** [v == "literal"] *)
Definition is_str (lit : string) (v : json) : bool :=
  match v with JStr s => String.eqb s lit | _ => false end.

(** [x in xs] for a list. *)
Definition list_mem (x : json) (xs : list json) : bool :=
  existsb (fun y => py_eqb y x) xs.

(** Hashable values: everything but lists and dicts. *)
Definition hashable (v : json) : bool :=
  match v with JArr _ | JObj _ => false | _ => true end.

(** The name Python prints for the type of a value. *)
Definition type_name (v : json) : string :=
  match v with
  | JNull => "NoneType"
  | JBool _ => "bool"
  | JInt _ => "int"
  | JFloat _ => "float"
  | JStr _ => "str"
  | JArr _ => "list"
  | JObj _ => "dict"
  end.

(** *** Strings *)

Definition nl_char : ascii := ascii_of_nat 10.
Definition nl : string := String nl_char "".

Fixpoint str_map (f : ascii -> ascii) (s : string) : string :=
  match s with
  | EmptyString => EmptyString
  | String c s' => String (f c) (str_map f s')
  end.

Definition lower_ascii (c : ascii) : ascii :=
  let n := nat_of_ascii c in
  if (65 <=? n)%nat && (n <=? 90)%nat then ascii_of_nat (n + 32) else c.

(** [s.lower()], exact on ASCII letters; other bytes are left alone. *)
Definition str_lower (s : string) : string := str_map lower_ascii s.

(** [s.replace(a, b)] for one-character [a] and [b]. *)
Definition str_replace_char (a b : ascii) (s : string) : string :=
  str_map (fun c => if Ascii.eqb c a then b else c) s.

(** [str.isspace] on the ASCII range: TAB, LF, VT, FF, CR, FS, GS, RS,
    US and SPACE.  It is also what the regular-expression class [\s]
    accepts. *)
Definition is_space (c : ascii) : bool :=
  let n := nat_of_ascii c in
  ((9 <=? n)%nat && (n <=? 13)%nat) || ((28 <=? n)%nat && (n <=? 32)%nat).

Fixpoint lstrip (s : string) : string :=
  match s with
  | EmptyString => EmptyString
  | String c s' => if is_space c then lstrip s' else s
  end.

Fixpoint rstrip (s : string) : string :=
  match s with
  | EmptyString => EmptyString
  | String c s' =>
      match rstrip s' with
      | EmptyString => if is_space c then EmptyString else String c EmptyString
      | r => String c r
      end
  end.

(** [s.strip()], exact on text whose white space is in the ASCII
    range. *)
Definition strip (s : string) : string := rstrip (lstrip s).

(** A [str] is kept as its UTF-8 bytes.  A continuation byte of that
    encoding is one of the form 10xxxxxx. *)
Definition is_continuation (c : ascii) : bool :=
  let n := nat_of_ascii c in (128 <=? n)%nat && (n <=? 191)%nat.

(** The characters (code points) of a string, each as the string of its
    bytes: a byte opens a character unless it is a continuation byte. *)
Fixpoint code_points (s : string) : list string :=
  match s with
  | EmptyString => []
  | String c s' =>
      let rest := code_points s' in
      match s', rest with
      | String c' _, g :: rest' =>
          if is_continuation c' then String c g :: rest'
          else String c EmptyString :: rest
      | _, _ => String c EmptyString :: rest
      end
  end.

(** [s[:n]]: the first [n] characters. *)
Definition str_prefix (n : nat) (s : string) : string :=
  String.concat "" (firstn n (code_points s)).

(** [sub in s] *)
Fixpoint contains (sub s : string) : bool :=
  if String.prefix sub s then true
  else match s with
       | EmptyString => false
       | String _ s' => contains sub s'
       end.

(** [s.split(c, 1)] when [c] occurs in [s]: the text before the first
    [c] and the text after it. *)
Fixpoint split_once (c : ascii) (s : string) : option (string * string) :=
  match s with
  | EmptyString => None
  | String a s' =>
      if Ascii.eqb a c then Some (EmptyString, s')
      else match split_once c s' with
           | Some (l, r) => Some (String a l, r)
           | None => None
           end
  end.

Fixpoint join (sep : string) (l : list string) : string :=
  match l with
  | [] => ""
  | [x] => x
  | x :: l' => x ++ sep ++ join sep l'
  end.

Definition Z_to_string (x : Z) : string :=
  NilZero.string_of_int (Z.to_int x).

Definition hex_digit (n : nat) : ascii :=
  if (n <? 10)%nat then ascii_of_nat (48 + n) else ascii_of_nat (87 + n).

(** One character of [repr] of a string delimited by [q]. *)
Definition repr_char (q : ascii) (c : ascii) : string :=
  let n := nat_of_ascii c in
  if Ascii.eqb c "\"%char then "\\"
  else if Ascii.eqb c q then String "\"%char (String q "")
  else if (n =? 10)%nat then "\n"
  else if (n =? 13)%nat then "\r"
  else if (n =? 9)%nat then "\t"
  else if (n <? 32)%nat || (n =? 127)%nat then
    "\x" ++ String (hex_digit (n / 16)) (String (hex_digit (n mod 16)) "")
  else String c "".

Fixpoint repr_chars (q : ascii) (s : string) : string :=
  match s with
  | EmptyString => EmptyString
  | String c s' => repr_char q c ++ repr_chars q s'
  end.

(** [repr(s)] for a string: single quotes unless the text has a single
    quote and no double quote. *)
Definition repr_str (s : string) : string :=
  let dq := String (ascii_of_nat 34) "" in
  if contains "'" s && negb (contains dq s)
  then dq ++ repr_chars (ascii_of_nat 34) s ++ dq
  else "'" ++ repr_chars "'"%char s ++ "'".

(** [repr(v)] *)
Fixpoint py_repr (v : json) : string :=
  match v with
  | JNull => "None"
  | JBool true => "True"
  | JBool false => "False"
  | JInt n => Z_to_string n
  | JFloat t => t
  | JStr s => repr_str s
  | JArr l => "[" ++ join ", " (map py_repr l) ++ "]"
  | JObj l =>
      "{" ++ join ", "
        (map (fun kv : string * json =>
                let (k, x) := kv in repr_str k ++ ": " ++ py_repr x) l)
      ++ "}"
  end.

(** [str(v)], which is also what an f-string interpolates. *)
Definition py_str (v : json) : string :=
  match v with JStr s => s | _ => py_repr v end.

(** *** Exceptions *)

Inductive exn_class : Type :=
| TimeoutException | NetworkError | JSONDecodeError
| TypeError | AttributeError | KeyError | ValueError | IndexError
| OtherError.

(** An exception: its class and [str(e)]. *)
Record exn : Type := mk_exn { exn_cls : exn_class; exn_msg : string }.

Inductive result (A : Type) : Type :=
| Ok (a : A)
| Raise (e : exn).
Arguments Ok {A} a.
Arguments Raise {A} e.

Definition no_attribute (v : json) (attr : string) : exn :=
  mk_exn AttributeError
    ("'" ++ type_name v ++ "' object has no attribute '" ++ attr ++ "'").

Definition unhashable (v : json) : exn :=
  mk_exn TypeError ("unhashable type: '" ++ type_name v ++ "'").

(** [obj.get(k, dflt)] on an arbitrary value: only dicts have [get]. *)
Definition py_get (k : string) (dflt : json) (obj : json) : result json :=
  match obj with
  | JObj d => Ok (dict_get_default k dflt d)
  | _ => Raise (no_attribute obj "get")
  end.

(** [k in obj] for a string [k]: key test on a dict, membership on a
    list, substring test on a string, [TypeError] otherwise. *)
Definition py_in (k : string) (obj : json) : result bool :=
  match obj with
  | JObj d => Ok (dict_mem k d)
  | JArr l => Ok (list_mem (JStr k) l)
  | JStr s => Ok (contains k s)
  | _ => Raise (mk_exn TypeError
                  ("argument of type '" ++ type_name obj ++ "' is not iterable"))
  end.

(** [obj[k]] for a string [k]. *)
Definition py_index (k : string) (obj : json) : result json :=
  match obj with
  | JObj d =>
      match dict_get k d with
      | Some v => Ok v
      | None => Raise (mk_exn KeyError (repr_str k))
      end
  | JArr _ =>
      Raise (mk_exn TypeError "list indices must be integers or slices, not str")
  | JStr _ => Raise (mk_exn TypeError "string indices must be integers")
  | _ => Raise (mk_exn TypeError
                  ("'" ++ type_name obj ++ "' object is not subscriptable"))
  end.

(** [obj[k] = v] for a string [k]. *)
Definition py_setitem (k : string) (v : json) (obj : json) : result json :=
  match obj with
  | JObj d => Ok (JObj (dict_set k v d))
  | JArr _ =>
      Raise (mk_exn TypeError "list indices must be integers or slices, not str")
  | _ => Raise (mk_exn TypeError
                  ("'" ++ type_name obj
                   ++ "' object does not support item assignment"))
  end.

(** [name.lower().replace(" ", "_")] *)
Definition agent_id_of (name : json) : result string :=
  match name with
  | JStr s => Ok (str_replace_char " "%char "_"%char (str_lower s))
  | _ => Raise (no_attribute name "lower")
  end.

End Py.

(* ================================================================== *)
(** ** The fragment of [re] the sources use *)
(* ================================================================== *)

Module Re.
Import Py.

(** A pattern is a sequence of atoms: one character of a class, a greedy
    or a lazy repetition of a class, and the parentheses of the single
    capture group.  Matching backtracks the way Python's [re] does:
    a greedy star tries the longest run first, a lazy one the shortest. *)
Inductive atom : Type :=
| AChar (p : ascii -> bool)
| AStar (p : ascii -> bool)
| ALazy (p : ascii -> bool)
| AOpen
| AClose.

(** A match result: the text of the capture group and the input left
    after the whole match. *)
Definition keep (incap : bool) (c : ascii) (r : option (string * string))
  : option (string * string) :=
  match r with
  | Some (cap, rest) => Some (if incap then String c cap else cap, rest)
  | None => None
  end.

Fixpoint match_here (atoms : list atom) : bool -> string -> option (string * string) :=
  match atoms with
  | [] => fun _ s => Some (EmptyString, s)
  | AOpen :: k => fun _ s => match_here k true s
  | AClose :: k => fun _ s => match_here k false s
  | AChar p :: k =>
      fun incap s =>
        match s with
        | String c s' => if p c then keep incap c (match_here k incap s') else None
        | EmptyString => None
        end
  | AStar p :: k =>
      fun incap =>
        fix star (s : string) : option (string * string) :=
          match s with
          | String c s' =>
              if p c then
                match keep incap c (star s') with
                | Some r => Some r
                | None => match_here k incap s
                end
              else match_here k incap s
          | EmptyString => match_here k incap s
          end
  | ALazy p :: k =>
      fun incap =>
        fix lazy (s : string) : option (string * string) :=
          match match_here k incap s with
          | Some r => Some r
          | None =>
              match s with
              | String c s' => if p c then keep incap c (lazy s') else None
              | EmptyString => None
              end
          end
  end.

(** [re.search]: the leftmost match. *)
Fixpoint search (atoms : list atom) (s : string) : option (string * string) :=
  match match_here atoms false s with
  | Some r => Some r
  | None =>
      match s with
      | EmptyString => None
      | String _ s' => search atoms s'
      end
  end.

Fixpoint findall_from (fuel : nat) (atoms : list atom) (s : string) : list string :=
  match fuel with
  | O => []
  | S fuel' =>
      let skip := match s with
                  | EmptyString => []
                  | String _ s' => findall_from fuel' atoms s'
                  end in
      match match_here atoms false s with
      | Some (cap, rest) =>
          cap :: (if (String.length rest <? String.length s)%nat
                  then findall_from fuel' atoms rest
                  else skip)
      | None => skip
      end
  end.

(** [re.findall] for a pattern with one group: the group's text of every
    match, scanning left to right without overlap. *)
Definition findall (atoms : list atom) (s : string) : list string :=
  findall_from (S (String.length s)) atoms s.

Definition any_char (c : ascii) : bool := true.
Definition chr (a : ascii) (c : ascii) : bool := Ascii.eqb c a.
(** A letter under [re.IGNORECASE]. *)
Definition chr_nocase (a : ascii) (c : ascii) : bool :=
  Ascii.eqb (lower_ascii c) (lower_ascii a).

Definition backquote : ascii := ascii_of_nat 96.

End Re.

(* ================================================================== *)
(** ** The world the coordinator runs in *)
(* ================================================================== *)

Module Sys.
Import Py.

(** What an HTTP call gives back: an exception of the transport, or a
    response with its status, its text and what [response.json()]
    yields ([None] when the body is not JSON). *)
Inductive http_outcome : Type :=
| HttpFail (e : exn)
| HttpResp (status : Z) (text : string) (parsed : option json).

(** What the coordinator sends out, in the order it sends it. *)
Inductive outbound : Type :=
| HttpGet (url : string)
| HttpPost (url : string) (body : json)
| McpSpawn (server : string)
| McpWrite (server : string) (message : json)
| LlmSend (prompt : json)
| LlmStream (prompt : json).

(** What is read from the standard output of an MCP child process. *)
Inductive mcp_line : Type :=
| LineEmpty
| LineGarbage
| LineJson (v : json).

(** The environment.  Every remote party is an oracle indexed by the
    number of messages sent so far, so that an endpoint may answer
    differently over time; the clock gives integer milliseconds at each
    of its readings.  [json_loads] stands for Python's [json.loads]
    ([None] is [JSONDecodeError]); [text_strategies] stands for the
    strategies of [parse_llm_response] that come after the fenced-block
    one (brace scanning, YAML, key-value lines and the final fallback
    object), which no property below reaches. *)
Record environment : Type := mk_environment {
  http_get : nat -> string -> http_outcome;
  http_post : nat -> string -> json -> http_outcome;
  mcp_spawn : nat -> string -> bool;
  mcp_readline : nat -> string -> mcp_line;
  llm_send : nat -> json -> result string;
  llm_stream : nat -> json -> list string;
  clock : nat -> Z;
  json_loads : string -> option json;
  text_strategies : string -> bool * json
}.

(** The process-scoped state: the discovery registry, the task table,
    the MCP loader's configuration, the MCP client, the provider's
    flag, the executor's local list of step records (its handlers
    append to it in place), the log of outbound messages and the number
    of clock reads. *)
Record world : Type := mk_world {
  discovered_agents : dict;
  agent_capabilities : dict;
  active_tasks : dict;
  task_counter : Z;
  llm_ready : bool;
  servers_config : dict;
  mcp_active : list string;
  mcp_server_tools : dict;
  mcp_request_id : Z;
  connection_verified : bool;
  execution_results : list json;
  sent : list outbound;
  ticks : nat
}.

Definition set_discovered_agents (v : dict) (w : world) : world :=
  mk_world v (agent_capabilities w) (active_tasks w) (task_counter w)
    (llm_ready w) (servers_config w) (mcp_active w) (mcp_server_tools w)
    (mcp_request_id w) (connection_verified w) (execution_results w)
    (sent w) (ticks w).
Definition set_agent_capabilities (v : dict) (w : world) : world :=
  mk_world (discovered_agents w) v (active_tasks w) (task_counter w)
    (llm_ready w) (servers_config w) (mcp_active w) (mcp_server_tools w)
    (mcp_request_id w) (connection_verified w) (execution_results w)
    (sent w) (ticks w).
Definition set_active_tasks (v : dict) (w : world) : world :=
  mk_world (discovered_agents w) (agent_capabilities w) v (task_counter w)
    (llm_ready w) (servers_config w) (mcp_active w) (mcp_server_tools w)
    (mcp_request_id w) (connection_verified w) (execution_results w)
    (sent w) (ticks w).
Definition set_task_counter (v : Z) (w : world) : world :=
  mk_world (discovered_agents w) (agent_capabilities w) (active_tasks w) v
    (llm_ready w) (servers_config w) (mcp_active w) (mcp_server_tools w)
    (mcp_request_id w) (connection_verified w) (execution_results w)
    (sent w) (ticks w).
Definition set_mcp_active (v : list string) (w : world) : world :=
  mk_world (discovered_agents w) (agent_capabilities w) (active_tasks w)
    (task_counter w) (llm_ready w) (servers_config w) v (mcp_server_tools w)
    (mcp_request_id w) (connection_verified w) (execution_results w)
    (sent w) (ticks w).
Definition set_mcp_server_tools (v : dict) (w : world) : world :=
  mk_world (discovered_agents w) (agent_capabilities w) (active_tasks w)
    (task_counter w) (llm_ready w) (servers_config w) (mcp_active w) v
    (mcp_request_id w) (connection_verified w) (execution_results w)
    (sent w) (ticks w).
Definition set_mcp_request_id (v : Z) (w : world) : world :=
  mk_world (discovered_agents w) (agent_capabilities w) (active_tasks w)
    (task_counter w) (llm_ready w) (servers_config w) (mcp_active w)
    (mcp_server_tools w) v (connection_verified w) (execution_results w)
    (sent w) (ticks w).
Definition set_connection_verified (v : bool) (w : world) : world :=
  mk_world (discovered_agents w) (agent_capabilities w) (active_tasks w)
    (task_counter w) (llm_ready w) (servers_config w) (mcp_active w)
    (mcp_server_tools w) (mcp_request_id w) v (execution_results w)
    (sent w) (ticks w).
Definition set_execution_results (v : list json) (w : world) : world :=
  mk_world (discovered_agents w) (agent_capabilities w) (active_tasks w)
    (task_counter w) (llm_ready w) (servers_config w) (mcp_active w)
    (mcp_server_tools w) (mcp_request_id w) (connection_verified w) v
    (sent w) (ticks w).
Definition set_sent (v : list outbound) (w : world) : world :=
  mk_world (discovered_agents w) (agent_capabilities w) (active_tasks w)
    (task_counter w) (llm_ready w) (servers_config w) (mcp_active w)
    (mcp_server_tools w) (mcp_request_id w) (connection_verified w)
    (execution_results w) v (ticks w).
Definition set_ticks (v : nat) (w : world) : world :=
  mk_world (discovered_agents w) (agent_capabilities w) (active_tasks w)
    (task_counter w) (llm_ready w) (servers_config w) (mcp_active w)
    (mcp_server_tools w) (mcp_request_id w) (connection_verified w)
    (execution_results w) (sent w) v.

(** *** The monad: state, exceptions and yielded events *)

Definition M (A : Type) : Type := world -> list json * result A * world.

Definition ret {A : Type} (a : A) : M A := fun w => ([], Ok a, w).

Definition bind {A B : Type} (m : M A) (k : A -> M B) : M B :=
  fun w =>
    match m w with
    | (ev, Ok a, w') =>
        match k a w' with
        | (ev', r, w'') => ((ev ++ ev')%list, r, w'')
        end
    | (ev, Raise e, w') => (ev, Raise e, w')
    end.

Definition raise {A : Type} (e : exn) : M A := fun w => ([], Raise e, w).

(** [yield event] of an async generator. *)
Definition yield (event : json) : M unit := fun w => ([event], Ok tt, w).

(** [try: body except Exception as e: handler(e)] *)
Definition try_except {A : Type} (body : M A) (handler : exn -> M A) : M A :=
  fun w =>
    match body w with
    | (ev, Ok a, w') => (ev, Ok a, w')
    | (ev, Raise e, w') =>
        match handler e w' with
        | (ev', r, w'') => ((ev ++ ev')%list, r, w'')
        end
    end.

Definition lift {A : Type} (r : result A) : M A := fun w => ([], r, w).
Definition gets {A : Type} (f : world -> A) : M A := fun w => ([], Ok (f w), w).
Definition modify (f : world -> world) : M unit := fun w => ([], Ok tt, f w).

Definition events {A : Type} (o : list json * result A * world) : list json :=
  fst (fst o).
Definition outcome {A : Type} (o : list json * result A * world) : result A :=
  snd (fst o).
Definition final {A : Type} (o : list json * result A * world) : world :=
  snd o.

Definition of_nat (n : nat) : json := JInt (Z.of_nat n).

End Sys.

Declare Scope monad_scope.
Delimit Scope monad_scope with monad.
Notation "x <- m ;; k" := (Sys.bind m (fun x => k))
  (at level 61, m at next level, right associativity) : monad_scope.
Notation "m ;;; k" := (Sys.bind m (fun _ => k))
  (at level 61, right associativity) : monad_scope.
Local Open Scope monad_scope.

(* ================================================================== *)
(** ** Primitive effects *)
(* ================================================================== *)

Module Prim.
Import Py Sys.

Section WithEnvironment.
Variable env : environment.

(** [datetime.now()] *)
Definition now : M Z :=
  fun w => ([], Ok (clock env (ticks w)), set_ticks (S (ticks w)) w).

(** Puts a message on the wire; gives the number of messages before it. *)
Definition send (o : outbound) : M nat :=
  fun w => ([], Ok (List.length (sent w)), set_sent (sent w ++ [o])%list w).

(** [await client.get(url, ...)] *)
Definition client_get (url : string) : M (Z * string * option json) :=
  n <- send (HttpGet url) ;;
  match http_get env n url with
  | HttpFail e => raise e
  | HttpResp status text parsed => ret (status, text, parsed)
  end.

(** [await client.post(url, json=body, ...)] *)
Definition client_post (url : string) (body : json)
  : M (Z * string * option json) :=
  n <- send (HttpPost url body) ;;
  match http_post env n url body with
  | HttpFail e => raise e
  | HttpResp status text parsed => ret (status, text, parsed)
  end.

(** [response.json()] *)
Definition response_json (parsed : option json) : M json :=
  match parsed with
  | Some v => ret v
  | None => raise (mk_exn JSONDecodeError "Expecting value")
  end.

End WithEnvironment.
End Prim.

(* ================================================================== *)
(** ** [class AgentDiscovery] *)
(* ================================================================== *)

Module Discovery.
Import Py Sys Prim.

Section WithEnvironment.
Variable env : environment.

(** [self.discovered_agents[agent_id] = entry] *)
Definition register (agent_id : string) (entry : json) : M unit :=
  modify (fun w =>
            set_discovered_agents (dict_set agent_id entry (discovered_agents w)) w).

(** [self.agent_capabilities[agent_id] = caps] *)
Definition set_capabilities (agent_id : string) (caps : json) : M unit :=
  modify (fun w =>
            set_agent_capabilities (dict_set agent_id caps (agent_capabilities w)) w).

(** The first two blocks of [_discover_single_agent]: an A2A agent card
    at [path].  The result tells whether the block ended in [return]. *)
Definition probe_agent_card (endpoint path method : string) : M bool :=
  try_except
    (response <- client_get env (endpoint ++ path) ;;
     let '(status, _, parsed) := response in
     if (status =? 200)%Z then
       agent_card <- response_json parsed ;;
       name <- lift (py_get "name" (JStr "unknown") agent_card) ;;
       agent_id <- lift (agent_id_of name) ;;
       register agent_id
         (JObj [("endpoint", JStr endpoint);
                ("agent_card", agent_card);
                ("protocol", JStr "a2a");
                ("discovery_method", JStr method)]) ;;;
       skills <- lift (py_get "skills" (JArr []) agent_card) ;;
       set_capabilities agent_id skills ;;;
       ret true
     else ret false)
    (fun _ => ret false).

(** The third block: the legacy capabilities endpoint. *)
Definition probe_capabilities (endpoint : string) : M bool :=
  try_except
    (response <- client_get env (endpoint ++ "/capabilities") ;;
     let '(status, _, parsed) := response in
     if (status =? 200)%Z then
       capabilities <- response_json parsed ;;
       agent_name <- lift (py_get "agent_name" (JStr "unknown") capabilities) ;;
       agent_id <- lift (agent_id_of agent_name) ;;
       register agent_id
         (JObj [("endpoint", JStr endpoint);
                ("capabilities", capabilities);
                ("protocol", JStr "legacy");
                ("discovery_method", JStr "capabilities_endpoint")]) ;;;
       caps <- lift (py_get "capabilities" (JArr []) capabilities) ;;
       set_capabilities agent_id caps ;;;
       ret true
     else ret false)
    (fun _ => ret false).

(** The fourth block: the health endpoint. *)
Definition probe_health (endpoint : string) : M bool :=
  try_except
    (response <- client_get env (endpoint ++ "/health") ;;
     let '(status, _, parsed) := response in
     if (status =? 200)%Z then
       health <- response_json parsed ;;
       agent_name <- lift (py_get "agent" (JStr "unknown") health) ;;
       agent_id <- lift (agent_id_of agent_name) ;;
       register agent_id
         (JObj [("endpoint", JStr endpoint);
                ("health", health);
                ("protocol", JStr "unknown");
                ("discovery_method", JStr "health_check")]) ;;;
       ret true
     else ret false)
    (fun _ => ret false).

Definition _discover_single_agent (endpoint : string) : M unit :=
  found <- probe_agent_card endpoint "/a2a/agent.json" "agent_card" ;;
  if found then ret tt else
  found <- probe_agent_card endpoint "/.well-known/agent.json"
             "agent_card_standard" ;;
  if found then ret tt else
  found <- probe_capabilities endpoint ;;
  if found then ret tt else
  found <- probe_health endpoint ;;
  ret tt.

(** The loop of [discover_agents]. *)
Fixpoint discover_each (discovery_endpoints : list string) : M unit :=
  match discovery_endpoints with
  | [] => ret tt
  | endpoint :: rest =>
      try_except (_discover_single_agent endpoint) (fun _ => ret tt) ;;;
      discover_each rest
  end.

Definition discover_agents (discovery_endpoints : list string) : M dict :=
  discover_each discovery_endpoints ;;;
  gets discovered_agents.

(** [get_available_agents] *)
Definition get_available_agents : M (list string) :=
  gets (fun w => dict_keys (discovered_agents w)).

(** [get_agent_capabilities] *)
Definition get_agent_capabilities (agent_id : string) : M json :=
  gets (fun w => dict_get_default agent_id (JArr []) (agent_capabilities w)).

(** [get_agent_info]: [self.discovered_agents.get(agent_id)], where the
    key may be any value; [None] is [JNull]. *)
Definition get_agent_info (agent_id : json) : M json :=
  match agent_id with
  | JStr s => gets (fun w => dict_get_default s JNull (discovered_agents w))
  | JArr _ | JObj _ => raise (unhashable agent_id)
  | _ => ret JNull
  end.

(** [_periodic_discovery_refresh], cut after [cycles] turns of its
    endless loop (the sleeps are not modelled). *)
Fixpoint _periodic_discovery_refresh (cycles : nat)
  (discovery_endpoints : list string) : M unit :=
  match cycles with
  | O => ret tt
  | S n =>
      try_except (discover_agents discovery_endpoints ;;; ret tt)
        (fun _ => ret tt) ;;;
      _periodic_discovery_refresh n discovery_endpoints
  end.

End WithEnvironment.
End Discovery.

(* ================================================================== *)
(** ** [class MCPProtocolClient] and [class SimpleMCPLoader] *)
(* ================================================================== *)

Module McpClient.
Import Py Sys Prim.

Section WithEnvironment.
Variable env : environment.

Definition is_active (server_name : string) : M bool :=
  gets (fun w => existsb (String.eqb server_name) (mcp_active w)).

Definition not_started (server_name : string) : exn :=
  mk_exn ValueError ("MCP服务器 " ++ server_name ++ " 未启动").

Definition _get_next_request_id : M Z :=
  modify (fun w => set_mcp_request_id (mcp_request_id w + 1)%Z w) ;;;
  gets mcp_request_id.

(** [start_mcp_server]; the argument list and the environment overlay of
    the child process are left to the spawn oracle. *)
Definition start_mcp_server (server_name : string) (server_config : json)
  : M bool :=
  try_except
    (command <- lift (py_get "command" JNull server_config) ;;
     if negb (truthy command) then ret false
     else
       n <- send (McpSpawn server_name) ;;
       if mcp_spawn env n server_name then
         modify (fun w => set_mcp_active (mcp_active w ++ [server_name])%list w) ;;;
         ret true
       else raise (mk_exn OtherError "spawn failed"))
    (fun _ => ret false).

(** [params or {}] *)
Definition params_or_empty (params : json) : json :=
  if truthy params then params else JObj [].

Definition send_jsonrpc_request (server_name method : string) (params : json)
  : M json :=
  active <- is_active server_name ;;
  if negb active then raise (not_started server_name)
  else
    id <- _get_next_request_id ;;
    n <- send (McpWrite server_name
                 (JObj [("jsonrpc", JStr "2.0");
                        ("id", JInt id);
                        ("method", JStr method);
                        ("params", params_or_empty params)])) ;;
    match mcp_readline env n server_name with
    | LineEmpty => raise (mk_exn ValueError "收到空响应")
    | LineGarbage => raise (mk_exn JSONDecodeError "Expecting value")
    | LineJson response =>
        _ <- lift (py_get "error" JNull response) ;;
        has_error <- lift (py_in "error" response) ;;
        if has_error then
          error <- lift (py_index "error" response) ;;
          message <- lift (py_get "message" (JStr "Unknown error") error) ;;
          raise (mk_exn ValueError ("MCP错误: " ++ py_str message))
        else lift (py_get "result" (JObj []) response)
    end.

Definition send_jsonrpc_notification (server_name method : string)
  (params : json) : M unit :=
  active <- is_active server_name ;;
  if negb active then raise (not_started server_name)
  else
    send (McpWrite server_name
            (JObj [("jsonrpc", JStr "2.0");
                   ("method", JStr method);
                   ("params", params_or_empty params)])) ;;;
    ret tt.

Definition init_params : json :=
  JObj [("protocolVersion", JStr "2024-11-05");
        ("capabilities",
         JObj [("roots", JObj [("listChanged", JBool true)]);
               ("sampling", JObj [])]);
        ("clientInfo",
         JObj [("name", JStr "LLM-Driven Common Agent");
               ("version", JStr "1.0.0")])].

Definition _initialize_server (server_name : string) : M unit :=
  try_except
    (send_jsonrpc_request server_name "initialize" init_params ;;;
     send_jsonrpc_notification server_name "notifications/initialized" JNull)
    (fun _ => ret tt).

Definition is_dict (v : json) : bool :=
  match v with JObj _ => true | _ => false end.

(** The logging loop of [discover_tools] over [tools[:3]], which calls
    [tool.get] on each of them. *)
Definition log_first_tools (tools : json) : M unit :=
  if truthy tools then
    match tools with
    | JArr l =>
        if forallb is_dict (firstn 3 l) then ret tt
        else raise (mk_exn AttributeError "object has no attribute 'get'")
    | JStr _ => raise (no_attribute (JStr "") "get")
    | _ => raise (mk_exn TypeError "object is not subscriptable")
    end
  else ret tt.

Definition discover_tools (server_name : string) (server_config : json)
  : M json :=
  try_except
    (active <- is_active server_name ;;
     started <- (if active then ret true
                 else start_mcp_server server_name server_config) ;;
     if negb started then ret (JArr [])
     else
       _initialize_server server_name ;;;
       tools_result <- send_jsonrpc_request server_name "tools/list" JNull ;;
       tools <- lift (py_get "tools" (JArr []) tools_result) ;;
       log_first_tools tools ;;;
       modify (fun w =>
                 set_mcp_server_tools
                   (dict_set server_name tools (mcp_server_tools w)) w) ;;;
       ret tools)
    (fun _ => ret (JArr [])).

(** [call_tool]: the [tools/call] request of the protocol. *)
Definition call_tool (server_name tool_name : string) (arguments : json)
  : M json :=
  active <- is_active server_name ;;
  if negb active then raise (not_started server_name)
  else
    send_jsonrpc_request server_name "tools/call"
      (JObj [("name", JStr tool_name); ("arguments", arguments)]).

(** [SimpleMCPLoader.list_available_servers] *)
Definition list_available_servers : M (list string) :=
  gets (fun w => dict_keys (servers_config w)).

(** [SimpleMCPLoader.get_server_config]; [None] is [JNull]. *)
Definition get_server_config (server_name : string) : M json :=
  gets (fun w => dict_get_default server_name JNull (servers_config w)).

End WithEnvironment.
End McpClient.

(* ================================================================== *)
(** ** [class EnhancedSiliconFlowProvider] *)
(* ================================================================== *)

Module Provider.
Import Py Sys Prim.

(** The fields set by [__init__]; [_connection_verified] lives in the
    world. *)
Record provider : Type := mk_provider {
  api_key : string;
  model : string;
  base_url : string;
  timeout : Z
}.

Section WithEnvironment.
Variable env : environment.

(** [except] clauses are tried in the order they are written. *)
Definition is_class (c : exn_class) (e : exn) : bool :=
  match c, exn_cls e with
  | TimeoutException, TimeoutException => true
  | NetworkError, NetworkError => true
  | JSONDecodeError, JSONDecodeError => true
  | _, _ => false
  end.

Definition chat_url (self : provider) : string :=
  base_url self ++ "/chat/completions".

(** The test request of [verify_connection]. *)
Definition test_payload (self : provider) : json :=
  JObj [("model", JStr (model self));
        ("messages",
         JArr [JObj [("role", JStr "user"); ("content", JStr "Hello")]]);
        ("max_tokens", JInt 10)].

Definition verify_connection (self : provider) : M (bool * string) :=
  try_except
    (response <- client_post env (chat_url self) (test_payload self) ;;
     let '(status, text, _) := response in
     if (status =? 200)%Z then
       modify (set_connection_verified true) ;;;
       ret (true, "Connection successful")
     else if (status =? 401)%Z then
       ret (false, "Authentication failed - check API key")
     else if (status =? 404)%Z then
       ret (false, "Model not found - check model name")
     else
       ret (false, "HTTP " ++ Z_to_string status ++ ": "
                   ++ str_prefix 200 text))
    (fun e =>
       if is_class TimeoutException e then
         ret (false, "Connection timeout after "
                     ++ Z_to_string (timeout self) ++ "s")
       else if is_class NetworkError e then
         ret (false, "Network error: " ++ exn_msg e)
       else ret (false, "Unexpected error: " ++ exn_msg e)).

(** A response object that carries a message for the reader and an
    [error] annotation. *)
Definition error_response (content error : string) : json :=
  JObj [("choices",
         JArr [JObj [("message", JObj [("content", JStr content)])]]);
        ("error", JStr error)].

(** [{..., **{k: v for k, v in kwargs.items() if k not in skip}}] *)
Definition merge_kwargs (skip : list string) (kwargs : dict) (payload : dict)
  : dict :=
  fold_left
    (fun acc kv =>
       if existsb (String.eqb (fst kv)) skip then acc
       else dict_set (fst kv) (snd kv) acc)
    kwargs payload.

(** The request body of [chat_completion]. *)
Definition chat_payload (self : provider) (messages : json) (kwargs : dict)
  : json :=
  JObj (merge_kwargs ["max_tokens"; "temperature"] kwargs
          [("model", JStr (model self));
           ("messages", messages);
           ("max_tokens", dict_get_default "max_tokens" (JInt 4096) kwargs);
           ("temperature",
            dict_get_default "temperature" (JFloat "0.7") kwargs)]).

(** The request proper: the [try] block of [chat_completion]. *)
Definition chat_request (self : provider) (messages : json) (kwargs : dict)
  : M json :=
  try_except
    (start_time <- now env ;;
     response <- client_post env (chat_url self)
                   (chat_payload self messages kwargs) ;;
     end_time <- now env ;;
     let response_time := (end_time - start_time)%Z in
     let '(status, text, parsed) := response in
     if (status =? 200)%Z then
       response_data <- response_json parsed ;;
       lift (py_setitem "_response_time" (JInt response_time) response_data)
     else if (status =? 401)%Z then
       ret (error_response "LLM authentication failed - check API key"
              "authentication_failed")
     else if (status =? 429)%Z then
       ret (error_response
              "LLM rate limit exceeded - please try again later"
              "rate_limit_exceeded")
     else if (500 <=? status)%Z then
       ret (error_response "LLM service unavailable - server error"
              "server_error")
     else
       let error_detail :=
         if negb (text =? "") then str_prefix 300 text
         else "Unknown error" in
       ret (JObj [("choices",
                   JArr [JObj [("message",
                                JObj [("content",
                                       JStr ("LLM request failed: HTTP "
                                             ++ Z_to_string status))])]]);
                  ("error", JStr ("http_error_" ++ Z_to_string status));
                  ("details", JStr error_detail)]))
    (fun e =>
       if is_class TimeoutException e then
         ret (error_response
                ("LLM request timeout after "
                 ++ Z_to_string (timeout self) ++ "s")
                "timeout")
       else if is_class NetworkError e then
         ret (error_response ("LLM network error: " ++ exn_msg e)
                "network_error")
       else if is_class JSONDecodeError e then
         ret (error_response "LLM returned invalid JSON response"
                "invalid_response")
       else
         ret (error_response ("LLM unexpected error: " ++ exn_msg e)
                "unexpected_error")).

Definition chat_completion (self : provider) (messages : json) (kwargs : dict)
  : M json :=
  verified <- gets connection_verified ;;
  checked <- (if verified then ret None
              else
                probe <- verify_connection self ;;
                let '(is_connected, error_msg) := probe in
                if is_connected then ret None else ret (Some error_msg)) ;;
  match checked with
  | Some error_msg =>
      ret (JObj [("choices",
                  JArr [JObj [("message",
                               JObj [("content",
                                      JStr ("LLM connection failed: "
                                            ++ error_msg))])]]);
                 ("error", JStr error_msg)])
  | None =>
      chat_request self messages kwargs
  end.

End WithEnvironment.
End Provider.

(* ================================================================== *)
(** ** [core/json_parser.py] *)
(* ================================================================== *)

Module JsonParser.
Import Py Sys Re.

Definition tick : atom := AChar (chr backquote).
Definition newline : atom := AChar (chr nl_char).

(** [r'```json\s*\n(.*?)\n```'] under [re.DOTALL | re.IGNORECASE] *)
Definition json_fence_pattern : list atom :=
  [tick; tick; tick;
   AChar (chr_nocase "j"); AChar (chr_nocase "s");
   AChar (chr_nocase "o"); AChar (chr_nocase "n");
   AStar is_space; newline;
   AOpen; ALazy any_char; AClose;
   newline; tick; tick; tick].

(** [r'```\s*\n(.*?)\n```'] *)
Definition fence_pattern : list atom :=
  [tick; tick; tick;
   AStar is_space; newline;
   AOpen; ALazy any_char; AClose;
   newline; tick; tick; tick].

(** [r'`(.*?)`'] *)
Definition inline_pattern : list atom :=
  [tick; AOpen; ALazy any_char; AClose; tick].

Section WithEnvironment.
Variable env : environment.

(** The inner loop of [extract_json_from_markdown]: the first match
    whose stripped text [json.loads] accepts. *)
Fixpoint first_json (matches : list string) : option string :=
  match matches with
  | [] => None
  | m :: rest =>
      match json_loads env (strip m) with
      | Some _ => Some (strip m)
      | None => first_json rest
      end
  end.

Fixpoint first_in_patterns (patterns : list (list atom)) (text : string)
  : option string :=
  match patterns with
  | [] => None
  | pattern :: rest =>
      match first_json (findall pattern text) with
      | Some found => Some found
      | None => first_in_patterns rest text
      end
  end.

Definition extract_json_from_markdown (text : string) : option string :=
  first_in_patterns [json_fence_pattern; fence_pattern; inline_pattern] text.

Definition parse_llm_response (response : string) : bool * json :=
  if (response =? "") || (strip response =? "") then
    (false, JObj [("error", JStr "Empty response")])
  else
    let response := strip response in
    match json_loads env response with
    | Some data => (true, data)
    | None =>
        match extract_json_from_markdown response with
        | Some json_from_markdown =>
            if negb (json_from_markdown =? "") then
              match json_loads env json_from_markdown with
              | Some data => (true, data)
              | None => text_strategies env response
              end
            else text_strategies env response
        | None => text_strategies env response
        end
    end.

Definition any_key (keys : list string) (d : dict) : bool :=
  existsb (fun k => dict_mem k d) keys.

Definition validate_decision_structure (data : json) : bool * json :=
  match data with
  | JObj d =>
      if dict_mem "response" d
         && negb (truthy (dict_get_default "approach" JNull d))
      then
        (true, JObj [("approach", JStr "direct_response");
                     ("reasoning", JStr "Direct response provided");
                     ("response", dict_get_default "response" JNull d)])
      else
        let d1 :=
          if dict_mem "approach" d then d
          else if dict_mem "steps" d || any_key ["agents"; "tasks"; "workflow"] d
          then dict_set "approach" (JStr "agent_coordination") d
          else if any_key ["tools"; "mcp"; "figma"] d
          then dict_set "approach" (JStr "mcp_tools") d
          else dict_set "approach" (JStr "direct_response") d in
        let d2 :=
          if dict_mem "reasoning" d1 then d1
          else dict_set "reasoning"
                 (JStr "Decision made based on user request") d1 in
        let d3 :=
          if list_mem (dict_get_default "approach" JNull d2)
               [JStr "agent_coordination"; JStr "direct_response";
                JStr "mcp_tools"]
          then d2
          else dict_set "reasoning"
                 (JStr "Invalid approach specified, defaulting to direct_response")
                 (dict_set "approach" (JStr "direct_response") d2) in
        (true, JObj d3)
  | _ => (false, JObj [("error", JStr "Data is not a dictionary")])
  end.

Definition parse_decision_response (response : string) : json :=
  let (success, data) := parse_llm_response response in
  if success then
    let (valid, normalized_data) := validate_decision_structure data in
    if valid then normalized_data
    else
      JObj [("approach", JStr "direct_response");
            ("reasoning", JStr "Response structure validation failed");
            ("response", JStr response);
            ("validation_error",
             match normalized_data with
             | JObj d =>
                 dict_get_default "error" (JStr "Unknown validation error") d
             | _ => JStr "Unknown validation error"
             end)]
  else data.

End WithEnvironment.

(** A reply wrapped in one level of [```json] fences. *)
Definition fenced (s : string) : string :=
  "```json" ++ nl ++ s ++ nl ++ "```".

End JsonParser.

(* ================================================================== *)
(** ** [class LLMDrivenCommonAgent] *)
(* ================================================================== *)

Module CommonAgent.
Import Py Sys Prim Re.

(** [len(x)] *)
Definition py_len (v : json) : result nat :=
  match v with
  | JArr l => Ok (List.length l)
  | JObj d => Ok (List.length d)
  | JStr s => Ok (List.length (code_points s))
  | _ => Raise (mk_exn TypeError
                  ("object of type '" ++ type_name v ++ "' has no len()"))
  end.

(** The characters of a string, as [for c in s] gives them. *)
Definition chars_of (s : string) : list json := map JStr (code_points s).

(** [for x in v] *)
Definition py_iter (v : json) : result (list json) :=
  match v with
  | JArr l => Ok l
  | JObj d => Ok (map JStr (dict_keys d))
  | JStr s => Ok (chars_of s)
  | _ => Raise (mk_exn TypeError
                  ("'" ++ type_name v ++ "' object is not iterable"))
  end.

(** [result.get("success", True) if isinstance(result, dict) else True] *)
Definition success_of (result : json) : json :=
  match result with
  | JObj d => dict_get_default "success" (JBool true) d
  | _ => JBool true
  end.

(** [r.get("result", {}).get("success", True)] for each record, as
    truth values; it raises when a record or its result is no dict. *)
Fixpoint success_flags (results : list json) : result (list bool) :=
  match results with
  | [] => Ok []
  | r :: rest =>
      match py_get "result" (JObj []) r with
      | Raise e => Raise e
      | Ok res =>
          match py_get "success" (JBool true) res with
          | Raise e => Raise e
          | Ok s =>
              match success_flags rest with
              | Raise e => Raise e
              | Ok flags => Ok (truthy s :: flags)
              end
          end
      end
  end.

Definition count_true (flags : list bool) : nat :=
  List.length (filter (fun b => b) flags).
Definition count_false (flags : list bool) : nat :=
  List.length (filter negb flags).

(** [[tool.get('name', '') for tool in tools if tool.get('name')]] *)
Fixpoint names_of (tools : list json) : result (list json) :=
  match tools with
  | [] => Ok []
  | tool :: rest =>
      match py_get "name" JNull tool with
      | Raise e => Raise e
      | Ok name =>
          match names_of rest with
          | Raise e => Raise e
          | Ok names => Ok (if truthy name then name :: names else names)
          end
      end
  end.

(** [r'\{.*\}'] under [re.DOTALL], the group being the whole match. *)
Definition braces_pattern : list atom :=
  [AOpen; AChar (chr "{"); AStar any_char; AChar (chr "}"); AClose].

Section WithEnvironment.
Variable env : environment.

(** [self.active_tasks[task_id]] *)
Definition get_task (task_id : string) : M json :=
  tasks <- gets active_tasks ;;
  match dict_get task_id tasks with
  | Some task => ret task
  | None => raise (mk_exn KeyError (repr_str task_id))
  end.

(** [self.active_tasks[task_id][key] = value] through the task object. *)
Definition task_set (task_id key : string) (value : json) : M unit :=
  task <- get_task task_id ;;
  task' <- lift (py_setitem key value task) ;;
  modify (fun w => set_active_tasks (dict_set task_id task' (active_tasks w)) w).

(** [self.active_tasks[task_id]["steps"].append(entry)] *)
Definition task_steps_append (task_id : string) (entry : json) : M unit :=
  task <- get_task task_id ;;
  steps <- lift (py_index "steps" task) ;;
  match steps with
  | JArr l => task_set task_id "steps" (JArr (l ++ [entry])%list)
  | _ => raise (no_attribute steps "append")
  end.

(** [execution_results.append(entry)] *)
Definition results_append (entry : json) : M unit :=
  modify (fun w => set_execution_results (execution_results w ++ [entry])%list w).

(** The agents part of [_build_system_context]. *)
Fixpoint context_agents (ids : list string) (acc : dict) : M dict :=
  match ids with
  | [] => ret acc
  | agent_id :: rest =>
      agent_info <- Discovery.get_agent_info (JStr agent_id) ;;
      if truthy agent_info then
        endpoint <- lift (py_index "endpoint" agent_info) ;;
        caps <- Discovery.get_agent_capabilities agent_id ;;
        protocol <- lift (py_get "protocol" (JStr "unknown") agent_info) ;;
        context_agents rest
          (dict_set agent_id
             (JObj [("endpoint", endpoint);
                    ("capabilities", caps);
                    ("protocol", protocol)]) acc)
      else context_agents rest acc
  end.

(** The MCP part of [_build_system_context]: the tool placeholders and
    the server details collected so far. *)
Fixpoint context_servers (servers : list string) (acc : list json * list json)
  : M (list json * list json) :=
  match servers with
  | [] => ret acc
  | server :: rest =>
      acc' <- try_except
                (server_config <- McpClient.get_server_config server ;;
                 if truthy server_config then
                   description <- lift (py_get "description"
                                          (JStr "No description") server_config) ;;
                   command <- lift (py_get "command" (JStr "Unknown")
                                      server_config) ;;
                   ret ((fst acc ++
                         [JObj [("server", JStr server);
                                ("tool", JStr "runtime_discovery");
                                ("full_name",
                                 JStr (server ++ ":runtime_discovery"));
                                ("description",
                                 JStr ("工具需要运行时从 " ++ server
                                       ++ " 服务器发现"))]])%list,
                        (snd acc ++
                         [JObj [("name", JStr server);
                                ("description", description);
                                ("command", command);
                                ("tools", JStr "需要运行时发现")]])%list)
                 else ret acc)
                (fun _ => ret acc) ;;
      context_servers rest acc'
  end.

Definition _build_system_context : M json :=
  ids <- Discovery.get_available_agents ;;
  available_agents <- context_agents ids [] ;;
  servers <- McpClient.list_available_servers ;;
  found <- context_servers servers ([], []) ;;
  let '(available_tools, mcp_server_details) := found in
  ret (JObj [("available_agents", JObj available_agents);
             ("available_mcp_tools", JArr available_tools);
             ("mcp_server_details", JArr mcp_server_details);
             ("total_agents", of_nat (List.length available_agents));
             ("total_tools", of_nat (List.length available_tools))]).

(** [int(datetime.now().timestamp())], in seconds. *)
Definition now_seconds : M string :=
  t <- now env ;;
  ret (Z_to_string (t / 1000)).

Definition _call_a2a_agent (endpoint : json) (task_data : json) : M json :=
  stamp1 <- now_seconds ;;
  stamp2 <- now_seconds ;;
  stamp3 <- now_seconds ;;
  description <- lift (py_index "description" task_data) ;;
  context <- lift (py_get "context" (JObj []) task_data) ;;
  let a2a_request :=
    JObj [("jsonrpc", JStr "2.0");
          ("method", JStr "tasks/send");
          ("id", JStr ("common_agent_" ++ stamp1));
          ("params",
           JObj [("id", JStr ("task_" ++ stamp2));
                 ("sessionId", JStr ("session_" ++ stamp3));
                 ("message",
                  JObj [("role", JStr "user");
                        ("parts",
                         JArr [JObj [("type", JStr "text");
                                     ("text", description)];
                               JObj [("type", JStr "data");
                                     ("data", context)]])]);
                 ("acceptedOutputModes",
                  JArr [JStr "text"; JStr "application/json"])])] in
  response <- client_post env (py_str endpoint ++ "/tasks/send") a2a_request ;;
  let '(status, text, parsed) := response in
  if (status =? 200)%Z then
    result <- response_json parsed ;;
    has_result <- lift (py_in "result" result) ;;
    if has_result then
      inner <- lift (py_index "result" result) ;;
      ret (JObj [("success", JBool true);
                 ("result", inner);
                 ("protocol", JStr "a2a")])
    else
      ret (JObj [("error", JStr "No result in A2A response");
                 ("response", result)])
  else
    ret (JObj [("error", JStr ("A2A call failed: HTTP " ++ Z_to_string status));
               ("response", JStr text)]).

Definition _call_legacy_agent (endpoint : json) (task_data : json) : M json :=
  response <- client_post env (py_str endpoint ++ "/task") task_data ;;
  let '(status, text, parsed) := response in
  if (status =? 200)%Z then
    result <- response_json parsed ;;
    ret (JObj [("success", JBool true);
               ("result", result);
               ("protocol", JStr "legacy")])
  else
    ret (JObj [("error",
                JStr ("Legacy call failed: HTTP " ++ Z_to_string status));
               ("response", JStr text)]).

Definition _call_agent (agent_id task_description : json)
  (previous_results : list json) : M json :=
  agent_info <- Discovery.get_agent_info agent_id ;;
  if negb (truthy agent_info) then
    ret (JObj [("error", JStr ("Agent not found: " ++ py_str agent_id))])
  else
    endpoint <- lift (py_index "endpoint" agent_info) ;;
    protocol <- lift (py_get "protocol" (JStr "unknown") agent_info) ;;
    try_except
      (let task_data :=
         JObj [("type", JStr "delegated_task");
               ("description", task_description);
               ("context",
                JObj [("previous_results", JArr previous_results);
                      ("delegated_by", JStr "common_agent")])] in
       if is_str "a2a" protocol then _call_a2a_agent endpoint task_data
       else _call_legacy_agent endpoint task_data)
      (fun e => ret (JObj [("error", JStr (exn_msg e)); ("agent", agent_id)])).

Definition _query_mcp_server_tools_runtime (server_name : string)
  : M (list json) :=
  try_except
    (server_config <- McpClient.get_server_config server_name ;;
     if negb (truthy server_config) then ret []
     else
       tools <- McpClient.discover_tools env server_name server_config ;;
       items <- lift (py_iter tools) ;;
       lift (names_of items))
    (fun _ => ret []).

(** The loop of [_infer_server_from_tool]. *)
Fixpoint infer_loop (tool_name : json) (servers : list string) : M string :=
  match servers with
  | [] => ret "unknown"
  | server_name :: rest =>
      server_tools <- _query_mcp_server_tools_runtime server_name ;;
      if list_mem tool_name server_tools then ret server_name
      else infer_loop tool_name rest
  end.

Definition _infer_server_from_tool (tool_name : json) : M string :=
  try_except
    (available_servers <- McpClient.list_available_servers ;;
     infer_loop tool_name available_servers)
    (fun _ => ret "unknown").

(** The body is the placeholder the source returns: no message leaves
    the coordinator here. *)
Definition _invoke_mcp_tool_via_protocol
  (server_name tool_name task_description : json) : M json :=
  ret (JObj [("status", JStr "mcp_protocol_required");
             ("message",
              JStr ("需要实现真正的MCP协议来调用 " ++ py_str tool_name));
             ("server", server_name);
             ("tool", tool_name);
             ("task", task_description);
             ("note",
              JStr "真正的MCP连接实现后，这里会返回工具的实际执行结果")]).

Definition _execute_mcp_tool (server_name tool_name task_description : json)
  : M json :=
  try_except
    (result <- _invoke_mcp_tool_via_protocol server_name tool_name
                 task_description ;;
     ret (JObj [("success", JBool true);
                ("server", server_name);
                ("tool", tool_name);
                ("task_description", task_description);
                ("execution_method", JStr "real_mcp_protocol");
                ("result", result)]))
    (fun e =>
       ret (JObj [("success", JBool false);
                  ("server", server_name);
                  ("tool", tool_name);
                  ("task_description", task_description);
                  ("error", JStr (exn_msg e));
                  ("note", JStr "MCP工具调用需要真正的MCP协议实现")])).

(** [server_name, actual_tool = tool_name.split(":", 1)] *)
Definition split_target (tool_name : json) : result (json * json) :=
  match tool_name with
  | JStr s =>
      match split_once ":" s with
      | Some (server_name, actual_tool) => Ok (JStr server_name, JStr actual_tool)
      | None =>
          Raise (mk_exn ValueError
                   "not enough values to unpack (expected 2, got 1)")
      end
  | _ => Raise (no_attribute tool_name "split")
  end.

Definition _use_mcp_tool (tool_name task_description : json) : M json :=
  try_except
    (has_colon <- lift (py_in ":" tool_name) ;;
     parts <- (if has_colon then lift (split_target tool_name)
               else
                 server_name <- _infer_server_from_tool tool_name ;;
                 ret (JStr server_name, tool_name)) ;;
     let '(server_name, actual_tool) := parts in
     tool_result <- _execute_mcp_tool server_name actual_tool
                      task_description ;;
     ret (JObj [("success", JBool true);
                ("server", server_name);
                ("tool", actual_tool);
                ("result", tool_result);
                ("task_description", task_description);
                ("execution_method", JStr "LLM_driven_MCP_call")]))
    (fun e =>
       ret (JObj [("success", JBool false);
                  ("error", JStr (exn_msg e));
                  ("tool", tool_name);
                  ("task_description", task_description)])).

Definition _coordinate_action (target description : json)
  (previous_results : list json) : M json :=
  ret (JObj [("success", JBool true);
             ("coordination_target", target);
             ("description", description);
             ("result", JStr "协调动作完成");
             ("processed_results", of_nat (List.length previous_results))]).


(** The branch on [action] inside the [try] of [_execute_llm_plan_stream]. *)
Definition stream_dispatch (action target task_desc : json)
  (step_start_time : Z) : M json :=
  if is_str "agent_call" action then
    yield (JObj [("event", JStr "agent_call_started");
                 ("agent_id", target)]) ;;;
    previous_results <- gets execution_results ;;
    result <- _call_agent target task_desc previous_results ;;
    t <- now env ;;
    yield (JObj [("event", JStr "agent_call_completed");
                 ("agent_id", target);
                 ("result", result);
                 ("duration", JInt (t - step_start_time))]) ;;;
    ret result
  else if is_str "tool_use" action then
    yield (JObj [("event", JStr "mcp_tool_used"); ("tool", target)]) ;;;
    _use_mcp_tool target task_desc
  else if is_str "coordination" action then
    previous_results <- gets execution_results ;;
    _coordinate_action target task_desc previous_results
  else
    ret (JObj [("error", JStr ("Unknown action: " ++ py_str action))]).

(** One turn of the loop of [_execute_llm_plan_stream]. *)
Definition stream_step (task_id : string) (step : json) : M unit :=
  step_num <- lift (py_get "step" (JInt 0) step) ;;
  action <- lift (py_get "action" (JStr "unknown") step) ;;
  target <- lift (py_get "target" (JStr "") step) ;;
  task_desc <- lift (py_get "task" (JStr "") step) ;;
  yield (JObj [("event", JStr "step_started");
               ("step_number", step_num);
               ("step_description",
                JStr (py_str action ++ " -> " ++ py_str target ++ ": "
                      ++ py_str task_desc));
               ("action", action);
               ("target", target);
               ("task", task_desc)]) ;;;
  step_start_time <- now env ;;
  try_except
    (result <- stream_dispatch action target task_desc step_start_time ;;
     t <- now env ;;
     let step_duration := (t - step_start_time)%Z in
     stamp <- now env ;;
     results_append
       (JObj [("step", step_num);
              ("action", action);
              ("target", target);
              ("result", result);
              ("duration", JInt step_duration);
              ("timestamp", JInt stamp)]) ;;;
     (if negb (is_str "agent_call" action) then
        yield (JObj [("event", JStr "step_completed");
                     ("step_number", step_num);
                     ("action", action);
                     ("target", target);
                     ("success", success_of result);
                     ("duration", JInt step_duration);
                     ("result", result)])
      else ret tt) ;;;
     stamp' <- now env ;;
     task_steps_append task_id
       (JObj [("step", JStr ("execution_step_" ++ py_str step_num));
              ("action", action);
              ("target", target);
              ("result", result);
              ("duration", JInt step_duration);
              ("timestamp", JInt stamp')]))
    (fun e =>
       t <- now env ;;
       let step_duration := (t - step_start_time)%Z in
       let error_result :=
         JObj [("error", JStr (exn_msg e)); ("step", step_num)] in
       stamp <- now env ;;
       results_append
         (JObj [("step", step_num);
                ("action", action);
                ("target", target);
                ("result", error_result);
                ("duration", JInt step_duration);
                ("timestamp", JInt stamp)]) ;;;
       yield (JObj [("event", JStr "step_completed");
                    ("step_number", step_num);
                    ("action", action);
                    ("target", target);
                    ("success", JBool false);
                    ("duration", JInt step_duration);
                    ("error", JStr (exn_msg e))]) ;;;
       stamp' <- now env ;;
       task_steps_append task_id
         (JObj [("step", JStr ("execution_step_" ++ py_str step_num));
                ("action", action);
                ("target", target);
                ("result", error_result);
                ("duration", JInt step_duration);
                ("timestamp", JInt stamp')])).

Fixpoint stream_steps (task_id : string) (execution_plan : list json) : M unit :=
  match execution_plan with
  | [] => ret tt
  | step :: rest => stream_step task_id step ;;; stream_steps task_id rest
  end.

Definition _execute_llm_plan_stream (task_id : string) (llm_decision : json)
  : M unit :=
  execution_plan <- lift (py_get "execution_plan" (JArr []) llm_decision) ;;
  strategy <- lift (py_get "execution_strategy" (JStr "unknown") llm_decision) ;;
  total <- lift (py_len execution_plan) ;;
  yield (JObj [("event", JStr "execution_started");
               ("strategy", strategy);
               ("total_steps", of_nat total)]) ;;;
  modify (set_execution_results []) ;;;
  start_time <- now env ;;
  steps <- lift (py_iter execution_plan) ;;
  stream_steps task_id steps ;;;
  t <- now env ;;
  results <- gets execution_results ;;
  flags <- lift (success_flags results) ;;
  yield (JObj [("event", JStr "execution_completed");
               ("total_steps", of_nat total);
               ("successful_steps", of_nat (count_true flags));
               ("failed_steps", of_nat (count_false flags));
               ("total_duration", JInt (t - start_time));
               ("results", JArr results)]).

(** [a in description or b in description or c in description] *)
Definition mentions_design (description : json) : result bool :=
  match py_in "设计" description with
  | Raise e => Raise e
  | Ok true => Ok true
  | Ok false =>
      match py_in "界面" description with
      | Raise e => Raise e
      | Ok true => Ok true
      | Ok false => py_in "UI" description
      end
  end.

Definition _fallback_processing_stream (task_id : string) (description : json)
  : M unit :=
  yield (JObj [("event", JStr "fallback_started");
               ("reason", JStr "LLM处理失败，使用降级逻辑")]) ;;;
  design <- lift (mentions_design description) ;;
  if design then
    yield (JObj [("event", JStr "fallback_decision");
                 ("target", JStr "ui_designer_agent");
                 ("reason", JStr "检测到设计相关任务")]) ;;;
    try_except
      (result <- _call_agent (JStr "ui_designer_agent") description [] ;;
       yield (JObj [("event", JStr "fallback_completed"); ("result", result)]))
      (fun e =>
         yield (JObj [("event", JStr "fallback_error");
                      ("error", JStr (exn_msg e))]))
  else
    yield (JObj [("event", JStr "fallback_error");
                 ("error", JStr "无法确定合适的处理方式")]).

(** The branch on [action] inside the [try] of [_execute_llm_plan]. *)
Definition batch_dispatch (action target task_desc : json) : M json :=
  if is_str "agent_call" action then
    previous_results <- gets execution_results ;;
    _call_agent target task_desc previous_results
  else if is_str "tool_use" action then
    _use_mcp_tool target task_desc
  else if is_str "coordination" action then
    previous_results <- gets execution_results ;;
    _coordinate_action target task_desc previous_results
  else
    ret (JObj [("error", JStr ("Unknown action: " ++ py_str action))]).

(** One turn of the loop of [_execute_llm_plan]. *)
Definition batch_step (task_id : string) (step : json) : M unit :=
  step_num <- lift (py_get "step" (JInt 0) step) ;;
  action <- lift (py_get "action" (JStr "unknown") step) ;;
  target <- lift (py_get "target" (JStr "") step) ;;
  task_desc <- lift (py_get "task" (JStr "") step) ;;
  try_except
    (result <- batch_dispatch action target task_desc ;;
     stamp <- now env ;;
     results_append
       (JObj [("step", step_num);
              ("action", action);
              ("target", target);
              ("result", result);
              ("timestamp", JInt stamp)]) ;;;
     stamp' <- now env ;;
     task_steps_append task_id
       (JObj [("step", JStr ("execution_step_" ++ py_str step_num));
              ("action", action);
              ("target", target);
              ("result", result);
              ("timestamp", JInt stamp')]))
    (fun e =>
       stamp <- now env ;;
       results_append
         (JObj [("step", step_num);
                ("action", action);
                ("target", target);
                ("error", JStr (exn_msg e));
                ("timestamp", JInt stamp)])).

Fixpoint batch_steps (task_id : string) (execution_plan : list json) : M unit :=
  match execution_plan with
  | [] => ret tt
  | step :: rest => batch_step task_id step ;;; batch_steps task_id rest
  end.

(** [sum(1 for r in execution_results if "error" not in r)] *)
Fixpoint count_without_error (results : list json) : result nat :=
  match results with
  | [] => Ok O
  | r :: rest =>
      match py_in "error" r with
      | Raise e => Raise e
      | Ok has_error =>
          match count_without_error rest with
          | Raise e => Raise e
          | Ok n => Ok (if has_error then n else S n)
          end
      end
  end.

Definition _generate_execution_summary (llm_decision : json)
  (results : list json) : result json :=
  match count_without_error results with
  | Raise e => Raise e
  | Ok successful_steps =>
      match py_get "execution_strategy" (JStr "unknown") llm_decision with
      | Raise e => Raise e
      | Ok strategy =>
          Ok (JStr ("LLM驱动的任务执行完成。策略: " ++ py_str strategy
                    ++ ", 成功步骤: "
                    ++ Z_to_string (Z.of_nat successful_steps) ++ "/"
                    ++ Z_to_string (Z.of_nat (List.length results))))
      end
  end.

Definition _execute_llm_plan (task_id : string) (llm_decision : json) : M json :=
  execution_plan <- lift (py_get "execution_plan" (JArr []) llm_decision) ;;
  strategy <- lift (py_get "execution_strategy" (JStr "unknown") llm_decision) ;;
  total <- lift (py_len execution_plan) ;;
  modify (set_execution_results []) ;;;
  steps <- lift (py_iter execution_plan) ;;
  batch_steps task_id steps ;;;
  results <- gets execution_results ;;
  summary <- lift (_generate_execution_summary llm_decision results) ;;
  ret (JObj [("task_id", JStr task_id);
             ("execution_strategy", strategy);
             ("llm_decision", llm_decision);
             ("execution_results", JArr results);
             ("total_steps", of_nat total);
             ("completed_steps", of_nat (List.length results));
             ("summary", summary)]).

Definition _fallback_processing (task_id : string) (description : json)
  : M json :=
  available_agents <- Discovery.get_available_agents ;;
  match available_agents with
  | selected_agent :: _ =>
      result <- _call_agent (JStr selected_agent) description [] ;;
      ret (JObj [("task_id", JStr task_id);
                 ("execution_strategy", JStr "fallback");
                 ("selected_agent", JStr selected_agent);
                 ("result", result);
                 ("note", JStr "使用降级处理，因为LLM分析失败")])
  | [] =>
      ret (JObj [("task_id", JStr task_id);
                 ("execution_strategy", JStr "failed");
                 ("error", JStr "没有可用的agents，且LLM处理失败");
                 ("available_agents", JArr [])])
  end.

(** The loop over the chunks of the LLM stream. *)
Fixpoint stream_chunks (chunks : list string) : M string :=
  match chunks with
  | [] => ret ""
  | chunk :: rest =>
      yield (JObj [("event", JStr "llm_analysis_progress");
                   ("chunk", JStr chunk)]) ;;;
      tail <- stream_chunks rest ;;
      ret (chunk ++ tail)
  end.

(** [self.llm_client.stream_message(message=analysis_prompt)]; of the
    prompt, the log keeps the system context and the description. *)
Definition stream_message (system_context description : json)
  : M (list string) :=
  let prompt := JObj [("context", system_context); ("task", description)] in
  n <- send (LlmStream prompt) ;;
  ret (llm_stream env n prompt).

(** [self.llm_client.send_message(message)] *)
Definition send_message (prompt : json) : M string :=
  n <- send (LlmSend prompt) ;;
  lift (llm_send env n prompt).

(** The decoding of the streamed reply: [json.loads], and on failure the
    text from the first opening brace to the last closing one. *)
Definition decode_streamed (llm_response : string) : M json :=
  match json_loads env llm_response with
  | Some llm_decision => ret llm_decision
  | None =>
      match search braces_pattern llm_response with
      | Some (group, _) =>
          match json_loads env group with
          | Some llm_decision => ret llm_decision
          | None => raise (mk_exn JSONDecodeError "Expecting value")
          end
      | None => raise (mk_exn ValueError "LLM返回的不是有效JSON格式")
      end
  end.

Definition process_task_with_llm_stream (task_id : string) (task_data : json)
  : M unit :=
  description <- lift (py_get "description" (JStr "") task_data) ;;
  get_task task_id ;;;
  yield (JObj [("event", JStr "llm_analysis_started");
               ("task_id", JStr task_id)]) ;;;
  system_context <- _build_system_context ;;
  try_except
    (ready <- gets llm_ready ;;
     if negb ready then
       yield (JObj [("event", JStr "error");
                    ("error", JStr "LLM客户端未初始化")])
     else
       chunks <- stream_message system_context description ;;
       llm_response <- stream_chunks chunks ;;
       yield (JObj [("event", JStr "llm_analysis_completed");
                    ("analysis", JStr llm_response)]) ;;;
       llm_decision <- decode_streamed llm_response ;;
       lift (py_index "execution_strategy" llm_decision) ;;;
       yield (JObj [("event", JStr "llm_decision_made");
                    ("decision", llm_decision)]) ;;;
       stamp <- now env ;;
       task_steps_append task_id
         (JObj [("step", JStr "llm_analysis");
                ("decision", llm_decision);
                ("timestamp", JInt stamp)]) ;;;
       _execute_llm_plan_stream task_id llm_decision ;;;
       task_set task_id "status" (JStr "completed") ;;;
       stamp' <- now env ;;
       task_set task_id "completed_at" (JInt stamp'))
    (fun e =>
       yield (JObj [("event", JStr "error"); ("error", JStr (exn_msg e))]) ;;;
       _fallback_processing_stream task_id description).

Definition process_task_with_llm (task_id : string) (task_data : json)
  : M json :=
  description <- lift (py_get "description" (JStr "") task_data) ;;
  get_task task_id ;;;
  system_context <- _build_system_context ;;
  try_except
    (ready <- gets llm_ready ;;
     if negb ready then raise (mk_exn ValueError "LLM客户端未初始化")
     else
       send_message (JStr "Hello, test connection") ;;;
       llm_response <-
         send_message (JObj [("context", system_context);
                             ("task", description)]) ;;
       if (llm_response =? "") || (strip llm_response =? "") then
         raise (mk_exn ValueError "LLM返回空响应，可能是API调用失败")
       else
         let llm_decision :=
           JsonParser.parse_decision_response env llm_response in
         match llm_decision with
         | JObj _ =>
             lift (py_index "execution_strategy" llm_decision) ;;;
             stamp <- now env ;;
             task_steps_append task_id
               (JObj [("step", JStr "llm_analysis");
                      ("decision", llm_decision);
                      ("timestamp", JInt stamp)]) ;;;
             result <- _execute_llm_plan task_id llm_decision ;;
             task_set task_id "status" (JStr "completed") ;;;
             stamp' <- now env ;;
             task_set task_id "completed_at" (JInt stamp') ;;;
             task_set task_id "result" result ;;;
             ret result
         | _ =>
             raise (mk_exn ValueError
                      ("LLM返回格式错误: <class '" ++ type_name llm_decision
                       ++ "'>"))
         end)
    (fun e => _fallback_processing task_id description).

End WithEnvironment.
End CommonAgent.

(* ================================================================== *)
(** ** [routes.py]: the streaming branch of [POST /task] *)
(* ================================================================== *)

Module Routes.
Import Py Sys Prim CommonAgent.

(** [len([s for s in steps if "error" not in s.get("result", {})])] *)
Fixpoint count_successful (steps : list json) : result nat :=
  match steps with
  | [] => Ok O
  | s :: rest =>
      match py_get "result" (JObj []) s with
      | Raise e => Raise e
      | Ok res =>
          match py_in "error" res with
          | Raise e => Raise e
          | Ok has_error =>
              match count_successful rest with
              | Raise e => Raise e
              | Ok n => Ok (if has_error then n else S n)
              end
          end
      end
  end.

(** The targets of the steps whose [action] is [kind]. *)
Fixpoint targets_of (kind : string) (steps : list json) : result (list json) :=
  match steps with
  | [] => Ok []
  | s :: rest =>
      match py_get "action" JNull s with
      | Raise e => Raise e
      | Ok action =>
          match py_get "target" (JStr "") s with
          | Raise e => Raise e
          | Ok target =>
              match targets_of kind rest with
              | Raise e => Raise e
              | Ok l => Ok (if is_str kind action then target :: l else l)
              end
          end
      end
  end.

Fixpoint dedup (l : list json) : list json :=
  match l with
  | [] => []
  | x :: rest => x :: filter (fun y => negb (py_eqb y x)) (dedup rest)
  end.

(** [list(set(l))]: it raises on an unhashable member; the order in
    which a set is listed is left open by Python, the first occurrences
    are kept here. *)
Definition py_set_list (l : list json) : result (list json) :=
  match filter (fun x => negb (hashable x)) l with
  | bad :: _ => Raise (unhashable bad)
  | [] => Ok (dedup l)
  end.

(** [datetime.fromisoformat(x)] on a reading of the clock. *)
Definition as_time (v : json) : result Z :=
  match v with
  | JInt z => Ok z
  | _ => Raise (mk_exn TypeError "fromisoformat: argument must be str")
  end.

Section WithEnvironment.
Variable env : environment.

(** The generator [task_stream]: each yielded event becomes one
    [data: <json>] message. *)
Definition task_stream (task_id : string) (task_data description : json)
  : M unit :=
  try_except
    (yield (JObj [("event", JStr "task_started");
                  ("task_id", JStr task_id);
                  ("description", description)]) ;;;
     process_task_with_llm_stream env task_id task_data ;;;
     task <- get_task task_id ;;
     steps_field <- lift (py_get "steps" (JArr []) task) ;;
     total_steps <- lift (py_len steps_field) ;;
     steps <- lift (py_iter steps_field) ;;
     successful_steps <- lift (count_successful steps) ;;
     let failed_steps := (Z.of_nat total_steps - Z.of_nat successful_steps)%Z in
     t1 <- now env ;;
     created_field <- lift (py_get "created_at" (JInt t1) task) ;;
     created_at <- lift (as_time created_field) ;;
     t2 <- now env ;;
     completed_field <- lift (py_get "completed_at" (JInt t2) task) ;;
     completed_at <- lift (as_time completed_field) ;;
     let total_duration := (completed_at - created_at)%Z in
     agents <- lift (targets_of "agent_call" steps) ;;
     tools <- lift (targets_of "tool_use" steps) ;;
     agents_used <- lift (py_set_list agents) ;;
     tools_used <- lift (py_set_list tools) ;;
     final_result <- lift (py_get "result" (JObj []) task) ;;
     yield (JObj [("event", JStr "task_completed");
                  ("task_id", JStr task_id);
                  ("total_steps", of_nat total_steps);
                  ("successful_steps", of_nat successful_steps);
                  ("failed_steps", JInt failed_steps);
                  ("duration", JInt total_duration);
                  ("execution_stats",
                   JObj [("total_steps", of_nat total_steps);
                         ("successful_steps", of_nat successful_steps);
                         ("failed_steps", JInt failed_steps);
                         ("total_duration", JInt total_duration);
                         ("agents_used", JArr agents_used);
                         ("tools_used", JArr tools_used)]);
                  ("final_result", final_result)]))
    (fun e =>
       yield (JObj [("event", JStr "error"); ("error", JStr (exn_msg e))])).

(** [submit_task] for a request that accepts [text/event-stream]. *)
Definition submit_task_stream (task_data : json) : M unit :=
  counter <- gets task_counter ;;
  let task_id := "task_" ++ Z_to_string counter in
  modify (set_task_counter (counter + 1)%Z) ;;;
  description <- lift (py_get "description" (JStr "") task_data) ;;
  if negb (truthy description) then
    yield (JObj [("error", JStr "Task description is required")])
  else
    created_at <- now env ;;
    modify (fun w =>
              set_active_tasks
                (dict_set task_id
                   (JObj [("id", JStr task_id);
                          ("data", task_data);
                          ("status", JStr "processing");
                          ("created_at", JInt created_at);
                          ("steps", JArr [])])
                   (active_tasks w)) w) ;;;
    task_stream task_id task_data description.

(** [submit_task] for a plain JSON request: the body of the reply, or
    the detail of the HTTP 500 error. *)
Definition submit_task_json (task_data : json) : M json :=
  counter <- gets task_counter ;;
  let task_id := "task_" ++ Z_to_string counter in
  modify (set_task_counter (counter + 1)%Z) ;;;
  description <- lift (py_get "description" (JStr "") task_data) ;;
  if negb (truthy description) then
    raise (mk_exn OtherError "Task description is required")
  else
    created_at <- now env ;;
    modify (fun w =>
              set_active_tasks
                (dict_set task_id
                   (JObj [("id", JStr task_id);
                          ("data", task_data);
                          ("status", JStr "processing");
                          ("created_at", JInt created_at);
                          ("steps", JArr [])])
                   (active_tasks w)) w) ;;;
    result <- process_task_with_llm env task_id task_data ;;
    ret (JObj [("task_id", JStr task_id);
               ("status", JStr "completed");
               ("result", result)]).

End WithEnvironment.

(** The name of an event and its [step_number], when it has one. *)
Definition event_name (event : json) : string :=
  match event with
  | JObj d => py_str (dict_get_default "event" (JStr "") d)
  | _ => ""
  end.

Definition event_step (event : json) : option json :=
  match event with
  | JObj d => dict_get "step_number" d
  | _ => None
  end.

Definition signature (event : json) : string * option json :=
  (event_name event, event_step event).

End Routes.

(* ================================================================== *)
(** ** Vocabulary of the statements *)
(* ================================================================== *)

Module Statements.
Import Py Sys Prim.

(** The registry has an entry for [agent_id]. *)
Definition known (agent_id : string) (w : world) : Prop :=
  dict_mem agent_id (discovered_agents w) = true.

(** An endpoint that does not answer: every GET below it fails. *)
Definition unreachable (env : environment) (endpoint : string) : Prop :=
  forall n path, exists e, http_get env n (endpoint ++ path) = HttpFail e.

(** The entries [_discover_single_agent] stores. *)
Definition card_entry (endpoint method : string) (agent_card : json) : json :=
  JObj [("endpoint", JStr endpoint);
        ("agent_card", agent_card);
        ("protocol", JStr "a2a");
        ("discovery_method", JStr method)].

Definition legacy_entry (endpoint : string) (capabilities : json) : json :=
  JObj [("endpoint", JStr endpoint);
        ("capabilities", capabilities);
        ("protocol", JStr "legacy");
        ("discovery_method", JStr "capabilities_endpoint")].

Definition health_entry (endpoint : string) (health : json) : json :=
  JObj [("endpoint", JStr endpoint);
        ("health", health);
        ("protocol", JStr "unknown");
        ("discovery_method", JStr "health_check")].

(** A response a probe block goes through with: status 200, a body that
    is a JSON object, and under [name_key] a string (or nothing, which
    reads as "unknown").  It gives the agent id and the body. *)
Definition accepted (name_key : string) (o : http_outcome)
  : option (string * dict) :=
  match o with
  | HttpResp status _ (Some (JObj d)) =>
      if (status =? 200)%Z then
        match dict_get_default name_key (JStr "unknown") d with
        | JStr name =>
            Some (str_replace_char " "%char "_"%char (str_lower name), d)
        | _ => None
        end
      else None
  | _ => None
  end.

(** The world after a probe block stored an entry and a capability list. *)
Definition stored (agent_id : string) (entry caps : json) (w : world) : world :=
  let w' := set_discovered_agents
              (dict_set agent_id entry (discovered_agents w)) w in
  set_agent_capabilities (dict_set agent_id caps (agent_capabilities w')) w'.

Definition stored_entry (agent_id : string) (entry : json) (w : world) : world :=
  set_discovered_agents (dict_set agent_id entry (discovered_agents w)) w.

Definition logged (o : outbound) (w : world) : world :=
  set_sent (sent w ++ [o])%list w.

(** The entry the first accepted probe of an endpoint stores, with the
    agent id it is stored under. *)
Definition classification (env : environment) (endpoint : string) (w : world)
  : option (string * json) :=
  let n := List.length (sent w) in
  match accepted "name" (http_get env n (endpoint ++ "/a2a/agent.json")) with
  | Some (agent_id, card) =>
      Some (agent_id, card_entry endpoint "agent_card" (JObj card))
  | None =>
  match accepted "name"
          (http_get env (S n) (endpoint ++ "/.well-known/agent.json")) with
  | Some (agent_id, card) =>
      Some (agent_id, card_entry endpoint "agent_card_standard" (JObj card))
  | None =>
  match accepted "agent_name"
          (http_get env (S (S n)) (endpoint ++ "/capabilities")) with
  | Some (agent_id, capabilities) =>
      Some (agent_id, legacy_entry endpoint (JObj capabilities))
  | None =>
  match accepted "agent"
          (http_get env (S (S (S n))) (endpoint ++ "/health")) with
  | Some (agent_id, health) =>
      Some (agent_id, health_entry endpoint (JObj health))
  | None => None
  end end end end.

Definition probe_paths : list string :=
  ["/a2a/agent.json"; "/.well-known/agent.json"; "/capabilities"; "/health"].

(** What the four probes of an endpoint would be answered, were they
    all sent one after the other starting from world [w]. *)
Definition probe_outcomes (env : environment) (endpoint : string) (w : world)
  : list http_outcome :=
  map (fun ip : nat * string =>
         http_get env (List.length (sent w) + fst ip) (endpoint ++ snd ip))
      (combine (seq 0 4) probe_paths).

(** The wording of the specification: a response counts as soon as it
    is 2xx and JSON. *)
Definition is_2xx_json (o : http_outcome) : bool :=
  match o with
  | HttpResp status _ (Some _) => (200 <=? status)%Z && (status <? 300)%Z
  | _ => false
  end.

Fixpoint first_2xx_json (k : nat) (outcomes : list http_outcome) : option nat :=
  match outcomes with
  | [] => None
  | o :: rest => if is_2xx_json o then Some k else first_2xx_json (S k) rest
  end.

Definition protocol_of_path (k : nat) : string :=
  match k with
  | 0 | 1 => "a2a"
  | 2 => "legacy"
  | _ => "unknown"
  end.

(** The discovery claim as the specification words it: the first path
    answered by a 2xx JSON response classifies the agent, and no later
    path is probed. *)
Definition first_2xx_json_classifies (env : environment) (endpoint : string)
  (w : world) : Prop :=
  let w' := final (Discovery._discover_single_agent env endpoint w) in
  forall k, first_2xx_json 0 (probe_outcomes env endpoint w) = Some k ->
    sent w' = (sent w ++ map (fun p => HttpGet (endpoint ++ p))
                           (firstn (S k) probe_paths))%list
    /\ exists agent_id entry,
         dict_get agent_id (discovered_agents w') = Some (JObj entry)
         /\ dict_get "endpoint" entry = Some (JStr endpoint)
         /\ dict_get "protocol" entry = Some (JStr (protocol_of_path k)).

(** *** The LLM provider *)

(** The [error] annotation of a response object. *)
Definition error_of (response : json) : option json :=
  match response with
  | JObj d => dict_get "error" d
  | _ => None
  end.

(** The annotation the specification gives to an answer of the remote:
    401, 429, any 5xx, a timeout, any other status outside 2xx. *)
Definition annotation_as_stated (o : http_outcome) : option string :=
  match o with
  | HttpFail e =>
      match exn_cls e with
      | TimeoutException => Some "timeout"
      | _ => None
      end
  | HttpResp status _ _ =>
      if (status =? 401)%Z then Some "authentication_failed"
      else if (status =? 429)%Z then Some "rate_limit_exceeded"
      else if (500 <=? status)%Z && (status <=? 599)%Z then Some "server_error"
      else if (200 <=? status)%Z && (status <=? 299)%Z then None
      else Some ("http_error_" ++ Z_to_string status)
  end.

(** The claim on the provider as the specification words it, for a
    remote that gives the answer [o] to every chat-completion request:
    the call returns a response object annotated with the error that
    goes with [o]. *)
Definition envoy_annotates (env : environment) (self : Provider.provider)
  (messages : json) (kwargs : dict) (w : world) : Prop :=
  forall o ann,
    (forall n body, http_post env n (Provider.chat_url self) body = o) ->
    annotation_as_stated o = Some ann ->
    exists response,
      outcome (Provider.chat_completion env self messages kwargs w)
      = Ok response
      /\ error_of response = Some (JStr ann).

(** The annotation [chat_request] gives to the answer to its request:
    none when a 200 answer holds a JSON object (the object is returned
    with its response time); a 200 answer whose body is no JSON makes
    [response.json()] raise, and one whose JSON is no object fails at
    the item assignment. *)
Definition annotation (o : http_outcome) : option string :=
  match o with
  | HttpFail e =>
      match exn_cls e with
      | TimeoutException => Some "timeout"
      | NetworkError => Some "network_error"
      | JSONDecodeError => Some "invalid_response"
      | _ => Some "unexpected_error"
      end
  | HttpResp status _ parsed =>
      if (status =? 200)%Z then
        match parsed with
        | None => Some "invalid_response"
        | Some (JObj _) => None
        | Some _ => Some "unexpected_error"
        end
      else if (status =? 401)%Z then Some "authentication_failed"
      else if (status =? 429)%Z then Some "rate_limit_exceeded"
      else if (500 <=? status)%Z then Some "server_error"
      else Some ("http_error_" ++ Z_to_string status)
  end.

(** The message [verify_connection] gives for the answer to its probe;
    [None] when the probe is answered with status 200. *)
Definition probe_message (self : Provider.provider) (o : http_outcome)
  : option string :=
  match o with
  | HttpFail e =>
      match exn_cls e with
      | TimeoutException =>
          Some ("Connection timeout after "
                ++ Z_to_string (Provider.timeout self) ++ "s")
      | NetworkError => Some ("Network error: " ++ exn_msg e)
      | _ => Some ("Unexpected error: " ++ exn_msg e)
      end
  | HttpResp status text _ =>
      if (status =? 200)%Z then None
      else if (status =? 401)%Z
      then Some "Authentication failed - check API key"
      else if (status =? 404)%Z then Some "Model not found - check model name"
      else Some ("HTTP " ++ Z_to_string status ++ ": "
                 ++ str_prefix 200 text)
  end.

(** *** The executor *)

(** The result of a step is a dict whose [success], when it has one, is
    a boolean. *)
Definition plain_result (r : json) : bool :=
  match r with
  | JObj d =>
      match dict_get "success" d with
      | None | Some (JBool _) => true
      | _ => false
      end
  | _ => false
  end.

(** The task table has task [task_id] with value [v] under [key]. *)
Definition task_has (task_id : string) (w : world) (key : string) (v : json)
  : Prop :=
  exists t, dict_get task_id (active_tasks w) = Some (JObj t)
            /\ dict_get key t = Some v.

(** The fields the executor reads from a plan step. *)
Definition step_number_of (d : dict) : json :=
  dict_get_default "step" (JInt 0) d.
Definition action_of (d : dict) : json :=
  dict_get_default "action" (JStr "unknown") d.
Definition target_of (d : dict) : json := dict_get_default "target" (JStr "") d.
Definition task_of (d : dict) : json := dict_get_default "task" (JStr "") d.

Definition step_started (d : dict) : json :=
  JObj [("event", JStr "step_started");
        ("step_number", step_number_of d);
        ("step_description",
         JStr (py_str (action_of d) ++ " -> " ++ py_str (target_of d) ++ ": "
               ++ py_str (task_of d)));
        ("action", action_of d);
        ("target", target_of d);
        ("task", task_of d)].

(** The StepRecord of the streaming executor. *)
Definition step_record (d : dict) (result : json) (duration stamp : Z) : json :=
  JObj [("step", step_number_of d);
        ("action", action_of d);
        ("target", target_of d);
        ("result", result);
        ("duration", JInt duration);
        ("timestamp", JInt stamp)].

(** The entry appended to the task's step log. *)
Definition task_entry (d : dict) (result : json) (duration stamp : Z) : json :=
  JObj [("step", JStr ("execution_step_" ++ py_str (step_number_of d)));
        ("action", action_of d);
        ("target", target_of d);
        ("result", result);
        ("duration", JInt duration);
        ("timestamp", JInt stamp)].

(** What is recorded as the result of a step that raised. *)
Definition failure_result (d : dict) (e : exn) : json :=
  JObj [("error", JStr (exn_msg e)); ("step", step_number_of d)].

Definition step_completed (d : dict) (result : json) (duration : Z) : json :=
  JObj [("event", JStr "step_completed");
        ("step_number", step_number_of d);
        ("action", action_of d);
        ("target", target_of d);
        ("success", CommonAgent.success_of result);
        ("duration", JInt duration);
        ("result", result)].

Definition step_failed (d : dict) (e : exn) (duration : Z) : json :=
  JObj [("event", JStr "step_completed");
        ("step_number", step_number_of d);
        ("action", action_of d);
        ("target", target_of d);
        ("success", JBool false);
        ("duration", JInt duration);
        ("error", JStr (exn_msg e))].

(** The StepRecord of the batch executor, for a step that returned and
    for a step that raised. *)
Definition batch_record (d : dict) (result : json) (stamp : Z) : json :=
  JObj [("step", step_number_of d);
        ("action", action_of d);
        ("target", target_of d);
        ("result", result);
        ("timestamp", JInt stamp)].

Definition batch_failure (d : dict) (e : exn) (stamp : Z) : json :=
  JObj [("step", step_number_of d);
        ("action", action_of d);
        ("target", target_of d);
        ("error", JStr (exn_msg e));
        ("timestamp", JInt stamp)].

(** A StepRecord whose result maps [success] to [False]. *)
Definition maps_success_to_false (record : json) : bool :=
  match record with
  | JObj r =>
      match dict_get "result" r with
      | Some (JObj res) =>
          match dict_get "success" res with
          | Some (JBool false) => true
          | _ => false
          end
      | _ => false
      end
  | _ => false
  end.



(** A record the streaming executor made for step [d]. *)
Definition record_of (d : dict) (record : json) : Prop :=
  exists result duration stamp,
    record = step_record d result duration stamp
    /\ plain_result result = true.

(** The dispatch of plan step [d] by the streaming executor, started
    from world [w]: the clock is read once before it. *)
Definition dispatched (env : environment) (d : dict) (w : world)
  : list json * result json * world :=
  CommonAgent.stream_dispatch env (action_of d) (target_of d) (task_of d)
    (clock env (ticks w)) (set_ticks (S (ticks w)) w).

(** *** What an outbound call carries *)

Definition field (k : string) (v : json) : option json :=
  match v with
  | JObj d => dict_get k d
  | _ => None
  end.

Definition item (n : nat) (v : json) : option json :=
  match v with
  | JArr l => nth_error l n
  | _ => None
  end.

Definition and_then {A B : Type} (o : option A) (f : A -> option B) : option B :=
  match o with
  | Some a => f a
  | None => None
  end.

(** [params.message.parts[1].data] of an A2A envelope. *)
Definition a2a_context (body : json) : option json :=
  and_then (field "params" body) (fun params =>
  and_then (field "message" params) (fun message =>
  and_then (field "parts" message) (fun parts =>
  and_then (item 1 parts) (fun part => field "data" part)))).

(** The context object of an outbound call: the data part of an A2A
    envelope, the context of a legacy task, the arguments of an MCP
    [tools/call]. *)
Definition call_context (o : outbound) : option json :=
  match o with
  | HttpPost _ body =>
      match a2a_context body with
      | Some c => Some c
      | None => field "context" body
      end
  | McpWrite _ message =>
      and_then (field "params" message) (fun params =>
      field "arguments" params)
  | _ => None
  end.

(** The task text of an outbound call: the text part of an A2A
    envelope, the description of a legacy task. *)
Definition a2a_text (body : json) : option json :=
  and_then (field "params" body) (fun params =>
  and_then (field "message" params) (fun message =>
  and_then (field "parts" message) (fun parts =>
  and_then (item 0 parts) (fun part => field "text" part)))).

Definition call_description (o : outbound) : option json :=
  match o with
  | HttpPost _ body =>
      match a2a_text body with
      | Some t => Some t
      | None => field "description" body
      end
  | _ => None
  end.

(** A task delegated to the agent at [endpoint]: a POST to its task
    route with the text [description] and the context [_call_agent]
    builds from [previous_results]. *)
Definition delegates (endpoint description : json)
  (previous_results : list json) (o : outbound) : Prop :=
  exists url body,
    o = HttpPost url body
    /\ (url = py_str endpoint ++ "/tasks/send"
        \/ url = py_str endpoint ++ "/task")
    /\ call_description o = Some description
    /\ call_context o
       = Some (JObj [("previous_results", JArr previous_results);
                     ("delegated_by", JStr "common_agent")]).


(** The messages a computation started in world [w] has sent. *)
Definition sent_by {A : Type} (o : list json * result A * world) (w : world)
  : list outbound :=
  skipn (List.length (sent w)) (sent (final o)).

(** The dispatch of plan step [d] by the batch executor. *)
Definition batch_dispatched (env : environment) (d : dict) (w : world)
  : list json * result json * world :=
  CommonAgent.batch_dispatch env (action_of d) (target_of d) (task_of d) w.




(** The context [_call_agent] builds. *)
Definition delegation_context (previous_results : list json) : json :=
  JObj [("previous_results", JArr previous_results);
        ("delegated_by", JStr "common_agent")].

(** The protocol test of [_call_agent]: [protocol == "a2a"], where a
    missing protocol counts as ["unknown"]. *)
Definition speaks_a2a (info : dict) : bool :=
  is_str "a2a" (dict_get_default "protocol" (JStr "unknown") info).


(** What [_coordinate_action] returns: of the records it is given it
    keeps the count. *)
Definition coordinated (target description : json) (records : nat) : json :=
  JObj [("success", JBool true);
        ("coordination_target", target);
        ("description", description);
        ("result", JStr "协调动作完成");
        ("processed_results", of_nat records)].

(** *** The event stream of a submission *)

(** Every entry of the registry is what a probe writes: a dict with an
    endpoint (anything falsy counts as no entry). *)
Definition registry_well_formed (w : world) : Prop :=
  forall agent_id info,
    dict_get agent_id (discovered_agents w) = Some info ->
    truthy info = true ->
    exists d endpoint, info = JObj d /\ dict_get "endpoint" d = Some endpoint.

(** The streamed reply, put together. *)
Fixpoint joined (chunks : list string) : string :=
  match chunks with
  | [] => ""
  | chunk :: rest => chunk ++ joined rest
  end.

(** The streamed reply [text] parses into [v]: [json.loads] decodes the
    whole text, or it rejects it and decodes the stretch from the first
    opening brace to the last closing one. *)
Definition parses_into (env : environment) (text : string) (v : json) : Prop :=
  json_loads env text = Some v
  \/ (json_loads env text = None
      /\ exists group rest,
           Re.search CommonAgent.braces_pattern text = Some (group, rest)
           /\ json_loads env group = Some v).

(** The prompt of the streaming path, as the log keeps it. *)
Definition stream_prompt (system_context description : json) : json :=
  JObj [("context", system_context); ("task", description)].

(** The names of the events of a two-step plan, with the step number
    where an event has one. *)
Definition two_step_events (progress : nat) (n1 n2 : json)
  : list (string * option json) :=
  ([("task_started", None); ("llm_analysis_started", None)]
   ++ repeat ("llm_analysis_progress", None) progress
   ++ [("llm_analysis_completed", None);
       ("llm_decision_made", None);
       ("execution_started", None);
       ("step_started", Some n1);
       ("agent_call_started", None);
       ("agent_call_completed", None);
       ("step_started", Some n2);
       ("mcp_tool_used", None);
       ("step_completed", Some n2);
       ("execution_completed", None);
       ("task_completed", None)])%list.

(** *** The fallback *)

(** The fallback claim as the specification words it, for a fallback
    [o] started in a world whose registry is not empty: one outbound
    call is made, to the first agent of the registry, with the raw
    description and no previous results. *)
Definition falls_back_to_first_agent {A : Type}
  (o : list json * result A * world) (description : json) (w : world) : Prop :=
  exists first info endpoint rest call,
    discovered_agents w = (first, JObj info) :: rest
    /\ dict_get "endpoint" info = Some endpoint
    /\ sent_by o w = [call]
    /\ delegates endpoint description [] call.

Definition fallback_result (task_id first : string) (result : json) : json :=
  JObj [("task_id", JStr task_id);
        ("execution_strategy", JStr "fallback");
        ("selected_agent", JStr first);
        ("result", result);
        ("note", JStr "使用降级处理，因为LLM分析失败")].

Definition fallback_failed (task_id : string) : json :=
  JObj [("task_id", JStr task_id);
        ("execution_strategy", JStr "failed");
        ("error", JStr "没有可用的agents，且LLM处理失败");
        ("available_agents", JArr [])].

Definition fallback_started : json :=
  JObj [("event", JStr "fallback_started");
        ("reason", JStr "LLM处理失败，使用降级逻辑")].

Definition fallback_undecided : json :=
  JObj [("event", JStr "fallback_error");
        ("error", JStr "无法确定合适的处理方式")].

Definition fallback_decision : json :=
  JObj [("event", JStr "fallback_decision");
        ("target", JStr "ui_designer_agent");
        ("reason", JStr "检测到设计相关任务")].

(** None of the three words the streaming fallback looks for. *)
Definition no_design_word (s : string) : bool :=
  negb (contains "设计" s) && negb (contains "界面" s) && negb (contains "UI" s).

(** *** Tool steps *)

Definition colon : ascii := ":"%char.

Fixpoint colon_free (s : string) : bool :=
  match s with
  | EmptyString => true
  | String a s' => negb (Ascii.eqb a colon) && colon_free s'
  end.

(** The target [S:T] of a tool step. *)
Definition tool_target (server tool : string) : json :=
  JStr (server ++ String colon tool).

(** A [tools/call] request written to [server] that names [tool]. *)
Definition tools_call (server tool : string) (o : outbound) : Prop :=
  exists message,
    o = McpWrite server message
    /\ field "method" message = Some (JStr "tools/call")
    /\ and_then (field "params" message) (field "name") = Some (JStr tool).

(** The tool claim as the specification words it: the step sends one
    message, a [tools/call] request to [server] naming [tool], and the
    result it records is what the server answered. *)
Definition dispatches_tools_call (env : environment) (server tool : string)
  (task_desc : json) (w : world) : Prop :=
  let o := CommonAgent._use_mcp_tool env (tool_target server tool) task_desc w in
  exists request,
    sent_by o w = [request] /\ tools_call server tool request.

(** What [_invoke_mcp_tool_via_protocol] returns. *)
Definition placeholder (server tool task_desc : json) : json :=
  JObj [("status", JStr "mcp_protocol_required");
        ("message", JStr ("需要实现真正的MCP协议来调用 " ++ py_str tool));
        ("server", server);
        ("tool", tool);
        ("task", task_desc);
        ("note",
         JStr "真正的MCP连接实现后，这里会返回工具的实际执行结果")].

(** What a tool step with target [S:T] records as its result. *)
Definition tool_step_result (server tool task_desc : json) : json :=
  JObj [("success", JBool true);
        ("server", server);
        ("tool", tool);
        ("result",
         JObj [("success", JBool true);
               ("server", server);
               ("tool", tool);
               ("task_description", task_desc);
               ("execution_method", JStr "real_mcp_protocol");
               ("result", placeholder server tool task_desc)]);
        ("task_description", task_desc);
        ("execution_method", JStr "LLM_driven_MCP_call")].

(** The configuration side of the world is the same. *)
Definition settled (w w' : world) : Prop :=
  discovered_agents w' = discovered_agents w
  /\ agent_capabilities w' = agent_capabilities w
  /\ task_counter w' = task_counter w
  /\ llm_ready w' = llm_ready w
  /\ servers_config w' = servers_config w
  /\ connection_verified w' = connection_verified w.

(** *** The reply parser *)

(** No line feed is directly followed by a backquote. *)
Fixpoint nl_tick_free (s : string) : bool :=
  match s with
  | String a ((String b _) as s') =>
      negb (Ascii.eqb a nl_char && Ascii.eqb b Re.backquote)
      && nl_tick_free s'
  | _ => true
  end.

(** What the JSON grammar makes true of [json.loads]: it rejects the
    empty text and any text that starts with a backquote, and in a text
    it accepts no line feed is directly followed by a backquote (a raw
    line feed cannot stand inside a string literal, and outside of one
    a backquote starts no token). *)
Definition loads_follows_json_grammar (env : environment) : Prop :=
  json_loads env "" = None
  /\ (forall t, json_loads env (String Re.backquote t) = None)
  /\ (forall t v, json_loads env t = Some v -> nl_tick_free t = true).

End Statements.

(* ================================================================== *)
(** ** Concrete worlds and environments *)
(* ================================================================== *)

Module Scenarios.
Import Py Sys Prim Statements.

Definition refused : exn := mk_exn NetworkError "All connection attempts failed".

(** A freshly started coordinator: nothing discovered, no task, the LLM
    client ready, no MCP server configured. *)
Definition fresh : world :=
  mk_world [] [] [] 0 true [] [] [] 0 false [] [] 0.

(** An environment in which nothing answers. *)
Definition silent : environment :=
  mk_environment
    (fun _ _ => HttpFail refused)
    (fun _ _ _ => HttpFail refused)
    (fun _ _ => false)
    (fun _ _ => LineEmpty)
    (fun _ _ => Raise refused)
    (fun _ _ => [])
    (fun n => Z.of_nat n)
    (fun _ => None)
    (fun s => (false, JObj [("approach", JStr "direct_response");
                            ("reasoning",
                             JStr "Could not parse as structured data");
                            ("response", JStr s);
                            ("parse_attempted", JBool true)])).

Definition with_http_get (f : nat -> string -> http_outcome)
  (env : environment) : environment :=
  mk_environment f (http_post env) (mcp_spawn env) (mcp_readline env)
    (llm_send env) (llm_stream env) (clock env) (json_loads env)
    (text_strategies env).

Definition with_http_post (f : nat -> string -> json -> http_outcome)
  (env : environment) : environment :=
  mk_environment (http_get env) f (mcp_spawn env) (mcp_readline env)
    (llm_send env) (llm_stream env) (clock env) (json_loads env)
    (text_strategies env).

Definition with_llm_stream (f : nat -> json -> list string)
  (env : environment) : environment :=
  mk_environment (http_get env) (http_post env) (mcp_spawn env)
    (mcp_readline env) (llm_send env) f (clock env) (json_loads env)
    (text_strategies env).

Definition with_llm_send (f : nat -> json -> result string)
  (env : environment) : environment :=
  mk_environment (http_get env) (http_post env) (mcp_spawn env)
    (mcp_readline env) f (llm_stream env) (clock env) (json_loads env)
    (text_strategies env).

Definition with_json_loads (f : string -> option json)
  (env : environment) : environment :=
  mk_environment (http_get env) (http_post env) (mcp_spawn env)
    (mcp_readline env) (llm_send env) (llm_stream env) (clock env) f
    (text_strategies env).

Definition with_mcp (spawn : nat -> string -> bool)
  (readline : nat -> string -> mcp_line) (env : environment) : environment :=
  mk_environment (http_get env) (http_post env) spawn readline
    (llm_send env) (llm_stream env) (clock env) (json_loads env)
    (text_strategies env).

(** Discovery: an endpoint whose agent card is served with status 201
    on the first path and with status 200 on the second. *)
Definition card_x : json := JObj [("name", JStr "X")].
Definition card_y : json := JObj [("name", JStr "Y"); ("skills", JArr [JStr "s"])].

Definition env_created : environment :=
  with_http_get
    (fun _ url =>
       if url =? "http://e:1/a2a/agent.json" then HttpResp 201 "{}" (Some card_x)
       else if url =? "http://e:1/.well-known/agent.json"
            then HttpResp 200 "{}" (Some card_y)
            else HttpFail refused)
    silent.

(** Discovery: an endpoint whose agent card has a null name, and whose
    health endpoint answers. *)
Definition card_null : json := JObj [("name", JNull)].
Definition health_z : json := JObj [("agent", JStr "Z")].

Definition env_null_name : environment :=
  with_http_get
    (fun _ url =>
       if url =? "http://e:1/a2a/agent.json" then HttpResp 200 "{}" (Some card_null)
       else if url =? "http://e:1/health"
            then HttpResp 200 "{}" (Some health_z)
            else HttpFail refused)
    silent.

(** Discovery: endpoint E1 serves the card of agent X, endpoint E2
    refuses the connection (scenario 4 of the specification). *)
Definition env_e1_only : environment :=
  with_http_get
    (fun _ url =>
       if url =? "http://e1:1/a2a/agent.json" then HttpResp 200 "{}" (Some card_x)
       else HttpFail refused)
    silent.

(** The provider: a remote that answers 401 to everything, as it does
    to a wrong API key. *)
Definition siliconflow : Provider.provider :=
  Provider.mk_provider "sk-wrong" "deepseek-ai/DeepSeek-V3"
    "https://api.siliconflow.cn/v1" 60.

Definition unauthorized : http_outcome :=
  HttpResp 401 "{}" (Some (JObj [("error", JStr "invalid api key")])).

Definition env_unauthorized : environment :=
  with_http_post (fun _ _ _ => unauthorized) silent.

Definition hello : json :=
  JArr [JObj [("role", JStr "user"); ("content", JStr "Hello")]].

Definition verified_world : world :=
  set_connection_verified true fresh.

(** The parser: a [json.loads] that knows one text, the empty object. *)
Definition env_braces : environment :=
  with_json_loads (fun s => if s =? "{}" then Some (JObj []) else None) silent.

Definition padded_braces : string := " {}" ++ nl.

(** The executor: a task table with one task, and a plan whose first
    step names its agent by a list, which no dict lookup accepts. *)
Definition world_with_task : world :=
  set_active_tasks
    [("task_0", JObj [("id", JStr "task_0"); ("steps", JArr [])])] fresh.

Definition step_list_target : dict :=
  [("step", JInt 1); ("action", JStr "agent_call");
   ("target", JArr [JStr "researcher"]); ("task", JStr "gather")].

Definition step_read_file : dict :=
  [("step", JInt 2); ("action", JStr "tool_use");
   ("target", JStr "fs:read_file"); ("task", JStr "read /tmp/x");
   ("dependencies", JArr [JInt 1])].

Definition plan_with_failure : dict :=
  [("execution_strategy", JStr "hybrid");
   ("execution_plan", JArr [JObj step_list_target; JObj step_read_file])].

(** The executor after one step: a record is there when the tool step
    starts. *)
Definition prior_record : json :=
  step_record step_list_target (JObj [("error", JStr "x")]) 0 0.

Definition world_after_one : world :=
  set_execution_results [prior_record] world_with_task.

(** A server that is running, for the protocol client. *)
Definition world_with_fs : world :=
  set_mcp_active ["fs"] fresh.

Definition step_ask_x : dict :=
  [("step", JInt 2); ("action", JStr "agent_call");
   ("target", JStr "x"); ("task", JStr "summarise");
   ("dependencies", JArr [JInt 1])].

Definition world_with_x : world :=
  final (Discovery.discover_agents env_e1_only ["http://e1:1"; "http://e2:1"]
           fresh).

(** A task for the fallback: the registry knows [x], the task table has
    [task_0], and the text names no design word. *)
Definition summarise : json := JStr "Summarise the report".

Definition world_with_x_and_task : world :=
  set_active_tasks
    [("task_0", JObj [("id", JStr "task_0"); ("steps", JArr [])])]
    world_with_x.

(** An LLM whose streamed reply is no JSON text. *)
Definition env_chatty : environment :=
  with_llm_send (fun _ _ => Ok "Sure, I can help with that.")
    (with_llm_stream (fun _ _ => ["Sure, "; "I can help with that."]) silent).

(** A submission whose reply is a two-step plan (scenario 1 of the
    specification): the registry has the researcher, the LLM streams
    the plan in two chunks, the agent answers. *)
Definition step_gather : dict :=
  [("step", JInt 1); ("action", JStr "agent_call");
   ("target", JStr "researcher"); ("task", JStr "gather");
   ("dependencies", JArr [])].

Definition two_step_plan : dict :=
  [("analysis", JStr "gather, then read");
   ("execution_strategy", JStr "hybrid");
   ("execution_plan", JArr [JObj step_gather; JObj step_read_file])].

Definition env_planner : environment :=
  with_json_loads
    (fun s => if s =? "PLAN" then Some (JObj two_step_plan) else None)
    (with_llm_stream (fun _ _ => ["PL"; "AN"])
       (with_http_post
          (fun _ _ _ =>
             HttpResp 200 "{}" (Some (JObj [("result", JStr "done")])))
          silent)).

Definition world_with_researcher : world :=
  set_discovered_agents
    [("researcher",
      JObj [("endpoint", JStr "http://r:1"); ("protocol", JStr "a2a")])]
    fresh.

Definition request : dict := [("description", JStr "Read the notes")].


(** The same plan in a reply that wraps it in prose: [json.loads]
    rejects the whole reply and decodes the stretch between the
    braces. *)
Definition env_wordy_planner : environment :=
  with_json_loads
    (fun s => if s =? "{PLAN}" then Some (JObj two_step_plan) else None)
    (with_llm_stream (fun _ _ => ["Here is the plan: {PL"; "AN} Good luck."])
       (with_http_post
          (fun _ _ _ =>
             HttpResp 200 "{}" (Some (JObj [("result", JStr "done")])))
          silent)).

(** A plan whose first element is a number, not a step. *)
Definition plan_with_a_number : list json := [JInt 7; JObj step_read_file].

(** A remote that answers 200 with a page that is no JSON. *)
Definition env_garbled : environment :=
  with_http_post (fun _ _ _ => HttpResp 200 "<html>busy</html>" None) silent.

(** A coordination step. *)
Definition step_merge : dict :=
  [("step", JInt 3); ("action", JStr "coordination");
   ("target", JStr "merge"); ("task", JStr "merge the results")].

End Scenarios.

(* ================================================================== *)
(** ** What the proofs speak of *)
(* ================================================================== *)

Module Frames.
Import Py Re Sys Prim JsonParser Statements.

(** A relation between the world before and after that a computation
    respects. *)
Definition preserves (R : world -> world -> Prop) {A : Type} (m : M A) : Prop :=
  forall w, R w (final (m w)).

(** A property of the value a computation returns, when it returns. *)
Definition returns {A : Type} (P : A -> Prop) (m : M A) : Prop :=
  forall w, match outcome (m w) with Ok a => P a | Raise _ => True end.

(** The registry only grows: an id that is known stays known. *)
Definition grows (w w' : world) : Prop :=
  forall agent_id, known agent_id w -> known agent_id w'.

(** The registry is exactly what it was. *)
Definition same_registry (w w' : world) : Prop :=
  discovered_agents w' = discovered_agents w.

(** Every character of [s] passes [p]. *)
Fixpoint all_chars (p : ascii -> bool) (s : string) : bool :=
  match s with
  | EmptyString => true
  | String c s' => p c && all_chars p s'
  end.

Definition not_nl (c : ascii) : bool := negb (Ascii.eqb c nl_char).

(** The closing fence of the fenced pattern, after its group. *)
Definition closing : list atom := [AClose; newline; tick; tick; tick].

(** The text after the last line feed of [w], when it has one. *)
Fixpoint after_last_nl (w : string) : option string :=
  match w with
  | EmptyString => None
  | String c w' =>
      match after_last_nl w' with
      | Some v => Some v
      | None => if Ascii.eqb c nl_char then Some w' else None
      end
  end.

(** A handler leaves the registry, the task table, the configuration
    and the executor's records alone: it only sends messages, reads the
    clock and drives the MCP client. *)
Definition steady (w w' : world) : Prop :=
  discovered_agents w' = discovered_agents w
  /\ agent_capabilities w' = agent_capabilities w
  /\ active_tasks w' = active_tasks w
  /\ task_counter w' = task_counter w
  /\ llm_ready w' = llm_ready w
  /\ servers_config w' = servers_config w
  /\ connection_verified w' = connection_verified w
  /\ execution_results w' = execution_results w.

(** The shape of a step's result. *)
Definition plain (r : json) : Prop := plain_result r = true.

(** The request the protocol client writes for [call_tool]. *)
Definition tools_call_request (id : Z) (tool : string) (arguments : json)
  : json :=
  JObj [("jsonrpc", JStr "2.0");
        ("id", JInt id);
        ("method", JStr "tools/call");
        ("params", JObj [("name", JStr tool); ("arguments", arguments)])].

(** The last event of the streaming fallback that made its call. *)
Definition fallback_outcome (r : result json) : json :=
  match r with
  | Ok result =>
      JObj [("event", JStr "fallback_completed"); ("result", result)]
  | Raise e =>
      JObj [("event", JStr "fallback_error"); ("error", JStr (exn_msg e))]
  end.

(** A computation that emits no event. *)
Definition quiet {A : Type} (m : M A) : Prop :=
  forall w, events (m w) = [].

(** The event made of one chunk of the streamed reply. *)
Definition progress_event (chunk : string) : json :=
  JObj [("event", JStr "llm_analysis_progress"); ("chunk", JStr chunk)].

(** An entry of the task's step log made for step [d]. *)
Definition entry_of (d : dict) (entry : json) : Prop :=
  exists result duration stamp,
    entry = task_entry d result duration stamp
    /\ plain_result result = true.

(** The entry of the task's step log made of the decision. *)
Definition analysis_entry (decision : json) (stamp : Z) : json :=
  JObj [("step", JStr "llm_analysis");
        ("decision", decision);
        ("timestamp", JInt stamp)].

End Frames.

(* ================================================================== *)
(** ** Further properties of the code *)
(* ================================================================== *)

Module Observations.
Import Py Re Sys Prim JsonParser Statements Frames.

(** *** Discovery *)





(** A step from a registry of well-formed entries leads to one. *)
Definition keeps_well_formed (w w' : world) : Prop :=
  registry_well_formed w -> registry_well_formed w'.

(** *** The MCP client *)

Definition active (server_name : string) (w : world) : bool :=
  existsb (String.eqb server_name) (mcp_active w).

(** A JSON-RPC request and a notification, as the client writes them. *)
Definition jsonrpc_request (id : Z) (method : string) (params : json) : json :=
  JObj [("jsonrpc", JStr "2.0");
        ("id", JInt id);
        ("method", JStr method);
        ("params", params)].

Definition jsonrpc_notification (method : string) (params : json) : json :=
  JObj [("jsonrpc", JStr "2.0");
        ("method", JStr method);
        ("params", params)].

(** The reply line of a request that is answered without an error: a
    JSON object with no [error] member. *)
Definition answered_well (line : mcp_line) : bool :=
  match line with
  | LineJson (JObj reply) => negb (dict_mem "error" reply)
  | _ => false
  end.

(** *** The decision parser *)

Definition valid_approaches : list json :=
  [JStr "agent_coordination"; JStr "direct_response"; JStr "mcp_tools"].

(** A decision in the form the validator aims at: a valid approach and
    a reasoning. *)
Definition normal_decision (d : dict) : Prop :=
  list_mem (dict_get_default "approach" JNull d) valid_approaches = true
  /\ dict_mem "reasoning" d = true.

Definition not_a_dictionary : json :=
  JObj [("error", JStr "Data is not a dictionary")].

Definition empty_response : json :=
  JObj [("error", JStr "Empty response")].

(** *** The provider *)

Definition request_of (self : Provider.provider) (messages : json)
  (kwargs : dict) : outbound :=
  HttpPost (Provider.chat_url self) (Provider.chat_payload self messages kwargs).

Definition probe_of (self : Provider.provider) : outbound :=
  HttpPost (Provider.chat_url self) (Provider.test_payload self).

(** *** The executor *)

Definition known_action (action : json) : bool :=
  is_str "agent_call" action || is_str "tool_use" action
  || is_str "coordination" action.

Definition unknown_action (action : json) : json :=
  JObj [("error", JStr ("Unknown action: " ++ py_str action))].

Definition agent_not_found (agent_id : string) : json :=
  JObj [("error", JStr ("Agent not found: " ++ agent_id))].

Definition agent_call_started (target : json) : json :=
  JObj [("event", JStr "agent_call_started"); ("agent_id", target)].

Definition agent_call_completed (target result : json) (duration : Z) : json :=
  JObj [("event", JStr "agent_call_completed");
        ("agent_id", target);
        ("result", result);
        ("duration", JInt duration)].

(** The body of a task delegated to a legacy agent. *)
Definition delegated_task (description : json) (previous_results : list json)
  : json :=
  JObj [("type", JStr "delegated_task");
        ("description", description);
        ("context",
         JObj [("previous_results", JArr previous_results);
               ("delegated_by", JStr "common_agent")])].


(** *** The routes *)

Definition description_required : json :=
  JObj [("error", JStr "Task description is required")].

(** A coordinator whose LLM client was never made. *)
Definition world_without_llm : world :=
  mk_world [] [] [] 0 false [] [] [] 0 false [] [] 0.

(** What a submission leaves of the coordinator: one task id is used up,
    and the registry, the capability table, the MCP configuration and
    the LLM client are as they were. *)
Definition submitted (w w' : world) : Prop :=
  task_counter w' = (task_counter w + 1)%Z
  /\ discovered_agents w' = discovered_agents w
  /\ agent_capabilities w' = agent_capabilities w
  /\ llm_ready w' = llm_ready w
  /\ servers_config w' = servers_config w.

End Observations.

(* ================================================================== *)
(** ** Facts about dicts and strings *)
(* ================================================================== *)

Module PyFacts.
Import Py.

Lemma dict_get_set_same (k : string) (v : json) (d : dict) :
  dict_get k (dict_set k v d) = Some v.
Proof.
  induction d as [| [k' v'] d IH]; simpl.
  - now rewrite String.eqb_refl.
  - destruct (String.eqb k k') eqn:E; simpl; rewrite E; auto.
Qed.

Lemma dict_get_set_other (k k' : string) (v : json) (d : dict) :
  k <> k' -> dict_get k (dict_set k' v d) = dict_get k d.
Proof.
  intros Hne. induction d as [| [k0 v0] d IH]; simpl.
  - destruct (String.eqb k k') eqn:E; auto.
    apply String.eqb_eq in E. contradiction.
  - destruct (String.eqb k' k0) eqn:E0; simpl.
    + apply String.eqb_eq in E0. subst k0.
      destruct (String.eqb k k') eqn:E; auto.
      apply String.eqb_eq in E. contradiction.
    + destruct (String.eqb k k0); auto.
Qed.

Lemma dict_mem_set (k k' : string) (v : json) (d : dict) :
  dict_mem k d = true -> dict_mem k (dict_set k' v d) = true.
Proof.
  unfold dict_mem. intros H.
  destruct (String.eqb k k') eqn:E.
  - apply String.eqb_eq in E. subst. now rewrite dict_get_set_same.
  - rewrite dict_get_set_other; auto.
    intros ->. now rewrite String.eqb_refl in E.
Qed.

Lemma dict_mem_set_same (k : string) (v : json) (d : dict) :
  dict_mem k (dict_set k v d) = true.
Proof. unfold dict_mem. now rewrite dict_get_set_same. Qed.


End PyFacts.

(* ================================================================== *)
(** ** Reasoning about computations *)
(* ================================================================== *)

Module MonadFacts.
Import Frames.
Import Py Sys Prim.

(** A relation between the world before and after that every primitive
    step respects is respected by whole computations. *)
Section Preservation.
Variable R : world -> world -> Prop.
Hypothesis R_refl : forall w, R w w.
Hypothesis R_trans : forall a b c, R a b -> R b c -> R a c.

Lemma preserves_ret {A : Type} (a : A) : preserves R (ret a).
Proof. intro w. apply R_refl. Qed.

Lemma preserves_raise {A : Type} (e : exn) : preserves R (@raise A e).
Proof. intro w. apply R_refl. Qed.

Lemma preserves_lift {A : Type} (r : result A) : preserves R (lift r).
Proof. intro w. apply R_refl. Qed.

Lemma preserves_gets {A : Type} (f : world -> A) : preserves R (gets f).
Proof. intro w. apply R_refl. Qed.

Lemma preserves_yield (e : json) : preserves R (yield e).
Proof. intro w. apply R_refl. Qed.

Lemma preserves_bind {A B : Type} (m : M A) (k : A -> M B) :
  preserves R m -> (forall a, preserves R (k a)) -> preserves R (bind m k).
Proof.
  intros Hm Hk w. unfold bind, final.
  specialize (Hm w). unfold final in Hm.
  destruct (m w) as [[ev r] w']. simpl in Hm.
  destruct r as [a | e]; simpl; auto.
  specialize (Hk a w'). unfold final in Hk.
  destruct (k a w') as [[ev' r'] w'']. simpl in *.
  eapply R_trans; eauto.
Qed.

Lemma preserves_try {A : Type} (m : M A) (h : exn -> M A) :
  preserves R m -> (forall e, preserves R (h e)) -> preserves R (try_except m h).
Proof.
  intros Hm Hh w. unfold try_except, final.
  specialize (Hm w). unfold final in Hm.
  destruct (m w) as [[ev r] w']. simpl in Hm.
  destruct r as [a | e]; simpl; auto.
  specialize (Hh e w'). unfold final in Hh.
  destruct (h e w') as [[ev' r'] w'']. simpl in *.
  eapply R_trans; eauto.
Qed.

Lemma preserves_modify (f : world -> world) :
  (forall w, R w (f w)) -> preserves R (modify f).
Proof. intros H w. apply H. Qed.

Lemma preserves_send (o : outbound) :
  (forall v w, R w (set_sent v w)) -> preserves R (send o).
Proof. intros H w. apply H. Qed.

Lemma preserves_now (env : environment) :
  (forall v w, R w (set_ticks v w)) -> preserves R (now env).
Proof. intros H w. apply H. Qed.

End Preservation.

(** Breaks a goal [preserves R m] along the structure of [m]. *)
Ltac preserve refl trans :=
  repeat match goal with
    | |- preserves _ (ret _) => apply preserves_ret; exact refl
    | |- preserves _ (raise _) => apply preserves_raise; exact refl
    | |- preserves _ (lift _) => apply preserves_lift; exact refl
    | |- preserves _ (gets _) => apply preserves_gets; exact refl
    | |- preserves _ (yield _) => apply preserves_yield; exact refl
    | |- preserves _ (send _) => apply preserves_send
    | |- preserves _ (now _) => apply preserves_now
    | |- preserves _ (modify _) => apply preserves_modify
    | |- preserves _ (bind _ _) =>
        apply preserves_bind; [ exact trans | | intros ]
    | |- preserves _ (try_except _ _) =>
        apply preserves_try; [ exact trans | | intros ]
    | |- preserves _ (match ?x with _ => _ end) => destruct x
    end.

Lemma returns_ret {A : Type} (P : A -> Prop) (a : A) :
  P a -> returns P (ret a).
Proof. intros H w. exact H. Qed.

Lemma returns_raise {A : Type} (P : A -> Prop) (e : exn) :
  returns P (raise e).
Proof. intros w. exact I. Qed.

Lemma returns_lift {A : Type} (P : A -> Prop) (r : result A) :
  match r with Ok a => P a | Raise _ => True end -> returns P (lift r).
Proof. intros H w. exact H. Qed.

Lemma returns_gets {A : Type} (P : A -> Prop) (f : world -> A) :
  (forall w, P (f w)) -> returns P (gets f).
Proof. intros H w. apply H. Qed.

Lemma returns_bind_from {A B : Type} (Q : B -> Prop) (P : A -> Prop)
  (m : M B) (k : B -> M A) :
  returns Q m -> (forall b, Q b -> returns P (k b)) -> returns P (bind m k).
Proof.
  intros Hm Hk w. unfold bind, outcome.
  specialize (Hm w). unfold outcome in Hm.
  destruct (m w) as [[ev r] w']; simpl in *.
  destruct r as [b | e]; simpl; auto.
  specialize (Hk b Hm w'). unfold outcome in Hk.
  destruct (k b w') as [[ev' r'] w'']. exact Hk.
Qed.

Lemma returns_any {A : Type} (m : M A) : returns (fun _ => True) m.
Proof. intros w. destruct (outcome (m w)); exact I. Qed.

Lemma returns_bind {A B : Type} (P : A -> Prop) (m : M B) (k : B -> M A) :
  (forall b, returns P (k b)) -> returns P (bind m k).
Proof.
  intros Hk. apply (returns_bind_from (fun _ => True)); auto using returns_any.
Qed.

Lemma returns_try {A : Type} (P : A -> Prop) (m : M A) (h : exn -> M A) :
  returns P m -> (forall e, returns P (h e)) -> returns P (try_except m h).
Proof.
  intros Hm Hh w. unfold try_except, outcome.
  specialize (Hm w). unfold outcome in Hm.
  destruct (m w) as [[ev r] w']; simpl in *.
  destruct r as [a | e]; simpl; auto.
  specialize (Hh e w'). unfold outcome in Hh.
  destruct (h e w') as [[ev' r'] w'']. exact Hh.
Qed.

(** Breaks a goal [returns P m] along the structure of [m]. *)
Ltac returning :=
  repeat match goal with
    | |- returns _ (ret _) => apply returns_ret
    | |- returns _ (raise _) => apply returns_raise
    | |- returns _ (bind _ _) => apply returns_bind; intros
    | |- returns _ (try_except _ _) => apply returns_try; [ | intros ]
    | |- returns _ (match ?x with _ => _ end) => destruct x
    end.

(** Unfolds the plumbing of the monad. *)
Ltac run :=
  cbv beta iota zeta delta
    [bind try_except ret raise lift modify gets yield send now
     client_get client_post response_json].

Lemma bind_ok {A B : Type} (m : M A) (k : A -> M B) w ev a w' :
  m w = (ev, Ok a, w') ->
  bind m k w = ((ev ++ events (k a w'))%list, outcome (k a w'), final (k a w')).
Proof.
  intros H. unfold bind. rewrite H.
  destruct (k a w') as [[ev' r] w'']. reflexivity.
Qed.

Lemma bind_raise {A B : Type} (m : M A) (k : A -> M B) w ev e w' :
  m w = (ev, Raise e, w') -> bind m k w = (ev, Raise e, w').
Proof. intros H. unfold bind. now rewrite H. Qed.

Lemma bind_assoc {A B C : Type} (m : M A) (k : A -> M B) (h : B -> M C) w :
  bind (bind m k) h w = bind m (fun a => bind (k a) h) w.
Proof.
  unfold bind. destruct (m w) as [[ev r] w1]. destruct r as [a | e]; auto.
  destruct (k a w1) as [[ev1 r1] w2]. destruct r1 as [b | e]; auto.
  destruct (h b w2) as [[ev2 r2] w3]. now rewrite app_assoc.
Qed.

Lemma bind_ret_l {A B : Type} (a : A) (k : A -> M B) w :
  bind (ret a) k w = k a w.
Proof. unfold bind, ret. now destruct (k a w) as [[ev r] w']. Qed.

Lemma bind_ext {A B : Type} (m : M A) (k k' : A -> M B) w :
  (forall a w', k a w' = k' a w') -> bind m k w = bind m k' w.
Proof.
  intros H. unfold bind. destruct (m w) as [[ev r] w1].
  destruct r; auto. now rewrite H.
Qed.

Lemma final_of {A : Type} ev (r : result A) w : final (ev, r, w) = w.
Proof. reflexivity. Qed.

Lemma outcome_of {A : Type} ev (r : result A) w : outcome (ev, r, w) = r.
Proof. reflexivity. Qed.

Lemma events_of {A : Type} ev (r : result A) w : events (ev, r, w) = ev.
Proof. reflexivity. Qed.

Lemma triple_eta {A : Type} (o : list json * result A * world) :
  o = (events o, outcome o, final o).
Proof. now destruct o as [[ev r] w]. Qed.

End MonadFacts.

(* ================================================================== *)
(** ** Discovery *)
(* ================================================================== *)

Module DiscoveryFacts.
Import Frames.
Import Py Sys Prim Discovery PyFacts MonadFacts Statements Scenarios.

Lemma grows_refl w : grows w w.
Proof. intros id H. exact H. Qed.

Lemma grows_trans a b c : grows a b -> grows b c -> grows a c.
Proof. intros H1 H2 id H. auto. Qed.

Ltac grow :=
  preserve grows_refl grows_trans;
  try (intros; intros ? ?; unfold known in *; simpl;
       auto using dict_mem_set).

Lemma probe_agent_card_grows env endpoint path method :
  preserves grows (probe_agent_card env endpoint path method).
Proof.
  unfold probe_agent_card, client_get, response_json, register,
    set_capabilities.
  grow.
Qed.

Lemma probe_capabilities_grows env endpoint :
  preserves grows (probe_capabilities env endpoint).
Proof.
  unfold probe_capabilities, client_get, response_json, register,
    set_capabilities.
  grow.
Qed.

Lemma probe_health_grows env endpoint :
  preserves grows (probe_health env endpoint).
Proof.
  unfold probe_health, client_get, response_json, register.
  grow.
Qed.

Lemma discover_single_grows env endpoint :
  preserves grows (_discover_single_agent env endpoint).
Proof.
  unfold _discover_single_agent.
  apply preserves_bind;
    [ exact grows_trans | apply probe_agent_card_grows | intros [] ];
    [ grow | ].
  apply preserves_bind;
    [ exact grows_trans | apply probe_agent_card_grows | intros [] ];
    [ grow | ].
  apply preserves_bind;
    [ exact grows_trans | apply probe_capabilities_grows | intros [] ];
    [ grow | ].
  apply preserves_bind;
    [ exact grows_trans | apply probe_health_grows | intros ].
  grow.
Qed.

Lemma discover_each_grows env endpoints :
  preserves grows (discover_each env endpoints).
Proof.
  induction endpoints as [| e rest IH]; simpl.
  - grow.
  - apply preserves_bind; [ exact grows_trans | | intros; exact IH ].
    apply preserves_try; [ exact grows_trans | | intros; grow ].
    apply discover_single_grows.
Qed.

Lemma discover_agents_grows env endpoints :
  preserves grows (discover_agents env endpoints).
Proof.
  unfold discover_agents.
  apply preserves_bind; [ exact grows_trans | | intros; grow ].
  apply discover_each_grows.
Qed.

Lemma refresh_grows env cycles endpoints :
  preserves grows (_periodic_discovery_refresh env cycles endpoints).
Proof.
  induction cycles as [| n IH]; simpl.
  - grow.
  - apply preserves_bind; [ exact grows_trans | | intros; exact IH ].
    apply preserves_try; [ exact grows_trans | | intros; grow ].
    apply preserves_bind; [ exact grows_trans | | intros; grow ].
    apply discover_agents_grows.
Qed.

(** *** What one probe block does *)

Lemma probe_agent_card_run env endpoint path method w :
  probe_agent_card env endpoint path method w =
  let w1 := logged (HttpGet (endpoint ++ path)) w in
  match accepted "name"
          (http_get env (List.length (sent w)) (endpoint ++ path)) with
  | Some (agent_id, card) =>
      ([], Ok true,
       stored agent_id (card_entry endpoint method (JObj card))
         (dict_get_default "skills" (JArr []) card) w1)
  | None => ([], Ok false, w1)
  end.
Proof.
  unfold probe_agent_card, register, set_capabilities, accepted. run.
  destruct (http_get env (List.length (sent w)) (endpoint ++ path))
    as [e | status text parsed]; [ reflexivity | ].
  destruct (status =? 200)%Z;
    [ | destruct parsed as [ [] | ]; reflexivity ].
  destruct parsed as [ [] | ]; try reflexivity.
  unfold py_get, agent_id_of.
  destruct (dict_get_default "name" (JStr "unknown") fields); reflexivity.
Qed.

Lemma probe_capabilities_run env endpoint w :
  probe_capabilities env endpoint w =
  let w1 := logged (HttpGet (endpoint ++ "/capabilities")) w in
  match accepted "agent_name"
          (http_get env (List.length (sent w)) (endpoint ++ "/capabilities")) with
  | Some (agent_id, capabilities) =>
      ([], Ok true,
       stored agent_id (legacy_entry endpoint (JObj capabilities))
         (dict_get_default "capabilities" (JArr []) capabilities) w1)
  | None => ([], Ok false, w1)
  end.
Proof.
  unfold probe_capabilities, register, set_capabilities, accepted. run.
  destruct (http_get env (List.length (sent w)) (endpoint ++ "/capabilities"))
    as [e | status text parsed]; [ reflexivity | ].
  destruct (status =? 200)%Z;
    [ | destruct parsed as [ [] | ]; reflexivity ].
  destruct parsed as [ [] | ]; try reflexivity.
  unfold py_get, agent_id_of.
  destruct (dict_get_default "agent_name" (JStr "unknown") fields); reflexivity.
Qed.

Lemma probe_health_run env endpoint w :
  probe_health env endpoint w =
  let w1 := logged (HttpGet (endpoint ++ "/health")) w in
  match accepted "agent"
          (http_get env (List.length (sent w)) (endpoint ++ "/health")) with
  | Some (agent_id, health) =>
      ([], Ok true,
       stored_entry agent_id (health_entry endpoint (JObj health)) w1)
  | None => ([], Ok false, w1)
  end.
Proof.
  unfold probe_health, register, accepted. run.
  destruct (http_get env (List.length (sent w)) (endpoint ++ "/health"))
    as [e | status text parsed]; [ reflexivity | ].
  destruct (status =? 200)%Z;
    [ | destruct parsed as [ [] | ]; reflexivity ].
  destruct parsed as [ [] | ]; try reflexivity.
  unfold py_get, agent_id_of.
  destruct (dict_get_default "agent" (JStr "unknown") fields); reflexivity.
Qed.


Lemma length_sent_logged (o : outbound) (w : world) :
  List.length (sent (logged o w)) = S (List.length (sent w)).
Proof. unfold logged. simpl. rewrite length_app. simpl. lia. Qed.

Lemma sent_logged (o : outbound) (w : world) :
  sent (logged o w) = (sent w ++ [o])%list.
Proof. reflexivity. Qed.

(** What [_discover_single_agent] does, read off the four answers. *)
Lemma discover_single_agent_run
  (env : environment) (endpoint : string) (w : world) :
  let n := List.length (sent w) in
  let get1 := HttpGet (endpoint ++ "/a2a/agent.json") in
  let get2 := HttpGet (endpoint ++ "/.well-known/agent.json") in
  let get3 := HttpGet (endpoint ++ "/capabilities") in
  let get4 := HttpGet (endpoint ++ "/health") in
  let w' := final (_discover_single_agent env endpoint w) in
  match accepted "name" (http_get env n (endpoint ++ "/a2a/agent.json")) with
  | Some (agent_id, card) =>
      sent w' = (sent w ++ [get1])%list
      /\ discovered_agents w'
         = dict_set agent_id (card_entry endpoint "agent_card" (JObj card))
             (discovered_agents w)
      /\ agent_capabilities w'
         = dict_set agent_id (dict_get_default "skills" (JArr []) card)
             (agent_capabilities w)
  | None =>
  match accepted "name"
          (http_get env (S n) (endpoint ++ "/.well-known/agent.json")) with
  | Some (agent_id, card) =>
      sent w' = (sent w ++ [get1; get2])%list
      /\ discovered_agents w'
         = dict_set agent_id
             (card_entry endpoint "agent_card_standard" (JObj card))
             (discovered_agents w)
      /\ agent_capabilities w'
         = dict_set agent_id (dict_get_default "skills" (JArr []) card)
             (agent_capabilities w)
  | None =>
  match accepted "agent_name"
          (http_get env (S (S n)) (endpoint ++ "/capabilities")) with
  | Some (agent_id, capabilities) =>
      sent w' = (sent w ++ [get1; get2; get3])%list
      /\ discovered_agents w'
         = dict_set agent_id (legacy_entry endpoint (JObj capabilities))
             (discovered_agents w)
      /\ agent_capabilities w'
         = dict_set agent_id
             (dict_get_default "capabilities" (JArr []) capabilities)
             (agent_capabilities w)
  | None =>
  match accepted "agent"
          (http_get env (S (S (S n))) (endpoint ++ "/health")) with
  | Some (agent_id, health) =>
      sent w' = (sent w ++ [get1; get2; get3; get4])%list
      /\ discovered_agents w'
         = dict_set agent_id (health_entry endpoint (JObj health))
             (discovered_agents w)
      /\ agent_capabilities w' = agent_capabilities w
  | None =>
      sent w' = (sent w ++ [get1; get2; get3; get4])%list
      /\ discovered_agents w' = discovered_agents w
      /\ agent_capabilities w' = agent_capabilities w
  end end end end.
Proof.
  cbv zeta. unfold _discover_single_agent, bind, final.
  rewrite probe_agent_card_run. cbv zeta.
  destruct (accepted "name" _) as [[id card] |]; simpl;
    [ repeat split; reflexivity | ].
  rewrite probe_agent_card_run. cbv zeta. rewrite length_sent_logged.
  destruct (accepted "name" _) as [[id card] |]; simpl;
    [ rewrite <- app_assoc; repeat split; reflexivity | ].
  rewrite probe_capabilities_run. cbv zeta. rewrite !length_sent_logged.
  destruct (accepted "agent_name" _) as [[id caps] |]; simpl;
    [ rewrite <- !app_assoc; repeat split; reflexivity | ].
  rewrite probe_health_run. cbv zeta. rewrite !length_sent_logged.
  destruct (accepted "agent" _) as [[id health] |]; simpl;
    rewrite <- !app_assoc; repeat split; reflexivity.
Qed.

(** C8 (amended).  For every endpoint probed during discovery, GETs are
    attempted in the order /a2a/agent.json, /.well-known/agent.json,
    /capabilities, /health.  The first response with status 200 whose
    body is a JSON object and whose name field, when present, is a
    string classifies the agent: the first two paths store protocol a2a
    with the card's skills as capabilities, /capabilities stores legacy,
    /health stores unknown.  No later path is probed after it; when no
    path is answered that way, all four were probed and the registry is
    left as it was. *)
Theorem C8_first_accepted_probe_classifies
  (env : environment) (endpoint : string) (w : world) :
  let n := List.length (sent w) in
  let get1 := HttpGet (endpoint ++ "/a2a/agent.json") in
  let get2 := HttpGet (endpoint ++ "/.well-known/agent.json") in
  let get3 := HttpGet (endpoint ++ "/capabilities") in
  let get4 := HttpGet (endpoint ++ "/health") in
  let w' := final (_discover_single_agent env endpoint w) in
  match accepted "name" (http_get env n (endpoint ++ "/a2a/agent.json")) with
  | Some (agent_id, card) =>
      sent w' = (sent w ++ [get1])%list
      /\ discovered_agents w'
         = dict_set agent_id (card_entry endpoint "agent_card" (JObj card))
             (discovered_agents w)
      /\ agent_capabilities w'
         = dict_set agent_id (dict_get_default "skills" (JArr []) card)
             (agent_capabilities w)
  | None =>
  match accepted "name"
          (http_get env (S n) (endpoint ++ "/.well-known/agent.json")) with
  | Some (agent_id, card) =>
      sent w' = (sent w ++ [get1; get2])%list
      /\ discovered_agents w'
         = dict_set agent_id
             (card_entry endpoint "agent_card_standard" (JObj card))
             (discovered_agents w)
      /\ agent_capabilities w'
         = dict_set agent_id (dict_get_default "skills" (JArr []) card)
             (agent_capabilities w)
  | None =>
  match accepted "agent_name"
          (http_get env (S (S n)) (endpoint ++ "/capabilities")) with
  | Some (agent_id, capabilities) =>
      sent w' = (sent w ++ [get1; get2; get3])%list
      /\ discovered_agents w'
         = dict_set agent_id (legacy_entry endpoint (JObj capabilities))
             (discovered_agents w)
      /\ agent_capabilities w'
         = dict_set agent_id
             (dict_get_default "capabilities" (JArr []) capabilities)
             (agent_capabilities w)
  | None =>
  match accepted "agent"
          (http_get env (S (S (S n))) (endpoint ++ "/health")) with
  | Some (agent_id, health) =>
      sent w' = (sent w ++ [get1; get2; get3; get4])%list
      /\ discovered_agents w'
         = dict_set agent_id (health_entry endpoint (JObj health))
             (discovered_agents w)
      /\ agent_capabilities w' = agent_capabilities w
  | None =>
      sent w' = (sent w ++ [get1; get2; get3; get4])%list
      /\ discovered_agents w' = discovered_agents w
      /\ agent_capabilities w' = agent_capabilities w
  end end end end.
Proof. exact (discover_single_agent_run env endpoint w). Qed.

(** The claim as the specification words it fails when the card is
    served with status 201 (the next path is probed and classifies),
    and when the card is a JSON object whose name is null (the block is
    abandoned and the health endpoint classifies the agent). *)
Lemma C8_counterexample :
  ~ first_2xx_json_classifies env_created "http://e:1" fresh
  /\ ~ first_2xx_json_classifies env_null_name "http://e:1" fresh.
Proof.
  split; intros H; destruct (H 0%nat eq_refl) as [Hsent _];
    vm_compute in Hsent; discriminate Hsent.
Qed.

(** *** The registry across refresh cycles *)

Lemma discover_single_unreachable env endpoint w :
  unreachable env endpoint ->
  discovered_agents (final (_discover_single_agent env endpoint w))
  = discovered_agents w
  /\ agent_capabilities (final (_discover_single_agent env endpoint w))
    = agent_capabilities w.
Proof.
  intros Hdown.
  pose proof (discover_single_agent_run env endpoint w) as H.
  cbv zeta in H.
  destruct (Hdown (List.length (sent w)) "/a2a/agent.json") as [e1 E1].
  destruct (Hdown (S (List.length (sent w))) "/.well-known/agent.json")
    as [e2 E2].
  destruct (Hdown (S (S (List.length (sent w)))) "/capabilities") as [e3 E3].
  destruct (Hdown (S (S (S (List.length (sent w))))) "/health") as [e4 E4].
  rewrite E1, E2, E3, E4 in H. simpl in H. tauto.
Qed.


Lemma discover_single_classified env endpoint w agent_id entry :
  classification env endpoint w = Some (agent_id, entry) ->
  dict_get agent_id
    (discovered_agents (final (_discover_single_agent env endpoint w)))
  = Some entry.
Proof.
  intros Hc.
  pose proof (discover_single_agent_run env endpoint w) as H.
  cbv zeta in H. unfold classification in Hc.
  destruct (accepted "name" _) as [[id1 c1] |];
    [ inversion Hc; subst; destruct H as (_ & -> & _);
      apply dict_get_set_same | ].
  destruct (accepted "name" _) as [[id2 c2] |];
    [ inversion Hc; subst; destruct H as (_ & -> & _);
      apply dict_get_set_same | ].
  destruct (accepted "agent_name" _) as [[id3 c3] |];
    [ inversion Hc; subst; destruct H as (_ & -> & _);
      apply dict_get_set_same | ].
  destruct (accepted "agent" _) as [[id4 c4] |];
    [ inversion Hc; subst; destruct H as (_ & -> & _);
      apply dict_get_set_same | discriminate ].
Qed.

Lemma same_registry_refl w : same_registry w w.
Proof. reflexivity. Qed.

Lemma same_registry_trans a b c :
  same_registry a b -> same_registry b c -> same_registry a c.
Proof. unfold same_registry. congruence. Qed.

Lemma discover_each_unreachable env endpoints :
  (forall e, In e endpoints -> unreachable env e) ->
  preserves same_registry (discover_each env endpoints).
Proof.
  induction endpoints as [| e rest IH]; simpl; intros Hdown.
  - apply preserves_ret. exact same_registry_refl.
  - apply preserves_bind; [ exact same_registry_trans | | intros; auto ].
    apply preserves_try; [ exact same_registry_trans | | ].
    + intros w. apply discover_single_unreachable. auto.
    + intros. apply preserves_ret. exact same_registry_refl.
Qed.

Lemma refresh_unreachable env cycles endpoints :
  (forall e, In e endpoints -> unreachable env e) ->
  preserves same_registry (_periodic_discovery_refresh env cycles endpoints).
Proof.
  intros Hdown. induction cycles as [| n IH]; simpl.
  - apply preserves_ret. exact same_registry_refl.
  - apply preserves_bind; [ exact same_registry_trans | | intros; exact IH ].
    apply preserves_try; [ exact same_registry_trans | | ].
    + unfold discover_agents.
      apply preserves_bind; [ exact same_registry_trans | | ].
      * apply preserves_bind; [ exact same_registry_trans | | ].
        -- now apply discover_each_unreachable.
        -- intros. apply preserves_gets. exact same_registry_refl.
      * intros. apply preserves_ret. exact same_registry_refl.
    + intros. apply preserves_ret. exact same_registry_refl.
Qed.

(** C7.  An agent id that is in the registry stays in it through any
    number of refresh cycles, whatever the endpoints answer; probing an
    endpoint that does not answer leaves the registry as it was, and so
    do whole cycles in which no endpoint answers; and a probe that is
    answered for an agent id stores its entry over whatever was there. *)
Theorem C7_failed_probe_never_evicts
  (env : environment) (endpoints : list string) (agent_id : string)
  (w : world) :
  known agent_id w ->
  (forall cycles,
      known agent_id
        (final (_periodic_discovery_refresh env cycles endpoints w)))
  /\ (forall endpoint,
        unreachable env endpoint ->
        discovered_agents (final (_discover_single_agent env endpoint w))
        = discovered_agents w)
  /\ (forall cycles,
        (forall e, In e endpoints -> unreachable env e) ->
        discovered_agents
          (final (_periodic_discovery_refresh env cycles endpoints w))
        = discovered_agents w)
  /\ (forall endpoint entry,
        classification env endpoint w = Some (agent_id, entry) ->
        dict_get agent_id
          (discovered_agents (final (_discover_single_agent env endpoint w)))
        = Some entry).
Proof.
  intros Hknown. repeat split.
  - intros cycles. now apply (refresh_grows env cycles endpoints w).
  - intros endpoint Hdown. now apply discover_single_unreachable.
  - intros cycles Hdown. now apply (refresh_unreachable env cycles endpoints).
  - intros endpoint entry. apply discover_single_classified.
Qed.

Lemma unreachable_e2 : unreachable env_e1_only "http://e2:1".
Proof.
  intros n path. exists refused. reflexivity.
Qed.

(** Scenario 4 of the specification: endpoint E1 answered once, E2
    never does; agent x is still there after three cycles. *)
Lemma C7_witness :
  known "x" world_with_x
  /\ known "x"
       (final (_periodic_discovery_refresh env_e1_only 3
                 ["http://e1:1"; "http://e2:1"] world_with_x)).
Proof.
  split; [ reflexivity | ].
  apply (C7_failed_probe_never_evicts env_e1_only
           ["http://e1:1"; "http://e2:1"] "x" world_with_x).
  reflexivity.
Defined.

Example created_card_is_passed_over :
  let w' := final (_discover_single_agent env_created "http://e:1" fresh) in
  sent w' = [HttpGet "http://e:1/a2a/agent.json";
             HttpGet "http://e:1/.well-known/agent.json"]
  /\ discovered_agents w'
     = [("y", card_entry "http://e:1" "agent_card_standard" card_y)].
Proof. split; reflexivity. Qed.

Example null_name_falls_through_to_health :
  let w' := final (_discover_single_agent env_null_name "http://e:1" fresh) in
  List.length (sent w') = 4%nat
  /\ discovered_agents w' = [("z", health_entry "http://e:1" health_z)].
Proof. split; reflexivity. Qed.

End DiscoveryFacts.

(* ================================================================== *)
(** ** The LLM provider *)
(* ================================================================== *)

Module ProviderFacts.
Import Frames.
Import Py Sys Prim Provider PyFacts MonadFacts Statements Scenarios.

Lemma verify_connection_run env self w :
  verify_connection env self w =
  let w1 := logged (HttpPost (chat_url self) (test_payload self)) w in
  match probe_message self
          (http_post env (List.length (sent w)) (chat_url self)
             (test_payload self)) with
  | None =>
      ([], Ok (true, "Connection successful"), set_connection_verified true w1)
  | Some msg => ([], Ok (false, msg), w1)
  end.
Proof.
  unfold verify_connection, probe_message. run.
  destruct (http_post env _ _ _) as [e | status text parsed].
  - unfold is_class. destruct (exn_cls e); reflexivity.
  - destruct (status =? 200)%Z; [ reflexivity | ].
    destruct (status =? 401)%Z; [ reflexivity | ].
    destruct (status =? 404)%Z; reflexivity.
Qed.

(** The request proper never raises, and its response carries the
    annotation that goes with the answer. *)
Lemma chat_request_run env self messages kwargs w :
  exists r w',
    chat_request env self messages kwargs w = ([], Ok (JObj r), w')
    /\ forall ann,
         annotation (http_post env (List.length (sent w)) (chat_url self)
                       (chat_payload self messages kwargs)) = Some ann ->
         dict_get "error" r = Some (JStr ann).
Proof.
  unfold chat_request, annotation. run. simpl.
  destruct (http_post env _ _ _) as [e | status text parsed].
  - unfold is_class.
    destruct (exn_cls e); eexists; eexists; (split; [ reflexivity | ]);
      intros ann H; inversion H; reflexivity.
  - destruct (status =? 200)%Z.
    + destruct parsed as [ [] | ]; simpl;
        eexists; eexists; (split; [ reflexivity | ]); intros ann H;
        first [ discriminate H | inversion H; reflexivity ].
    + destruct (status =? 401)%Z;
        [ eexists; eexists; (split; [ reflexivity | ]);
          intros ann H; inversion H; reflexivity | ].
      destruct (status =? 429)%Z;
        [ eexists; eexists; (split; [ reflexivity | ]);
          intros ann H; inversion H; reflexivity | ].
      destruct (500 <=? status)%Z;
        eexists; eexists; (split; [ reflexivity | ]);
        intros ann H; inversion H; reflexivity.
Qed.


Lemma chat_completion_verified env self messages kwargs w :
  connection_verified w = true ->
  chat_completion env self messages kwargs w
  = chat_request env self messages kwargs w.
Proof.
  intros Hv. unfold chat_completion. run. rewrite Hv.
  destruct (chat_request env self messages kwargs w) as [[ev r] w'].
  reflexivity.
Qed.

Lemma chat_completion_probe_ok env self messages kwargs w :
  connection_verified w = false ->
  probe_message self
    (http_post env (List.length (sent w)) (chat_url self) (test_payload self))
  = None ->
  chat_completion env self messages kwargs w
  = chat_request env self messages kwargs
      (set_connection_verified true
         (logged (HttpPost (chat_url self) (test_payload self)) w)).
Proof.
  intros Hv Hp. unfold chat_completion, bind, gets. rewrite Hv.
  rewrite verify_connection_run. cbv zeta. rewrite Hp. run.
  destruct (chat_request env self messages kwargs _) as [[ev r] w'].
  reflexivity.
Qed.

Lemma chat_completion_probe_failed env self messages kwargs w msg :
  connection_verified w = false ->
  probe_message self
    (http_post env (List.length (sent w)) (chat_url self) (test_payload self))
  = Some msg ->
  chat_completion env self messages kwargs w
  = ([],
     Ok (JObj [("choices",
                JArr [JObj [("message",
                             JObj [("content",
                                    JStr ("LLM connection failed: " ++ msg))])]]);
               ("error", JStr msg)]),
     logged (HttpPost (chat_url self) (test_payload self)) w).
Proof.
  intros Hv Hp. unfold chat_completion, bind, gets. rewrite Hv.
  rewrite verify_connection_run. cbv zeta. rewrite Hp. reflexivity.
Qed.

(** C6 (amended).  A chat-completion call never raises into its caller:
    it always returns a response object.  Once the connection has been
    verified (before the call, or by the probe of this very call being
    answered with status 200), the response to the request is annotated
    with an error field that is authentication_failed on 401,
    rate_limit_exceeded on 429, server_error on any status of 500 or
    more, http_error_<code> on any other status than 200, timeout on a
    timeout, network_error on a network error, invalid_response when a
    200 body is no JSON, and unexpected_error on any other exception (a
    200 body whose JSON is no object among them).  While the connection
    is not verified, a probe that is not answered with status 200 ends
    the call: the error field then carries the probe's message, and no
    request is made. *)
Theorem C6_error_annotated_response
  (env : environment) (self : provider) (messages : json) (kwargs : dict)
  (w : world) :
  let n := List.length (sent w) in
  let probe := http_post env n (chat_url self) (test_payload self) in
  let request k :=
    http_post env k (chat_url self) (chat_payload self messages kwargs) in
  let run := chat_completion env self messages kwargs w in
  (exists r, outcome run = Ok (JObj r))
  /\ (connection_verified w = true ->
      forall ann, annotation (request n) = Some ann ->
      exists r, outcome run = Ok (JObj r)
                /\ dict_get "error" r = Some (JStr ann))
  /\ (connection_verified w = false -> probe_message self probe = None ->
      forall ann, annotation (request (S n)) = Some ann ->
      exists r, outcome run = Ok (JObj r)
                /\ dict_get "error" r = Some (JStr ann))
  /\ (connection_verified w = false ->
      forall msg, probe_message self probe = Some msg ->
      exists r, outcome run = Ok (JObj r)
                /\ dict_get "error" r = Some (JStr msg)
                /\ sent (final run)
                   = (sent w ++ [HttpPost (chat_url self) (test_payload self)])%list).
Proof.
  cbv zeta. repeat split.
  - destruct (connection_verified w) eqn:Hv.
    + rewrite chat_completion_verified by exact Hv.
      destruct (chat_request_run env self messages kwargs w)
        as (r & w' & Hrun & _).
      rewrite Hrun. now exists r.
    + destruct (probe_message self
                  (http_post env (List.length (sent w)) (chat_url self)
                     (test_payload self))) as [msg |] eqn:Hp.
      * rewrite (chat_completion_probe_failed _ _ _ _ _ _ Hv Hp).
        eexists; reflexivity.
      * rewrite (chat_completion_probe_ok _ _ _ _ _ Hv Hp).
        destruct (chat_request_run env self messages kwargs
                    (set_connection_verified true
                       (logged (HttpPost (chat_url self) (test_payload self))
                          w)))
          as (r & w' & Hrun & _).
        rewrite Hrun. now exists r.
  - intros Hv ann Hann.
    rewrite chat_completion_verified by exact Hv.
    destruct (chat_request_run env self messages kwargs w)
      as (r & w' & Hrun & Herr).
    rewrite Hrun. exists r. split; [ reflexivity | now apply Herr ].
  - intros Hv Hp ann Hann.
    rewrite (chat_completion_probe_ok _ _ _ _ _ Hv Hp).
    destruct (chat_request_run env self messages kwargs
                (set_connection_verified true
                   (logged (HttpPost (chat_url self) (test_payload self)) w)))
      as (r & w' & Hrun & Herr).
    rewrite Hrun. exists r. split; [ reflexivity | ].
    apply Herr. simpl sent. rewrite length_app. simpl.
    replace (List.length (sent w) + 1)%nat with (S (List.length (sent w)))
      by lia.
    exact Hann.
  - intros Hv msg Hp.
    rewrite (chat_completion_probe_failed _ _ _ _ _ _ Hv Hp).
    eexists. repeat split; reflexivity.
Qed.

(** A provider whose connection was verified earlier and whose key is
    then refused: the response is annotated authentication_failed. *)
Lemma C6_witness :
  connection_verified verified_world = true
  /\ exists r,
       outcome (chat_completion env_unauthorized siliconflow hello []
                  verified_world) = Ok (JObj r)
       /\ dict_get "error" r = Some (JStr "authentication_failed").
Proof.
  split; [ reflexivity | ].
  exact (proj1 (proj2 (C6_error_annotated_response env_unauthorized
                         siliconflow hello [] verified_world))
           eq_refl "authentication_failed" eq_refl).
Defined.

(** The claim as the specification words it fails on a first call that
    is answered 401: the probe takes the answer, and the error field is
    the probe's message. *)
Lemma C6_counterexample :
  sent (final (chat_completion env_unauthorized siliconflow hello [] fresh))
  = [HttpPost (chat_url siliconflow) (test_payload siliconflow)]
  /\ ~ envoy_annotates env_unauthorized siliconflow hello [] fresh.
Proof.
  split; [ reflexivity | ].
  intros H.
  destruct (H unauthorized "authentication_failed"
              (fun _ _ => eq_refl) eq_refl) as (r & Hrun & Herr).
  vm_compute in Hrun. inversion Hrun. subst r.
  vm_compute in Herr. discriminate Herr.
Qed.

Example first_call_with_wrong_key :
  outcome (chat_completion env_unauthorized siliconflow hello [] fresh)
  = Ok (JObj [("choices",
               JArr [JObj [("message",
                            JObj [("content",
                                   JStr "LLM connection failed: Authentication failed - check API key")])]]);
              ("error", JStr "Authentication failed - check API key")]).
Proof. reflexivity. Qed.

(** A verified connection answered 200 with a page that is no JSON:
    the response is annotated invalid_response. *)
Example garbled_answer_is_invalid_response :
  outcome (chat_completion env_garbled siliconflow hello [] verified_world)
  = Ok (JObj [("choices",
               JArr [JObj [("message",
                            JObj [("content",
                                   JStr "LLM returned invalid JSON response")])]]);
              ("error", JStr "invalid_response")]).
Proof. reflexivity. Qed.

End ProviderFacts.

(* ================================================================== *)
(** ** The reply parser *)
(* ================================================================== *)

Module ParserFacts.
Import Frames.
Import Py Sys Re JsonParser PyFacts Statements Scenarios.

Lemma append_assoc (a b c : string) : (a ++ b) ++ c = a ++ (b ++ c).
Proof. induction a; simpl; congruence. Qed.

Lemma append_empty_r (a : string) : a ++ "" = a.
Proof. induction a; simpl; congruence. Qed.

(** *** Stripping *)

Lemma lstrip_decompose (s : string) :
  exists l, s = l ++ lstrip s /\ all_chars is_space l = true.
Proof.
  induction s as [| c s IH]; simpl.
  - exists "". auto.
  - destruct (is_space c) eqn:E.
    + destruct IH as (l & Hs & Hl). exists (String c l). simpl.
      rewrite E, Hl. split; [ f_equal; exact Hs | reflexivity ].
    + exists "". auto.
Qed.

Lemma rstrip_decompose (s : string) :
  exists t, s = rstrip s ++ t /\ all_chars is_space t = true.
Proof.
  induction s as [| c s IH]; simpl.
  - exists "". auto.
  - destruct IH as (t & Hs & Ht).
    destruct (rstrip s) as [| d r] eqn:Er.
    + simpl in Hs. subst t.
      destruct (is_space c) eqn:E.
      * exists (String c s). simpl. now rewrite E, Ht.
      * exists s. simpl. auto.
    + exists t. split; [ simpl; f_equal; exact Hs | exact Ht ].
Qed.

Lemma lstrip_head (s : string) :
  match lstrip s with
  | EmptyString => True
  | String c _ => is_space c = false
  end.
Proof.
  induction s as [| c s IH]; simpl; auto.
  destruct (is_space c) eqn:E; auto.
Qed.

Lemma rstrip_nonempty_head (s : string) (c : ascii) (s' : string) :
  s = String c s' -> is_space c = false -> exists r, rstrip s = String c r.
Proof.
  intros -> Hc. simpl. destruct (rstrip s').
  - rewrite Hc. eauto.
  - eauto.
Qed.

Lemma lstrip_space_prefix (v y : string) :
  all_chars is_space v = true -> lstrip (v ++ y) = lstrip y.
Proof.
  induction v as [| c v IH]; simpl; auto.
  intros H. apply andb_true_iff in H as [Hc Hv]. rewrite Hc. auto.
Qed.

Lemma lstrip_idempotent (s : string) : lstrip (lstrip s) = lstrip s.
Proof.
  pose proof (lstrip_head s) as H.
  destruct (lstrip s) as [| c r]; simpl; auto. now rewrite H.
Qed.

Lemma rstrip_ends_nonspace (x : string) (c : ascii) :
  is_space c = false -> rstrip (x ++ String c "") = x ++ String c "".
Proof.
  intros Hc. induction x as [| a x IH]; simpl.
  - now rewrite Hc.
  - rewrite IH. destruct x; reflexivity.
Qed.

(** *** The matcher, one step at a time *)

Lemma lazy_unfold p k incap s :
  match_here (ALazy p :: k) incap s
  = match match_here k incap s with
    | Some r => Some r
    | None =>
        match s with
        | String c s' =>
            if p c then keep incap c (match_here (ALazy p :: k) incap s')
            else None
        | EmptyString => None
        end
    end.
Proof. destruct s; reflexivity. Qed.

Lemma star_unfold p k incap s :
  match_here (AStar p :: k) incap s
  = match s with
    | String c s' =>
        if p c then
          match keep incap c (match_here (AStar p :: k) incap s') with
          | Some r => Some r
          | None => match_here k incap s
          end
        else match_here k incap s
    | EmptyString => match_here k incap s
    end.
Proof. destruct s; reflexivity. Qed.

(** The closing fence does not start where a line feed is not directly
    followed by a backquote. *)
Lemma closing_fails (c : ascii) (t rest : string) :
  nl_tick_free (String c t) = true ->
  match_here closing true (String c (t ++ nl ++ rest)) = None.
Proof.
  intros H. unfold closing, newline, tick, chr. simpl.
  destruct (Ascii.eqb c nl_char) eqn:Ec; [ | reflexivity ].
  destruct t as [| d t]; simpl.
  - reflexivity.
  - simpl in H. rewrite Ec in H. simpl in H.
    destruct (Ascii.eqb d backquote); [ discriminate H | reflexivity ].
Qed.

Lemma nl_tick_free_tail (c : ascii) (t : string) :
  nl_tick_free (String c t) = true -> nl_tick_free t = true.
Proof.
  destruct t as [| d t]; simpl; auto.
  intros H. apply andb_true_iff in H. tauto.
Qed.

(** The lazy group runs up to the closing fence. *)
Lemma lazy_capture (t : string) :
  nl_tick_free t = true ->
  match_here (ALazy any_char :: closing) true (t ++ nl ++ "```")
  = Some (t, "").
Proof.
  induction t as [| c t IH]; intros H.
  - reflexivity.
  - rewrite lazy_unfold.
    change (String c t ++ nl ++ "```") with (String c (t ++ nl ++ "```")).
    rewrite (closing_fails c t "```" H).
    unfold any_char at 1. rewrite IH by (eapply nl_tick_free_tail; eauto).
    reflexivity.
Qed.

Lemma after_last_nl_spaces (w v : string) :
  after_last_nl w = Some v -> all_chars is_space w = true ->
  all_chars is_space v = true /\ all_chars not_nl v = true.
Proof.
  revert v. induction w as [| c w IH]; simpl; intros v H Hw; [ discriminate | ].
  apply andb_true_iff in Hw as [Hc Hw].
  destruct (after_last_nl w) as [v' |] eqn:E.
  - inversion H; subst. auto.
  - destruct (Ascii.eqb c nl_char); inversion H; subst.
    split; auto.
    clear - E. induction v as [| d v IHv]; simpl in *; auto.
    destruct (after_last_nl v); [ discriminate | ].
    unfold not_nl. destruct (Ascii.eqb d nl_char); [ discriminate | ].
    simpl. auto.
Qed.

(** Without a line feed in the run of spaces, [\s*\n] finds nothing. *)
Lemma star_newline_fails (k : list atom) (w x : string) :
  after_last_nl w = None ->
  all_chars is_space w = true ->
  match x with
  | EmptyString => True
  | String c _ => is_space c = false
  end ->
  match_here (AStar is_space :: newline :: k) false (w ++ x) = None.
Proof.
  intros Hnl Hw Hx. induction w as [| c w IH]; simpl in Hnl, Hw.
  - simpl append. rewrite star_unfold.
    destruct x as [| d x]; [ reflexivity | ].
    rewrite Hx. unfold newline, chr. simpl.
    destruct (Ascii.eqb d nl_char) eqn:Ed; [ | reflexivity ].
    apply Ascii.eqb_eq in Ed. subst d. discriminate Hx.
  - apply andb_true_iff in Hw as [Hc Hw].
    destruct (after_last_nl w) eqn:E; [ discriminate | ].
    destruct (Ascii.eqb c nl_char) eqn:Ec; [ discriminate | ].
    change (String c w ++ x) with (String c (w ++ x)).
    rewrite star_unfold, Hc, IH by auto.
    unfold newline, chr. simpl. now rewrite Ec.
Qed.

(** [\s*\n] gives the run of spaces back down to its last line feed. *)
Lemma star_newline_last (k : list atom) (w v x : string)
  (r : string * string) :
  after_last_nl w = Some v ->
  all_chars is_space w = true ->
  match x with
  | EmptyString => True
  | String c _ => is_space c = false
  end ->
  match_here k false (v ++ x) = Some r ->
  match_here (AStar is_space :: newline :: k) false (w ++ x) = Some r.
Proof.
  intros Hnl Hw Hx Hk. induction w as [| c w IH]; simpl in Hnl, Hw;
    [ discriminate | ].
  apply andb_true_iff in Hw as [Hc Hw].
  change (String c w ++ x) with (String c (w ++ x)).
  rewrite star_unfold, Hc.
  destruct (after_last_nl w) as [v' |] eqn:E.
  - inversion Hnl; subst v'. rewrite IH by auto.
    destruct r. reflexivity.
  - destruct (Ascii.eqb c nl_char) eqn:Ec; [ | discriminate ].
    inversion Hnl; subst v.
    rewrite star_newline_fails by auto.
    unfold newline at 1, chr. simpl. rewrite Ec.
    rewrite Hk. destruct r. reflexivity.
Qed.

(** *** Line feeds and backquotes under concatenation *)

Lemma nl_tick_free_after_no_nl (v y : string) :
  all_chars not_nl v = true -> nl_tick_free y = true ->
  nl_tick_free (v ++ y) = true.
Proof.
  induction v as [| c v IH]; simpl; auto.
  intros Hv Hy. apply andb_true_iff in Hv as [Hc Hv].
  specialize (IH Hv Hy).
  destruct (v ++ y) as [| d r] eqn:E; auto.
  unfold not_nl in Hc. apply negb_true_iff in Hc. rewrite Hc. simpl. exact IH.
Qed.

Lemma space_is_no_backquote (c : ascii) :
  is_space c = true -> Ascii.eqb c backquote = false.
Proof.
  intros H. destruct (Ascii.eqb c backquote) eqn:E; auto.
  apply Ascii.eqb_eq in E. subst c. discriminate H.
Qed.

Lemma nl_tick_free_spaces (t : string) :
  all_chars is_space t = true -> nl_tick_free t = true.
Proof.
  induction t as [| c t IH]; simpl; auto.
  intros H. apply andb_true_iff in H as [Hc Ht].
  destruct t as [| d t]; auto.
  simpl in Ht. apply andb_true_iff in Ht as [Hd Ht'].
  rewrite (space_is_no_backquote d Hd), andb_false_r. simpl.
  apply IH. simpl. now rewrite Hd, Ht'.
Qed.

Lemma nl_tick_free_before_spaces (x t : string) :
  nl_tick_free x = true -> all_chars is_space t = true ->
  nl_tick_free (x ++ t) = true.
Proof.
  intros Hx Ht. induction x as [| c x IH]; simpl.
  - now apply nl_tick_free_spaces.
  - specialize (IH (nl_tick_free_tail _ _ Hx)).
    destruct x as [| d x]; simpl in *.
    + destruct t as [| d t]; auto.
      simpl in Ht. apply andb_true_iff in Ht as [Hd Ht'].
      rewrite (space_is_no_backquote d Hd), andb_false_r. simpl. exact IH.
    + apply andb_true_iff in Hx as [Hcd _]. rewrite Hcd. simpl. exact IH.
Qed.


(** *** The fenced reply *)

Lemma keep_outside (c : ascii) (r : option (string * string)) :
  keep false c r = r.
Proof. destruct r as [[cap rest] |]; reflexivity. Qed.

Lemma strip_nonempty_lstrip (s : string) :
  strip s <> "" ->
  exists c r, lstrip s = String c r /\ is_space c = false.
Proof.
  intros H. pose proof (lstrip_head s) as Hh. unfold strip in H.
  destruct (lstrip s) as [| c r]; [ now elim H | eauto ].
Qed.

Lemma char_step p k incap c s :
  p c = true ->
  match_here (AChar p :: k) incap (String c s)
  = keep incap c (match_here k incap s).
Proof. intros H. simpl. now rewrite H. Qed.

(** On a fenced reply the first pattern matches from the start, and its
    group strips to what the reply itself strips to. *)
Lemma fence_match (s : string) :
  strip s <> "" -> nl_tick_free (strip s) = true ->
  exists cap,
    match_here json_fence_pattern false (fenced s) = Some (cap, "")
    /\ strip cap = strip s.
Proof.
  intros Hne Hfree.
  destruct (lstrip_decompose s) as (l & Hs & Hl).
  destruct (strip_nonempty_lstrip s Hne) as (c & r & Hbody & Hc).
  destruct (rstrip_decompose (lstrip s)) as (t & Hb & Ht).
  fold (strip s) in Hb.
  assert (Hw : all_chars is_space (String nl_char l) = true)
    by (simpl; exact Hl).
  assert (Hv : exists v, after_last_nl (String nl_char l) = Some v).
  { simpl. destruct (after_last_nl l); eauto. }
  destruct Hv as (v & Hv).
  destruct (after_last_nl_spaces _ _ Hv Hw) as (Hvs & Hvn).
  exists (v ++ lstrip s). split.
  - assert (Hfree' : nl_tick_free (v ++ lstrip s) = true).
    { apply nl_tick_free_after_no_nl; [ exact Hvn | ].
      rewrite Hb. now apply nl_tick_free_before_spaces. }
    assert (Hk : match_here [AOpen; ALazy any_char; AClose; newline;
                             tick; tick; tick] false
                   (v ++ (lstrip s ++ nl ++ "```"))
                 = Some (v ++ lstrip s, "")).
    { rewrite <- append_assoc.
      change (match_here (ALazy any_char :: closing) true
                ((v ++ lstrip s) ++ nl ++ "```") = Some (v ++ lstrip s, "")).
      now apply lazy_capture. }
    assert (Hx : match lstrip s ++ nl ++ "```" with
                 | EmptyString => True
                 | String d _ => is_space d = false
                 end)
      by (rewrite Hbody; exact Hc).
    pose proof (star_newline_last _ _ _ _ _ Hv Hw Hx Hk) as Hstar.
    assert (Hf : fenced s
                 = "```json" ++ (String nl_char l ++ (lstrip s ++ nl ++ "```"))).
    { unfold fenced. rewrite Hs at 1.
      change (String nl_char l) with (nl ++ l).
      now rewrite !append_assoc. }
    rewrite Hf. unfold json_fence_pattern, tick.
    cbn [append].
    rewrite !char_step by reflexivity.
    rewrite !keep_outside. exact Hstar.
  - unfold strip. rewrite lstrip_space_prefix by exact Hvs.
    now rewrite lstrip_idempotent.
Qed.

Lemma findall_head (atoms : list atom) (text cap rest : string) :
  match_here atoms false text = Some (cap, rest) ->
  exists more, findall atoms text = cap :: more.
Proof.
  intros H. unfold findall. simpl. rewrite H. eauto.
Qed.

Lemma extract_fenced env (s : string) (o : dict) :
  loads_follows_json_grammar env ->
  json_loads env (strip s) = Some (JObj o) ->
  extract_json_from_markdown env (fenced s) = Some (strip s).
Proof.
  intros (Hempty & _ & Hfree) Hload.
  assert (Hne : strip s <> "") by (intros E; rewrite E in Hload; congruence).
  destruct (fence_match s Hne (Hfree _ _ Hload)) as (cap & Hm & Hcap).
  destruct (findall_head _ _ _ _ Hm) as (more & Hall).
  unfold extract_json_from_markdown, first_in_patterns.
  rewrite Hall. simpl. rewrite Hcap, Hload. reflexivity.
Qed.

Lemma strip_fenced (s : string) : strip (fenced s) = fenced s.
Proof.
  assert (H : fenced s = ("```json" ++ nl ++ s ++ nl ++ "``") ++ "`").
  { unfold fenced. now rewrite !append_assoc. }
  unfold strip.
  assert (Hl : lstrip (fenced s) = fenced s) by reflexivity.
  rewrite Hl, H. now apply rstrip_ends_nonspace.
Qed.

Lemma validate_object (o : dict) :
  exists d, validate_decision_structure (JObj o) = (true, d).
Proof.
  unfold validate_decision_structure.
  destruct (_ && _); eauto.
Qed.

(** C9.  For every reply s whose direct parse (the first strategy,
    [json.loads] on the stripped text) gives a JSON object, the
    extractor gives that same object on s and on s wrapped in one level
    of json fences, and so does the decision parser built on it.  The
    JSON parser is only assumed to follow the JSON grammar. *)
Theorem C9_fenced_reply_parses_alike
  (env : environment) (s : string) (o : dict) :
  loads_follows_json_grammar env ->
  json_loads env (strip s) = Some (JObj o) ->
  parse_llm_response env s = (true, JObj o)
  /\ parse_llm_response env (fenced s) = (true, JObj o)
  /\ parse_decision_response env (fenced s) = parse_decision_response env s.
Proof.
  intros Hg Hload.
  pose proof Hg as (Hempty & Htick & Hfree).
  assert (Hne : strip s <> "") by (intros E; rewrite E in Hload; congruence).
  assert (Hs : parse_llm_response env s = (true, JObj o)).
  { unfold parse_llm_response.
    destruct (s =? "") eqn:E1;
      [ apply String.eqb_eq in E1; subst s; now elim Hne | ].
    destruct (strip s =? "") eqn:E2;
      [ apply String.eqb_eq in E2; now elim Hne | ].
    simpl. now rewrite Hload. }
  assert (Hf : parse_llm_response env (fenced s) = (true, JObj o)).
  { unfold parse_llm_response. rewrite strip_fenced.
    assert (E1 : (fenced s =? "") = false) by reflexivity.
    rewrite E1. simpl orb. cbv iota.
    assert (E2 : json_loads env (fenced s) = None) by apply Htick.
    rewrite E2, (extract_fenced env s o Hg Hload).
    destruct (strip s =? "") eqn:E3;
      [ apply String.eqb_eq in E3; now elim Hne | ].
    simpl. now rewrite Hload. }
  repeat split; auto.
  unfold parse_decision_response. rewrite Hs, Hf.
  destruct (validate_object o) as (d & ->). reflexivity.
Qed.

Lemma braces_grammar : loads_follows_json_grammar env_braces.
Proof.
  split; [ reflexivity | split ].
  - intros t. reflexivity.
  - intros t v H. unfold env_braces, with_json_loads in H. simpl in H.
    destruct (t =? "{}") eqn:E; [ | discriminate H ].
    apply String.eqb_eq in E. subst t. reflexivity.
Qed.

(** The empty object, padded with white space, parses alike bare and
    fenced. *)
Lemma C9_witness :
  loads_follows_json_grammar env_braces
  /\ json_loads env_braces (strip padded_braces) = Some (JObj [])
  /\ parse_llm_response env_braces (fenced padded_braces) = (true, JObj []).
Proof.
  split; [ exact braces_grammar | ].
  split; [ reflexivity | ].
  exact (proj1 (proj2 (C9_fenced_reply_parses_alike env_braces padded_braces
                         [] braces_grammar eq_refl))).
Defined.

Example fenced_braces_run :
  parse_llm_response env_braces (fenced padded_braces) = (true, JObj []).
Proof. reflexivity. Qed.

End ParserFacts.

(* ================================================================== *)
(** ** The handlers of the executor *)
(* ================================================================== *)

Module HandlerFacts.
Import Frames.
Import Py Sys Prim McpClient CommonAgent PyFacts MonadFacts Statements.

Lemma steady_refl w : steady w w.
Proof. repeat split. Qed.

Lemma steady_trans a b c : steady a b -> steady b c -> steady a c.
Proof.
  unfold steady. intros H1 H2.
  decompose [and] H1. decompose [and] H2. repeat split; congruence.
Qed.

Ltac steadily :=
  preserve steady_refl steady_trans;
  try (intros; repeat split; reflexivity).

Lemma start_mcp_server_steady env server_name server_config :
  preserves steady (start_mcp_server env server_name server_config).
Proof. unfold start_mcp_server. steadily. Qed.

Lemma send_jsonrpc_request_steady env server_name method params :
  preserves steady (send_jsonrpc_request env server_name method params).
Proof.
  unfold send_jsonrpc_request, is_active, _get_next_request_id. steadily.
Qed.

Lemma send_jsonrpc_notification_steady server_name method params :
  preserves steady (send_jsonrpc_notification server_name method params).
Proof. unfold send_jsonrpc_notification, is_active. steadily. Qed.

Lemma initialize_server_steady env server_name :
  preserves steady (_initialize_server env server_name).
Proof.
  unfold _initialize_server.
  apply preserves_try; [ exact steady_trans | | intros; steadily ].
  apply preserves_bind; [ exact steady_trans | | intros ].
  - apply send_jsonrpc_request_steady.
  - now apply send_jsonrpc_notification_steady.
Qed.

Lemma discover_tools_steady env server_name server_config :
  preserves steady (discover_tools env server_name server_config).
Proof.
  unfold discover_tools.
  apply preserves_try; [ exact steady_trans | | intros; steadily ].
  apply preserves_bind; [ exact steady_trans | unfold is_active; steadily | ].
  intros active.
  apply preserves_bind; [ exact steady_trans | | intros started ].
  - destruct active; [ steadily | apply start_mcp_server_steady ].
  - destruct (negb started); [ steadily | ].
    apply preserves_bind;
      [ exact steady_trans | apply initialize_server_steady | intros ].
    apply preserves_bind;
      [ exact steady_trans | apply send_jsonrpc_request_steady | intros ].
    unfold log_first_tools. steadily.
Qed.

Lemma query_tools_steady env server_name :
  preserves steady (_query_mcp_server_tools_runtime env server_name).
Proof.
  unfold _query_mcp_server_tools_runtime, get_server_config.
  apply preserves_try; [ exact steady_trans | | intros; steadily ].
  apply preserves_bind; [ exact steady_trans | steadily | intros cfg ].
  destruct (negb (truthy cfg)); [ steadily | ].
  apply preserves_bind;
    [ exact steady_trans | apply discover_tools_steady | intros ].
  steadily.
Qed.

Lemma infer_loop_steady env tool_name servers :
  preserves steady (infer_loop env tool_name servers).
Proof.
  induction servers as [| s rest IH]; simpl; [ steadily | ].
  apply preserves_bind;
    [ exact steady_trans | apply query_tools_steady | intros tools ].
  destruct (list_mem tool_name tools); [ steadily | exact IH ].
Qed.

Lemma infer_server_steady env tool_name :
  preserves steady (_infer_server_from_tool env tool_name).
Proof.
  unfold _infer_server_from_tool, list_available_servers.
  apply preserves_try; [ exact steady_trans | | intros; steadily ].
  apply preserves_bind; [ exact steady_trans | steadily | intros ].
  apply infer_loop_steady.
Qed.

Lemma use_mcp_tool_steady env tool_name task_description :
  preserves steady (_use_mcp_tool env tool_name task_description).
Proof.
  unfold _use_mcp_tool, _execute_mcp_tool, _invoke_mcp_tool_via_protocol.
  apply preserves_try; [ exact steady_trans | | intros; steadily ].
  apply preserves_bind; [ exact steady_trans | steadily | intros has_colon ].
  apply preserves_bind; [ exact steady_trans | | intros; steadily ].
  destruct has_colon; [ steadily | ].
  apply preserves_bind;
    [ exact steady_trans | apply infer_server_steady | intros; steadily ].
Qed.

Lemma call_agent_steady env agent_id task_description previous_results :
  preserves steady (_call_agent env agent_id task_description previous_results).
Proof.
  unfold _call_agent, Discovery.get_agent_info, _call_a2a_agent,
    _call_legacy_agent, now_seconds, client_post, response_json.
  steadily.
Qed.

Lemma stream_dispatch_steady env action target task_desc t0 :
  preserves steady (stream_dispatch env action target task_desc t0).
Proof.
  unfold stream_dispatch, _coordinate_action.
  destruct (is_str "agent_call" action).
  - apply preserves_bind; [ exact steady_trans | steadily | intros ].
    apply preserves_bind; [ exact steady_trans | steadily | intros prev ].
    apply preserves_bind;
      [ exact steady_trans | apply call_agent_steady | intros; steadily ].
  - destruct (is_str "tool_use" action).
    + apply preserves_bind; [ exact steady_trans | steadily | intros ].
      apply use_mcp_tool_steady.
    + destruct (is_str "coordination" action); steadily.
Qed.

Lemma batch_dispatch_steady env action target task_desc :
  preserves steady (batch_dispatch env action target task_desc).
Proof.
  unfold batch_dispatch, _coordinate_action.
  destruct (is_str "agent_call" action).
  - apply preserves_bind; [ exact steady_trans | steadily | intros prev ].
    apply call_agent_steady.
  - destruct (is_str "tool_use" action);
      [ apply use_mcp_tool_steady | ].
    destruct (is_str "coordination" action); steadily.
Qed.


(** *** The shape of a step's result *)

Lemma call_agent_plain env agent_id task_description previous_results :
  returns plain (_call_agent env agent_id task_description previous_results).
Proof.
  unfold _call_agent, _call_a2a_agent, _call_legacy_agent, client_post,
    response_json.
  returning; reflexivity.
Qed.

Lemma use_mcp_tool_plain env tool_name task_description :
  returns plain (_use_mcp_tool env tool_name task_description).
Proof.
  unfold _use_mcp_tool. returning; reflexivity.
Qed.

Lemma stream_dispatch_plain env action target task_desc t0 :
  returns plain (stream_dispatch env action target task_desc t0).
Proof.
  unfold stream_dispatch, _coordinate_action.
  destruct (is_str "agent_call" action).
  - apply returns_bind; intros. apply returns_bind; intros prev.
    apply (returns_bind_from plain); [ apply call_agent_plain | ].
    intros r Hr. returning. exact Hr.
  - destruct (is_str "tool_use" action).
    + apply returns_bind; intros. apply use_mcp_tool_plain.
    + destruct (is_str "coordination" action); returning; reflexivity.
Qed.

Lemma batch_dispatch_plain env action target task_desc :
  returns plain (batch_dispatch env action target task_desc).
Proof.
  unfold batch_dispatch, _coordinate_action.
  destruct (is_str "agent_call" action).
  - apply returns_bind; intros prev. apply call_agent_plain.
  - destruct (is_str "tool_use" action); [ apply use_mcp_tool_plain | ].
    destruct (is_str "coordination" action); returning; reflexivity.
Qed.

End HandlerFacts.

(* ================================================================== *)
(** ** The executor, step by step *)
(* ================================================================== *)

Module ExecutorFacts.
Import Frames.
Import Py Sys Prim CommonAgent PyFacts MonadFacts Statements HandlerFacts.

Lemma settled_refl w : settled w w.
Proof. repeat split. Qed.

Lemma settled_trans a b c : settled a b -> settled b c -> settled a c.
Proof.
  unfold settled. intros H1 H2.
  decompose [and] H1. decompose [and] H2. repeat split; congruence.
Qed.

Lemma steady_settled w w' : steady w w' -> settled w w'.
Proof. unfold steady, settled. tauto. Qed.

Lemma task_has_other task_id w w' key v :
  active_tasks w' = active_tasks w ->
  task_has task_id w key v -> task_has task_id w' key v.
Proof. intros E (t & H1 & H2). exists t. now rewrite E. Qed.

(** One turn of the streaming loop, told from what the dispatch of the
    step does. *)
Lemma stream_step_run env task_id d w l :
  task_has task_id w "steps" (JArr l) ->
  let t0 := clock env (ticks w) in
  let o := stream_dispatch env (action_of d) (target_of d) (task_of d) t0
             (set_ticks (S (ticks w)) w) in
  let w2 := final o in
  let duration := (clock env (ticks w2) - t0)%Z in
  let stamp := clock env (S (ticks w2)) in
  let stamp' := clock env (S (S (ticks w2))) in
  let result := match outcome o with
                | Ok r => r
                | Raise e => failure_result d e
                end in
  let tail := match outcome o with
              | Ok r =>
                  if negb (is_str "agent_call" (action_of d))
                  then [step_completed d r duration] else []
              | Raise e => [step_failed d e duration]
              end in
  exists w',
    stream_step env task_id (JObj d) w
    = (step_started d :: events o ++ tail, Ok tt, w')%list
    /\ execution_results w'
       = (execution_results w ++ [step_record d result duration stamp])%list
    /\ task_has task_id w' "steps"
         (JArr (l ++ [task_entry d result duration stamp'])%list)
    /\ (forall key v, key <> "steps" ->
                      task_has task_id w key v -> task_has task_id w' key v)
    /\ settled w w'
    /\ sent w' = sent w2
    /\ ticks w' = S (S (S (ticks w2))).
Proof.
  intros (t & Htask & Hsteps). cbv zeta.
  pose proof (stream_dispatch_steady env (action_of d) (target_of d)
                (task_of d) (clock env (ticks w))
                (set_ticks (S (ticks w)) w)) as Hsteady.
  unfold stream_step, task_steps_append, task_set, get_task, results_append.
  unfold py_get. fold (step_number_of d) (action_of d) (target_of d) (task_of d).
  run.
  destruct (stream_dispatch env (action_of d) (target_of d) (task_of d)
              (clock env (ticks w)) (set_ticks (S (ticks w)) w))
    as [[evd rd] w2] eqn:Ho.
  unfold final, outcome, events in *. simpl in Hsteady. simpl fst. simpl snd.
  destruct Hsteady as (Hreg & Hcap & Htasks & Hctr & Hllm & Hcfg & Hver & Hres).
  simpl in Htasks, Hres, Hreg, Hcap, Hctr, Hllm, Hcfg, Hver.
  assert (Hset : forall (x : json) (tasks : dict),
             dict_get task_id (dict_set task_id x tasks) = Some x)
    by (intros; apply dict_get_set_same).
  destruct rd as [r | e].
  - destruct (negb (is_str "agent_call" (action_of d))); simpl;
      rewrite Htasks, Htask; simpl; rewrite Hsteps; simpl;
      rewrite Htasks, Htask; simpl;
      (eexists; split; [ reflexivity | ]); simpl;
      (split; [ now rewrite Hres | ]).
    all: split;
      [ eexists; split; [ apply dict_get_set_same | apply dict_get_set_same ] | ].
    all: split;
      [ intros key v Hkey (t' & Ht' & Hv); rewrite Htask in Ht';
        inversion Ht'; subst t'; eexists;
        split; [ apply dict_get_set_same | ];
        rewrite dict_get_set_other; auto | ].
    all: repeat split; auto.
  - simpl. rewrite Htasks, Htask. simpl. rewrite Hsteps. simpl.
    rewrite Htasks, Htask. simpl.
    eexists. split; [ reflexivity | ]. simpl.
    split; [ now rewrite Hres | ].
    split;
      [ eexists; split; [ apply dict_get_set_same | apply dict_get_set_same ] | ].
    split;
      [ intros key v Hkey (t' & Ht' & Hv); rewrite Htask in Ht';
        inversion Ht'; subst t'; eexists;
        split; [ apply dict_get_set_same | ];
        rewrite dict_get_set_other; auto | ].
    repeat split; auto.
Qed.

End ExecutorFacts.

(* ================================================================== *)
(** ** The executor over a whole plan *)
(* ================================================================== *)

Module PlanFacts.
Import Frames.
Import Py Sys Prim CommonAgent PyFacts MonadFacts Statements HandlerFacts
  ExecutorFacts.

Lemma stream_steps_app env task_id (a b : list json) w :
  stream_steps env task_id (a ++ b) w
  = bind (stream_steps env task_id a) (fun _ => stream_steps env task_id b) w.
Proof.
  revert w. induction a as [| x a IH]; intros w; simpl.
  - now rewrite bind_ret_l.
  - rewrite bind_assoc. apply bind_ext. intros _ w'. apply IH.
Qed.

Lemma failure_is_plain d e : plain_result (failure_result d e) = true.
Proof. reflexivity. Qed.

Lemma dispatched_plain env d w r :
  outcome (dispatched env d w) = Ok r -> plain_result r = true.
Proof.
  intros H.
  pose proof (stream_dispatch_plain env (action_of d) (target_of d) (task_of d)
                (clock env (ticks w)) (set_ticks (S (ticks w)) w)) as Hp.
  unfold dispatched in H. now rewrite H in Hp.
Qed.

(** The streaming loop runs every step of the plan, whatever the steps
    do, and leaves one record and one log entry per step. *)
Lemma stream_steps_run env task_id (plan : list dict) :
  forall w l,
    task_has task_id w "steps" (JArr l) ->
    exists evs w' records entries,
      stream_steps env task_id (map JObj plan) w = (evs, Ok tt, w')
      /\ execution_results w' = (execution_results w ++ records)%list
      /\ Forall2 record_of plan records
      /\ task_has task_id w' "steps" (JArr (l ++ entries)%list)
      /\ List.length entries = List.length plan
      /\ (forall key v, key <> "steps" ->
                        task_has task_id w key v -> task_has task_id w' key v)
      /\ settled w w'.
Proof.
  induction plan as [| d plan IH]; intros w l Htask.
  - exists [], w, [], []. simpl. rewrite !app_nil_r.
    repeat split; auto.
  - destruct (stream_step_run env task_id d w l Htask)
      as (w1 & Hrun & Hres & Htask1 & Hkeep & Hset & _).
    destruct (IH w1 _ Htask1)
      as (evs & w' & records & entries & Hrest & Hres' & Hall & Htask'
          & Hlen & Hkeep' & Hset').
    simpl map. simpl stream_steps. unfold bind at 1. rewrite Hrun, Hrest.
    eexists. exists w'. eexists (_ :: records). eexists (_ :: entries).
    split; [ reflexivity | ].
    split; [ rewrite Hres', Hres, <- app_assoc; reflexivity | ].
    split.
    { constructor; [ | exact Hall ].
      eexists. eexists. eexists. split; [ reflexivity | ].
      fold (dispatched env d w).
      destruct (outcome (dispatched env d w)) eqn:E.
      - eapply dispatched_plain; eauto.
      - reflexivity. }
    split; [ rewrite <- app_assoc in Htask'; exact Htask' | ].
    split; [ simpl; now rewrite Hlen | ].
    split; [ auto | eapply settled_trans; eauto ].
Qed.


(** The run of a plan, cut at one of its steps. *)
Lemma stream_steps_split env task_id (pre : list dict) (d : dict)
  (post : list dict) w l :
  task_has task_id w "steps" (JArr l) ->
  exists evs_pre wpre recs_pre evs_post w' recs_post,
    stream_steps env task_id (map JObj pre) w = (evs_pre, Ok tt, wpre)
    /\ execution_results wpre = (execution_results w ++ recs_pre)%list
    /\ Forall2 record_of pre recs_pre
    /\ settled w wpre
    /\ (let o := dispatched env d wpre in
        let duration := (clock env (ticks (final o)) - clock env (ticks wpre))%Z in
        let stamp := clock env (S (ticks (final o))) in
        let result := match outcome o with
                      | Ok r => r
                      | Raise e => failure_result d e
                      end in
        let tail := match outcome o with
                    | Ok r =>
                        if negb (is_str "agent_call" (action_of d))
                        then [step_completed d r duration] else []
                    | Raise e => [step_failed d e duration]
                    end in
        stream_steps env task_id (map JObj (pre ++ d :: post)) w
        = ((evs_pre ++ (step_started d :: events o ++ tail) ++ evs_post)%list,
           Ok tt, w')
        /\ execution_results w'
           = (execution_results w ++ recs_pre
              ++ step_record d result duration stamp :: recs_post)%list
        /\ Forall2 record_of post recs_post).
Proof.
  intros Htask.
  destruct (stream_steps_run env task_id pre w l Htask)
    as (evs_pre & wpre & recs_pre & entries & Hpre & Hres_pre & Hall_pre
        & Htask_pre & _ & _ & Hset_pre).
  destruct (stream_step_run env task_id d wpre _ Htask_pre)
    as (w1 & Hrun & Hres1 & Htask1 & _ & _ & _).
  destruct (stream_steps_run env task_id post w1 _ Htask1)
    as (evs_post & w' & recs_post & entries' & Hpost & Hres_post & Hall_post
        & _).
  exists evs_pre, wpre, recs_pre, evs_post, w', recs_post.
  split; [ exact Hpre | ]. split; [ exact Hres_pre | ].
  split; [ exact Hall_pre | ]. split; [ exact Hset_pre | ].
  cbv zeta. split; [ | split; [ | exact Hall_post ] ].
  - unfold dict in *. rewrite map_app.
    rewrite stream_steps_app. unfold bind at 1. rewrite Hpre.
    simpl map. simpl stream_steps. unfold bind at 1.
    unfold dispatched. rewrite Hrun, Hpost. reflexivity.
  - rewrite Hres_post, Hres1, Hres_pre. unfold dispatched.
    rewrite <- !app_assoc. reflexivity.
Qed.

Lemma nth_error_middle {A : Type} (a b c : list A) (x : A) (n : nat) :
  n = (List.length a + List.length b)%nat ->
  nth_error (a ++ b ++ x :: c) n = Some x.
Proof.
  intros ->. rewrite app_assoc.
  rewrite nth_error_app2 by (rewrite length_app; lia).
  rewrite length_app, Nat.sub_diag. reflexivity.
Qed.

(** *** The batch loop *)

Lemma batch_step_run env task_id d w l :
  task_has task_id w "steps" (JArr l) ->
  let o := batch_dispatch env (action_of d) (target_of d) (task_of d) w in
  let w2 := final o in
  let record := match outcome o with
                | Ok r => batch_record d r (clock env (ticks w2))
                | Raise e => batch_failure d e (clock env (ticks w2))
                end in
  exists w' l',
    batch_step env task_id (JObj d) w = (events o, Ok tt, w')
    /\ execution_results w' = (execution_results w ++ [record])%list
    /\ task_has task_id w' "steps" (JArr l')
    /\ settled w w'.
Proof.
  intros (t & Htask & Hsteps). cbv zeta.
  pose proof (batch_dispatch_steady env (action_of d) (target_of d)
                (task_of d) w) as Hsteady.
  unfold batch_step, task_steps_append, task_set, get_task, results_append.
  unfold py_get. fold (step_number_of d) (action_of d) (target_of d) (task_of d).
  run.
  destruct (batch_dispatch env (action_of d) (target_of d) (task_of d) w)
    as [[evd rd] w2] eqn:Ho.
  unfold final, outcome, events in *. simpl in Hsteady. simpl fst. simpl snd.
  destruct Hsteady as (Hreg & Hcap & Htasks & Hctr & Hllm & Hcfg & Hver & Hres).
  destruct rd as [r | e].
  - simpl. rewrite Htasks, Htask. simpl. rewrite Hsteps. simpl.
    rewrite ?Htasks, ?Htask. simpl.
    eexists. eexists. split; [ rewrite !app_nil_r; reflexivity | ]. simpl.
    split; [ now rewrite Hres | ].
    split;
      [ eexists; split; [ apply dict_get_set_same | apply dict_get_set_same ] | ].
    repeat split; auto.
  - simpl. exists (set_execution_results
                     (execution_results w2
                      ++ [batch_failure d e (clock env (ticks w2))])%list
                     (set_ticks (S (ticks w2)) w2)), l.
    split; [ rewrite !app_nil_r; reflexivity | ]. simpl.
    split; [ now rewrite Hres | ].
    split; [ exists t; simpl; rewrite Htasks; auto | ].
    repeat split; auto.
Qed.

Lemma batch_steps_app env task_id (a b : list json) w :
  batch_steps env task_id (a ++ b) w
  = bind (batch_steps env task_id a) (fun _ => batch_steps env task_id b) w.
Proof.
  revert w. induction a as [| x a IH]; intros w; simpl.
  - now rewrite bind_ret_l.
  - rewrite bind_assoc. apply bind_ext. intros _ w'. apply IH.
Qed.

Lemma batch_steps_run env task_id (plan : list dict) :
  forall w l,
    task_has task_id w "steps" (JArr l) ->
    exists evs w' records l',
      batch_steps env task_id (map JObj plan) w = (evs, Ok tt, w')
      /\ execution_results w' = (execution_results w ++ records)%list
      /\ List.length records = List.length plan
      /\ task_has task_id w' "steps" (JArr l')
      /\ settled w w'.
Proof.
  induction plan as [| d plan IH]; intros w l Htask.
  - exists [], w, [], l. simpl. rewrite !app_nil_r. repeat split; auto.
  - destruct (batch_step_run env task_id d w l Htask)
      as (w1 & l1 & Hrun & Hres & Htask1 & Hset).
    destruct (IH w1 _ Htask1)
      as (evs & w' & records & l' & Hrest & Hres' & Hlen & Htask' & Hset').
    simpl map. simpl batch_steps. unfold bind at 1. rewrite Hrun, Hrest.
    eexists. exists w'. eexists (_ :: records). exists l'.
    split; [ reflexivity | ].
    split; [ rewrite Hres', Hres, <- app_assoc; reflexivity | ].
    split; [ simpl; now rewrite Hlen | ].
    split; [ auto | eapply settled_trans; eauto ].
Qed.


Lemma batch_steps_split env task_id (pre : list dict) (d : dict)
  (post : list dict) w l :
  task_has task_id w "steps" (JArr l) ->
  exists evs_pre wpre recs_pre evs_post w' recs_post,
    batch_steps env task_id (map JObj pre) w = (evs_pre, Ok tt, wpre)
    /\ execution_results wpre = (execution_results w ++ recs_pre)%list
    /\ List.length recs_pre = List.length pre
    /\ (let o := batch_dispatch env (action_of d) (target_of d) (task_of d)
                   wpre in
        let record := match outcome o with
                      | Ok r => batch_record d r (clock env (ticks (final o)))
                      | Raise e =>
                          batch_failure d e (clock env (ticks (final o)))
                      end in
        batch_steps env task_id (map JObj (pre ++ d :: post)) w
        = ((evs_pre ++ events o ++ evs_post)%list, Ok tt, w')
        /\ execution_results w'
           = (execution_results w ++ recs_pre ++ record :: recs_post)%list
        /\ List.length recs_post = List.length post).
Proof.
  intros Htask.
  destruct (batch_steps_run env task_id pre w l Htask)
    as (evs_pre & wpre & recs_pre & l1 & Hpre & Hres_pre & Hlen_pre
        & Htask_pre & _).
  destruct (batch_step_run env task_id d wpre _ Htask_pre)
    as (w1 & l2 & Hrun & Hres1 & Htask1 & _).
  destruct (batch_steps_run env task_id post w1 _ Htask1)
    as (evs_post & w' & recs_post & l3 & Hpost & Hres_post & Hlen_post & _).
  exists evs_pre, wpre, recs_pre, evs_post, w', recs_post.
  split; [ exact Hpre | ]. split; [ exact Hres_pre | ].
  split; [ exact Hlen_pre | ].
  cbv zeta. split; [ | split; [ | exact Hlen_post ] ].
  - unfold dict in *. rewrite map_app.
    rewrite batch_steps_app. unfold bind at 1. rewrite Hpre.
    simpl map. simpl batch_steps. unfold bind at 1.
    rewrite Hrun, Hpost. reflexivity.
  - rewrite Hres_post, Hres1, Hres_pre.
    rewrite <- !app_assoc. reflexivity.
Qed.

(** *** An element of the plan that is no step *)

(** [step.get] comes before the [try] of the turn: an element that is
    no dict raises there, and nothing of the turn has happened. *)
Lemma stream_step_not_a_dict env task_id bad w :
  (forall d, bad <> JObj d) ->
  stream_step env task_id bad w = ([], Raise (no_attribute bad "get"), w).
Proof.
  intros Hbad. unfold stream_step, py_get.
  destruct bad; try reflexivity. now destruct (Hbad fields).
Qed.

Lemma batch_step_not_a_dict env task_id bad w :
  (forall d, bad <> JObj d) ->
  batch_step env task_id bad w = ([], Raise (no_attribute bad "get"), w).
Proof.
  intros Hbad. unfold batch_step, py_get.
  destruct bad; try reflexivity. now destruct (Hbad fields).
Qed.

Lemma stream_steps_stop env task_id (pre : list dict) bad rest w l :
  task_has task_id w "steps" (JArr l) ->
  (forall d, bad <> JObj d) ->
  let run := stream_steps env task_id (map JObj pre) w in
  stream_steps env task_id (map JObj pre ++ bad :: rest) w
  = (events run, Raise (no_attribute bad "get"), final run).
Proof.
  intros Htask Hbad. cbv zeta.
  destruct (stream_steps_run env task_id pre w l Htask)
    as (evs & w' & records & entries & Hpre & _).
  rewrite stream_steps_app. unfold bind at 1. rewrite Hpre.
  simpl stream_steps. unfold bind at 1.
  rewrite (stream_step_not_a_dict env task_id bad w' Hbad).
  rewrite events_of, final_of, app_nil_r. reflexivity.
Qed.

Lemma batch_steps_stop env task_id (pre : list dict) bad rest w l :
  task_has task_id w "steps" (JArr l) ->
  (forall d, bad <> JObj d) ->
  let run := batch_steps env task_id (map JObj pre) w in
  batch_steps env task_id (map JObj pre ++ bad :: rest) w
  = (events run, Raise (no_attribute bad "get"), final run).
Proof.
  intros Htask Hbad. cbv zeta.
  destruct (batch_steps_run env task_id pre w l Htask)
    as (evs & w' & records & l' & Hpre & _).
  rewrite batch_steps_app. unfold bind at 1. rewrite Hpre.
  simpl batch_steps. unfold bind at 1.
  rewrite (batch_step_not_a_dict env task_id bad w' Hbad).
  rewrite events_of, final_of, app_nil_r. reflexivity.
Qed.

(** C4, amended.  For every plan whose elements are dicts and every
    step of it whose dispatch raises, on the streaming path and on the
    batch path alike: the run of the plan returns normally with one
    record per step, so the steps after the failing one are executed
    and nothing escapes the loop; the record of the failing step
    captures the exception text; and the streaming path emits
    step_completed with success false and the text as error.  An
    element of the plan that is no dict is not contained: [step.get]
    raises AttributeError before the [try] of the turn, the loop ends
    there with that exception, what the steps before it did stays, and
    no step after it is started. *)
Theorem C4_step_failure_is_recorded
  (env : environment) (task_id : string) (pre : list dict) (d : dict)
  (post : list dict) (w : world) (l : list json) :
  task_has task_id w "steps" (JArr l) ->
  (let run := stream_steps env task_id (map JObj (pre ++ d :: post)) w in
   let wpre := final (stream_steps env task_id (map JObj pre) w) in
   let o := dispatched env d wpre in
   outcome run = Ok tt
   /\ List.length (execution_results (final run))
      = (List.length (execution_results w)
         + List.length (pre ++ d :: post))%nat
   /\ forall e, outcome o = Raise e ->
        let duration :=
          (clock env (ticks (final o)) - clock env (ticks wpre))%Z in
        nth_error (execution_results (final run))
          (List.length (execution_results w) + List.length pre)
        = Some (step_record d (failure_result d e) duration
                  (clock env (S (ticks (final o)))))
        /\ In (step_failed d e duration) (events run))
  /\ (let run := batch_steps env task_id (map JObj (pre ++ d :: post)) w in
      let wpre := final (batch_steps env task_id (map JObj pre) w) in
      let o := batch_dispatch env (action_of d) (target_of d) (task_of d)
                 wpre in
      outcome run = Ok tt
      /\ List.length (execution_results (final run))
         = (List.length (execution_results w)
            + List.length (pre ++ d :: post))%nat
      /\ forall e, outcome o = Raise e ->
           nth_error (execution_results (final run))
             (List.length (execution_results w) + List.length pre)
           = Some (batch_failure d e (clock env (ticks (final o)))))
  /\ (forall (bad : json) (rest : list json),
        (forall d', bad <> JObj d') ->
        (let before := stream_steps env task_id (map JObj pre) w in
         stream_steps env task_id (map JObj pre ++ bad :: rest) w
         = (events before, Raise (no_attribute bad "get"), final before))
        /\ (let before := batch_steps env task_id (map JObj pre) w in
            batch_steps env task_id (map JObj pre ++ bad :: rest) w
            = (events before, Raise (no_attribute bad "get"), final before))).
Proof.
  intros Htask. split; [ | split ]; cbv zeta.
  - destruct (stream_steps_split env task_id pre d post w l Htask)
      as (evs_pre & wpre & recs_pre & evs_post & w' & recs_post & Hpre
          & Hres_pre & Hall_pre & _ & Hrun & Hres & Hall_post).
    cbv zeta in Hrun, Hres. rewrite Hrun, Hpre.
    rewrite ?final_of, ?outcome_of, ?events_of.
    pose proof (Forall2_length Hall_pre) as Hlen_pre.
    pose proof (Forall2_length Hall_post) as Hlen_post.
    split; [ reflexivity | split ].
    + rewrite Hres. repeat (rewrite ?length_app; simpl). lia.
    + intros e He. rewrite Hres, He. split.
      * apply nth_error_middle. lia.
      * apply in_or_app. right. apply in_or_app. left.
        right. apply in_or_app. right. left. reflexivity.
  - destruct (batch_steps_split env task_id pre d post w l Htask)
      as (evs_pre & wpre & recs_pre & evs_post & w' & recs_post & Hpre
          & Hres_pre & Hlen_pre & Hrun & Hres & Hlen_post).
    cbv zeta in Hrun, Hres. rewrite Hrun, Hpre.
    rewrite ?final_of, ?outcome_of, ?events_of.
    split; [ reflexivity | split ].
    + rewrite Hres. repeat (rewrite ?length_app; simpl). lia.
    + intros e He. rewrite Hres, He.
      apply nth_error_middle. lia.
  - intros bad rest Hbad. split.
    + exact (stream_steps_stop env task_id pre bad rest w l Htask Hbad).
    + exact (batch_steps_stop env task_id pre bad rest w l Htask Hbad).
Qed.

(** A plan whose first step raises (its target is a list) and whose
    second step is a tool call: the loop returns normally. *)
Lemma C4_witness :
  task_has "task_0" Scenarios.world_with_task "steps" (JArr [])
  /\ outcome (stream_steps Scenarios.silent "task_0"
                (map JObj ([] ++ Scenarios.step_list_target
                              :: [Scenarios.step_read_file]))
                Scenarios.world_with_task) = Ok tt.
Proof.
  assert (H : task_has "task_0" Scenarios.world_with_task "steps" (JArr [])).
  { eexists. split; reflexivity. }
  split; [ exact H | ].
  exact (proj1 (proj1 (C4_step_failure_is_recorded Scenarios.silent "task_0"
                         [] Scenarios.step_list_target
                         [Scenarios.step_read_file]
                         Scenarios.world_with_task [] H))).
Defined.

(** C4 as the specification words it fails on a plan the LLM may well
    return: its first element is a number.  Both loops end at once with
    AttributeError; the tool step after it is never started, no event
    is emitted and no record is made. *)
Lemma C4_counterexample :
  stream_steps Scenarios.silent "task_0" Scenarios.plan_with_a_number
    Scenarios.world_with_task
  = ([], Raise (mk_exn AttributeError "'int' object has no attribute 'get'"),
     Scenarios.world_with_task)
  /\ batch_steps Scenarios.silent "task_0" Scenarios.plan_with_a_number
       Scenarios.world_with_task
     = ([], Raise (mk_exn AttributeError "'int' object has no attribute 'get'"),
        Scenarios.world_with_task)
  /\ (let o := _execute_llm_plan_stream Scenarios.silent "task_0"
                 (JObj [("execution_plan",
                         JArr Scenarios.plan_with_a_number)])
                 Scenarios.world_with_task in
      map Routes.event_name (events o) = ["execution_started"]
      /\ outcome o
         = Raise (mk_exn AttributeError
                    "'int' object has no attribute 'get'")).
Proof. split; [ | split; [ | split ] ]; reflexivity. Qed.

Example list_target_raises :
  outcome (dispatched Scenarios.silent Scenarios.step_list_target
             Scenarios.world_with_task)
  = Raise (unhashable (JArr [JStr "researcher"])).
Proof. reflexivity. Qed.

End PlanFacts.

(* ================================================================== *)
(** ** The totals of the streaming executor *)
(* ================================================================== *)

Module TotalsFacts.
Import Frames.
Import Py Sys Prim CommonAgent PyFacts MonadFacts Statements HandlerFacts
  ExecutorFacts PlanFacts.

Lemma record_flag d record :
  record_of d record ->
  exists res s,
    py_get "result" (JObj []) record = Ok res
    /\ py_get "success" (JBool true) res = Ok s
    /\ truthy s = negb (maps_success_to_false record).
Proof.
  intros (result & duration & stamp & -> & Hplain).
  destruct result as [| | | | | | dd]; try discriminate Hplain.
  exists (JObj dd), (dict_get_default "success" (JBool true) dd).
  split; [ reflexivity | split; [ reflexivity | ] ].
  unfold maps_success_to_false, step_record, dict_get_default. simpl.
  unfold plain_result in Hplain.
  destruct (dict_get "success" dd) as [[| [] | | | | |] |];
    try discriminate Hplain; reflexivity.
Qed.

Lemma success_flags_records (plan : list dict) (records : list json) :
  Forall2 record_of plan records ->
  success_flags records
  = Ok (map (fun r => negb (maps_success_to_false r)) records).
Proof.
  induction 1 as [| d record plan records Hrec _ IH]; [ reflexivity | ].
  destruct (record_flag d record Hrec) as (res & s & H1 & H2 & H3).
  cbn [success_flags]. rewrite H1, H2, IH. cbn [map]. now rewrite H3.
Qed.






(** The step that raised is counted as successful: two successful steps
    and no failed one, for a plan whose first step raised. *)
Example raised_step_counts_as_successful :
  match last (events (_execute_llm_plan_stream Scenarios.silent "task_0"
                        (JObj Scenarios.plan_with_failure)
                        Scenarios.world_with_task)) JNull with
  | JObj d => (dict_get "successful_steps" d, dict_get "failed_steps" d)
  | _ => (None, None)
  end = (Some (JInt 2), Some (JInt 0)).
Proof. reflexivity. Qed.

End TotalsFacts.

(* ================================================================== *)
(** ** Which steps see the earlier records *)
(* ================================================================== *)

Module ThreadingFacts.
Import Frames.
Import Py Sys Prim McpClient CommonAgent PyFacts MonadFacts Statements
  HandlerFacts ExecutorFacts PlanFacts.















(** *** What an agent call sends *)

Lemma call_agent_sends_where env agent_id task_description previous_results
  w info endpoint :
  dict_get agent_id (discovered_agents w) = Some (JObj info) ->
  dict_get "endpoint" info = Some endpoint ->
  exists url body,
    sent (final (_call_agent env (JStr agent_id) task_description
                   previous_results w))
    = (sent w ++ [HttpPost url body])%list
    /\ delegates endpoint task_description previous_results
         (HttpPost url body)
    /\ (speaks_a2a info = true ->
        a2a_context body = Some (delegation_context previous_results))
    /\ (speaks_a2a info = false ->
        field "context" body = Some (delegation_context previous_results)).
Proof.
  intros Hinfo Hend.
  unfold _call_agent, Discovery.get_agent_info, _call_a2a_agent,
    _call_legacy_agent, now_seconds.
  unfold py_index, py_get, dict_get_default. run.
  rewrite Hinfo.
  assert (Htruthy : truthy (JObj info) = true)
    by (destruct info; [ discriminate Hend | reflexivity ]).
  rewrite Htruthy. cbn [negb]. rewrite Hend.
  assert (Hgoal : forall url body (P Q : Prop)
                     (o : list json * result json * world),
    sent (final o) = (sent w ++ [HttpPost url body])%list ->
    (url = py_str endpoint ++ "/tasks/send"
     \/ url = py_str endpoint ++ "/task") ->
    call_description (HttpPost url body) = Some task_description ->
    call_context (HttpPost url body)
    = Some (delegation_context previous_results) ->
    (P -> a2a_context body = Some (delegation_context previous_results)) ->
    (Q -> field "context" body = Some (delegation_context previous_results)) ->
    exists url' body',
      sent (final o) = (sent w ++ [HttpPost url' body'])%list
      /\ delegates endpoint task_description previous_results
           (HttpPost url' body')
      /\ (P -> a2a_context body' = Some (delegation_context previous_results))
      /\ (Q -> field "context" body'
               = Some (delegation_context previous_results))).
  { intros url body P Q o Hsent Hurl Hdesc Hctx Ha2a Hlegacy.
    exists url, body.
    split; [ exact Hsent | split; [ | split; [ exact Ha2a | exact Hlegacy ] ] ].
    exists url, body. split; [ reflexivity | ].
    split; [ exact Hurl | split; [ exact Hdesc | exact Hctx ] ]. }
  destruct (dict_get "protocol" info) as [protocol |] eqn:Hprotocol.
  - destruct (is_str "a2a" protocol) eqn:Ha2a.
    + assert (Hs : speaks_a2a info <> false)
        by (unfold speaks_a2a, dict_get_default; rewrite Hprotocol, Ha2a;
            discriminate).
      cbn [dict_get String.eqb Ascii.eqb Bool.eqb].
      match goal with
      | |- context [http_post env ?n ?u ?b] =>
          destruct (http_post env n u b) as [e | status text parsed]
      end;
        repeat match goal with
          | |- context [match ?x with Ok _ => _ | Raise _ => _ end] =>
              destruct x
          | |- context [match ?x with Some _ => _ | None => _ end] =>
              destruct x
          | |- context [if ?b then _ else _] => destruct b
          end;
        (eapply Hgoal;
         [ reflexivity | left; reflexivity | reflexivity | reflexivity
         | intros _; reflexivity | intros H; now destruct Hs ]).
    + assert (Hs : speaks_a2a info <> true)
        by (unfold speaks_a2a, dict_get_default; rewrite Hprotocol, Ha2a;
            discriminate).
      match goal with
      | |- context [http_post env ?n ?u ?b] =>
          destruct (http_post env n u b) as [e | status text parsed]
      end;
        repeat match goal with
          | |- context [match ?x with Some _ => _ | None => _ end] =>
              destruct x
          | |- context [if ?b then _ else _] => destruct b
          end;
        (eapply Hgoal;
         [ reflexivity | right; reflexivity | reflexivity | reflexivity
         | intros H; now destruct Hs | intros _; reflexivity ]).
  - assert (Hs : speaks_a2a info <> true)
      by (unfold speaks_a2a, dict_get_default; rewrite Hprotocol;
          discriminate).
    cbn [is_str String.eqb Ascii.eqb Bool.eqb].
    match goal with
    | |- context [http_post env ?n ?u ?b] =>
        destruct (http_post env n u b) as [e | status text parsed]
    end;
      repeat match goal with
        | |- context [match ?x with Some _ => _ | None => _ end] =>
            destruct x
        | |- context [if ?b then _ else _] => destruct b
        end;
      (eapply Hgoal;
       [ reflexivity | right; reflexivity | reflexivity | reflexivity
       | intros H; now destruct Hs | intros _; reflexivity ]).
Qed.

Lemma call_agent_sends env agent_id task_description previous_results w
  info endpoint :
  dict_get agent_id (discovered_agents w) = Some (JObj info) ->
  dict_get "endpoint" info = Some endpoint ->
  exists url body,
    sent (final (_call_agent env (JStr agent_id) task_description
                   previous_results w))
    = (sent w ++ [HttpPost url body])%list
    /\ delegates endpoint task_description previous_results
         (HttpPost url body)
    /\ (if speaks_a2a info then a2a_context body else field "context" body)
       = Some (delegation_context previous_results).
Proof.
  intros Hinfo Hend.
  destruct (call_agent_sends_where env agent_id task_description
              previous_results w info endpoint Hinfo Hend)
    as (url & body & Hsent & Hcall & Ha2a & Hlegacy).
  exists url, body. split; [ exact Hsent | split; [ exact Hcall | ] ].
  destruct (speaks_a2a info); auto.
Qed.

Lemma skipn_own_length {A : Type} (a b : list A) :
  skipn (List.length a) (a ++ b) = b.
Proof. induction a; simpl; auto. Qed.





(** *** Coordination steps *)


(** *** The dependencies field is never read *)





(** *** The claim *)




(** What the tool step of the counterexample is given: the task text,
    and nothing of the record. *)
Example read_file_step_result :
  outcome (batch_dispatched Scenarios.silent Scenarios.step_read_file
             Scenarios.world_after_one)
  = outcome (batch_dispatched Scenarios.silent Scenarios.step_read_file
               Scenarios.world_with_task)
  /\ sent_by (batch_dispatched Scenarios.silent Scenarios.step_read_file
                Scenarios.world_after_one) Scenarios.world_after_one = [].
Proof. split; vm_compute; reflexivity. Qed.

(** A coordination step run after one record: it reports one processed
    result and sends nothing. *)
Example merge_step_counts_the_records :
  batch_dispatched Scenarios.silent Scenarios.step_merge
    Scenarios.world_after_one
  = ([], Ok (coordinated (JStr "merge") (JStr "merge the results") 1),
     Scenarios.world_after_one).
Proof. reflexivity. Qed.

End ThreadingFacts.

(* ================================================================== *)
(** ** Tool steps *)
(* ================================================================== *)

Module ToolFacts.
Import Frames.
Import Py Sys Prim McpClient CommonAgent PyFacts MonadFacts Statements.

Lemma prefix_empty s : String.prefix "" s = true.
Proof. now destruct s. Qed.

Lemma contains_colon server tool :
  contains ":" (server ++ String colon tool) = true.
Proof.
  induction server as [| a server IH].
  - cbn [append]. unfold colon. cbn [contains String.prefix].
    destruct (Ascii.ascii_dec ":" ":") as [_ | Hne]; [ | now destruct Hne ].
    now rewrite prefix_empty.
  - cbn [append contains String.prefix].
    destruct (Ascii.ascii_dec ":" a); [ now rewrite prefix_empty | exact IH ].
Qed.

Lemma split_once_first server tool :
  colon_free server = true ->
  split_once colon (server ++ String colon tool) = Some (server, tool).
Proof.
  induction server as [| a server IH]; intros Hfree; [ reflexivity | ].
  cbn [colon_free] in Hfree. apply andb_prop in Hfree as [Ha Hrest].
  cbn [append split_once]. apply negb_true_iff in Ha. rewrite Ha.
  now rewrite (IH Hrest).
Qed.

Lemma skipn_length_self {A : Type} (l : list A) : skipn (List.length l) l = [].
Proof. induction l; simpl; auto. Qed.

Lemma skipn_length_app {A : Type} (a b : list A) :
  skipn (List.length a) (a ++ b) = b.
Proof. induction a; simpl; auto. Qed.

(** A tool step whose target names its server: the whole run. *)
Lemma use_mcp_tool_run env server tool task_desc w :
  colon_free server = true ->
  _use_mcp_tool env (tool_target server tool) task_desc w
  = ([], Ok (tool_step_result (JStr server) (JStr tool) task_desc), w).
Proof.
  intros Hfree.
  unfold _use_mcp_tool, tool_target, py_in, split_target, _execute_mcp_tool,
    _invoke_mcp_tool_via_protocol.
  rewrite contains_colon. run.
  change ":"%char with colon. rewrite (split_once_first server tool Hfree).
  reflexivity.
Qed.

Lemma call_tool_sends env server tool arguments w :
  existsb (String.eqb server) (mcp_active w) = true ->
  sent_by (call_tool env server tool arguments w) w
  = [McpWrite server
       (tools_call_request (mcp_request_id w + 1) tool arguments)].
Proof.
  intros Hactive.
  unfold sent_by, call_tool, send_jsonrpc_request, is_active,
    _get_next_request_id. run.
  rewrite Hactive. cbn [negb mcp_active set_mcp_request_id mcp_request_id sent].
  rewrite Hactive. cbn [negb].
  match goal with
  | |- context [mcp_readline env ?n ?s] => destruct (mcp_readline env n s)
  end;
    repeat match goal with
      | |- context [match ?x with Ok _ => _ | Raise _ => _ end] => destruct x
      | |- context [if ?b then _ else _] => destruct b
      end;
    rewrite final_of; cbn [sent set_sent]; apply skipn_length_app.
Qed.

(** C1: what the code does with a tool step.  For a target [S:T] whose
    server part has no colon, [_use_mcp_tool] splits at the first colon
    (the recorded [server] is [S], the recorded [tool] is [T]), writes
    nothing to any server and leaves the world as it was; the result it
    returns holds the placeholder of [_invoke_mcp_tool_via_protocol],
    the same in every environment, so it is no answer of a server and
    the claim as worded fails.  The protocol client does have the
    request: on a running server [call_tool] writes one [tools/call]
    naming the tool. *)
Theorem C1_tool_step_sends_no_request (env : environment)
  (server tool : string) (task_desc : json) (w : world) :
  colon_free server = true ->
  _use_mcp_tool env (tool_target server tool) task_desc w
  = ([], Ok (tool_step_result (JStr server) (JStr tool) task_desc), w)
  /\ sent_by (_use_mcp_tool env (tool_target server tool) task_desc w) w = []
  /\ ~ dispatches_tools_call env server tool task_desc w
  /\ (forall arguments,
        existsb (String.eqb server) (mcp_active w) = true ->
        exists request,
          sent_by (call_tool env server tool arguments w) w = [request]
          /\ tools_call server tool request).
Proof.
  intros Hfree.
  assert (Hsent :
    sent_by (_use_mcp_tool env (tool_target server tool) task_desc w) w = []).
  { unfold sent_by. rewrite (use_mcp_tool_run env server tool task_desc w Hfree).
    rewrite final_of. apply skipn_length_self. }
  split; [ now apply use_mcp_tool_run | ].
  split; [ exact Hsent | ].
  split.
  - intros (request & Hone & _). cbv zeta in Hone. rewrite Hsent in Hone.
    discriminate Hone.
  - intros arguments Hactive. eexists. split.
    + now apply call_tool_sends.
    + eexists. split; [ reflexivity | split; reflexivity ].
Qed.

(** At the tool step of the specification's plan, [fs:read_file]. *)
Lemma C1_witness :
  sent_by (_use_mcp_tool Scenarios.silent (tool_target "fs" "read_file")
             (JStr "read /tmp/x") Scenarios.world_with_fs)
    Scenarios.world_with_fs = []
  /\ ~ dispatches_tools_call Scenarios.silent "fs" "read_file"
        (JStr "read /tmp/x") Scenarios.world_with_fs.
Proof.
  pose proof (C1_tool_step_sends_no_request Scenarios.silent "fs" "read_file"
                (JStr "read /tmp/x") Scenarios.world_with_fs eq_refl)
    as (_ & Hsent & Hnot & _).
  split; assumption.
Defined.

(** The record the streaming executor makes of that step, server
    running: the placeholder, and nothing written to the server. *)
Example read_file_step_is_a_placeholder :
  let o := dispatched Scenarios.silent Scenarios.step_read_file
             Scenarios.world_with_fs in
  outcome o
  = Ok (tool_step_result (JStr "fs") (JStr "read_file") (JStr "read /tmp/x"))
  /\ sent (final o) = [].
Proof. split; vm_compute; reflexivity. Qed.

End ToolFacts.

(* ================================================================== *)
(** ** The fallback of each path *)
(* ================================================================== *)

Module FallbackFacts.
Import Frames.
Import Py Sys Prim Discovery CommonAgent PyFacts MonadFacts Statements
  HandlerFacts ThreadingFacts.

Lemma fallback_empty env task_id description w :
  discovered_agents w = [] ->
  _fallback_processing env task_id description w
  = ([], Ok (fallback_failed task_id), w).
Proof.
  intros Hnone. unfold _fallback_processing, get_available_agents.
  unfold bind, gets. rewrite Hnone. reflexivity.
Qed.

Lemma fallback_first env task_id description w first v rest :
  discovered_agents w = (first, v) :: rest ->
  _fallback_processing env task_id description w
  = let o := _call_agent env (JStr first) description [] w in
    (events o,
     match outcome o with
     | Ok r => Ok (fallback_result task_id first r)
     | Raise e => Raise e
     end,
     final o).
Proof.
  intros Hfirst. unfold _fallback_processing, get_available_agents.
  unfold bind at 1. unfold gets. rewrite Hfirst. cbn [dict_keys map fst].
  unfold bind. cbv zeta.
  destruct (_call_agent env (JStr first) description [] w) as [[ev r] w1].
  rewrite events_of, outcome_of, final_of.
  destruct r; [ | reflexivity ].
  unfold ret, fallback_result. now rewrite app_nil_r.
Qed.

Lemma call_agent_returns env agent_id task_description previous_results w
  info endpoint :
  dict_get agent_id (discovered_agents w) = Some (JObj info) ->
  dict_get "endpoint" info = Some endpoint ->
  exists r,
    outcome (_call_agent env (JStr agent_id) task_description
               previous_results w) = Ok r.
Proof.
  intros Hinfo Hend.
  unfold _call_agent, Discovery.get_agent_info.
  unfold py_index, py_get, dict_get_default.
  unfold bind at 1. unfold gets. rewrite Hinfo.
  assert (Htruthy : truthy (JObj info) = true)
    by (destruct info; [ discriminate Hend | reflexivity ]).
  rewrite Htruthy. cbn [negb]. rewrite Hend.
  unfold bind at 1. unfold lift at 1. unfold bind at 1. unfold lift at 1.
  unfold try_except.
  match goal with
  | |- context [let '(p, w1) := ?m w in _] =>
      destruct (m w) as [[ev r] w1]
  end.
  destruct r as [r | e].
  - exists r. reflexivity.
  - eexists. reflexivity.
Qed.

Lemma mentions_no_design s :
  no_design_word s = true -> mentions_design (JStr s) = Ok false.
Proof.
  unfold no_design_word, mentions_design, py_in. intros H.
  apply andb_prop in H as [H Hui]. apply andb_prop in H as [Ha Hb].
  apply negb_true_iff in Ha, Hb, Hui. now rewrite Ha, Hb, Hui.
Qed.

Lemma mentions_a_design s :
  no_design_word s = false -> mentions_design (JStr s) = Ok true.
Proof.
  unfold no_design_word, mentions_design, py_in. intros H.
  destruct (contains "设计" s); [ reflexivity | ].
  destruct (contains "界面" s); [ reflexivity | ].
  destruct (contains "UI" s); [ reflexivity | discriminate H ].
Qed.

Lemma fallback_stream_undecided env task_id s w :
  no_design_word s = true ->
  _fallback_processing_stream env task_id (JStr s) w
  = ([fallback_started; fallback_undecided], Ok tt, w).
Proof.
  intros Hno. unfold _fallback_processing_stream.
  rewrite (mentions_no_design s Hno). reflexivity.
Qed.

Lemma fallback_stream_design env task_id s w :
  no_design_word s = false ->
  _fallback_processing_stream env task_id (JStr s) w
  = let o := _call_agent env (JStr "ui_designer_agent") (JStr s) [] w in
    (([fallback_started; fallback_decision] ++ events o
      ++ [fallback_outcome (outcome o)])%list,
     Ok tt, final o).
Proof.
  intros Hyes. unfold _fallback_processing_stream.
  rewrite (mentions_a_design s Hyes). cbv zeta.
  unfold bind at 1. unfold yield at 1. unfold bind at 1. unfold lift at 1.
  unfold bind at 1. unfold yield at 1. unfold try_except. unfold bind at 1.
  destruct (_call_agent env (JStr "ui_designer_agent") (JStr s) [] w)
    as [[ev r] w1].
  rewrite events_of, outcome_of, final_of.
  destruct r; unfold yield; cbn [app fallback_outcome];
    reflexivity.
Qed.

(** The hard-wired agent, when the registry does not have it: no
    message is sent. *)
Lemma call_unknown_agent env agent_id task_description previous_results w :
  dict_get agent_id (discovered_agents w) = None ->
  _call_agent env (JStr agent_id) task_description previous_results w
  = ([], Ok (JObj [("error", JStr ("Agent not found: " ++ agent_id))]), w).
Proof.
  intros Hnone. unfold _call_agent, Discovery.get_agent_info, dict_get_default.
  unfold bind, gets. now rewrite Hnone.
Qed.

(** C2.  What each fallback does.  The batch fallback does what the
    claim says when the
    registry is not empty: one POST to the first agent of the registry,
    with the raw description and an empty [previous_results], and the
    agent's result under strategy [fallback].  On an empty registry it
    returns a record with strategy [failed] and the error text (no
    reason named [no_agents_available]), sends nothing and changes
    nothing.  The streaming fallback never looks at the registry: a
    description with none of its three design words gives
    [fallback_started, fallback_error] and no call; with one of them
    the call goes to the agent id [ui_designer_agent], and when the
    registry does not have that id nothing is sent. *)
Theorem C2_fallback_of_each_path (env : environment) (task_id : string)
  (description : json) (w : world) :
  (discovered_agents w = [] ->
   _fallback_processing env task_id description w
   = ([], Ok (fallback_failed task_id), w))
  /\ (forall first info endpoint rest,
        discovered_agents w = (first, JObj info) :: rest ->
        dict_get "endpoint" info = Some endpoint ->
        falls_back_to_first_agent
          (_fallback_processing env task_id description w) description w
        /\ exists r,
             outcome (_call_agent env (JStr first) description [] w) = Ok r
             /\ outcome (_fallback_processing env task_id description w)
                = Ok (fallback_result task_id first r))
  /\ (forall s,
        description = JStr s ->
        no_design_word s = true ->
        _fallback_processing_stream env task_id description w
        = ([fallback_started; fallback_undecided], Ok tt, w))
  /\ (forall s,
        description = JStr s ->
        no_design_word s = false ->
        let o := _call_agent env (JStr "ui_designer_agent") description [] w in
        _fallback_processing_stream env task_id description w
        = (([fallback_started; fallback_decision] ++ events o
            ++ [fallback_outcome (outcome o)])%list,
           Ok tt, final o)
        /\ (dict_get "ui_designer_agent" (discovered_agents w) = None ->
            final o = w)).
Proof.
  split; [ apply fallback_empty | ].
  split; [ | split ].
  - intros first info endpoint rest Hfirst Hend.
    assert (Hinfo : dict_get first (discovered_agents w) = Some (JObj info)).
    { rewrite Hfirst. cbn [dict_get]. now rewrite String.eqb_refl. }
    destruct (call_agent_sends env first description [] w info endpoint
                Hinfo Hend) as (url & body & Hsent & Hcall & _).
    destruct (call_agent_returns env first description [] w info endpoint
                Hinfo Hend) as (r & Hr).
    split.
    + exists first, info, endpoint, rest, (HttpPost url body).
      split; [ exact Hfirst | split; [ exact Hend | split; [ | exact Hcall ] ] ].
      unfold sent_by. rewrite (fallback_first _ _ _ _ _ _ _ Hfirst).
      cbv zeta. rewrite final_of, Hsent. apply skipn_own_length.
    + exists r. split; [ exact Hr | ].
      rewrite (fallback_first _ _ _ _ _ _ _ Hfirst). cbv zeta.
      now rewrite outcome_of, Hr.
  - intros s -> Hno. now apply fallback_stream_undecided.
  - intros s -> Hyes. cbv zeta. split.
    + now apply fallback_stream_design.
    + intros Hnone. now rewrite (call_unknown_agent _ _ _ _ _ Hnone).
Qed.

(** The batch fallback with agent [x] in the registry. *)
Lemma C2_witness :
  falls_back_to_first_agent
    (_fallback_processing Scenarios.silent "task_0" Scenarios.summarise
       Scenarios.world_with_x_and_task)
    Scenarios.summarise Scenarios.world_with_x_and_task.
Proof.
  refine (proj1 (proj1 (proj2
    (C2_fallback_of_each_path Scenarios.silent "task_0" Scenarios.summarise
       Scenarios.world_with_x_and_task))
    "x" _ _ _ eq_refl eq_refl)).
Defined.

(** C2 as the specification words it fails on the streaming path: with
    agent [x] in the registry and a reply that is no JSON text, the
    fallback makes no agent call; the only message of the whole run is
    the prompt to the LLM. *)
Lemma C2_counterexample :
  ~ falls_back_to_first_agent
      (_fallback_processing_stream Scenarios.env_chatty "task_0"
         Scenarios.summarise Scenarios.world_with_x_and_task)
      Scenarios.summarise Scenarios.world_with_x_and_task
  /\ map Routes.event_name
       (events (process_task_with_llm_stream Scenarios.env_chatty "task_0"
                  (JObj [("description", Scenarios.summarise)])
                  Scenarios.world_with_x_and_task))
     = ["llm_analysis_started"; "llm_analysis_progress";
        "llm_analysis_progress"; "llm_analysis_completed"; "error";
        "fallback_started"; "fallback_error"]
  /\ List.length
       (sent_by (process_task_with_llm_stream Scenarios.env_chatty "task_0"
                   (JObj [("description", Scenarios.summarise)])
                   Scenarios.world_with_x_and_task)
          Scenarios.world_with_x_and_task) = 1.
Proof.
  split; [ | split; vm_compute; reflexivity ].
  intros (first & info & endpoint & rest & call & _ & _ & Hsent & _).
  vm_compute in Hsent. discriminate Hsent.
Qed.

(** The same reply on the batch path: the first agent is called. *)
Example batch_fallback_calls_x :
  let o := process_task_with_llm Scenarios.env_chatty "task_0"
             (JObj [("description", Scenarios.summarise)])
             Scenarios.world_with_x_and_task in
  and_then (match outcome o with Ok r => Some r | Raise _ => None end)
    (field "execution_strategy") = Some (JStr "fallback")
  /\ and_then (match outcome o with Ok r => Some r | Raise _ => None end)
       (field "selected_agent") = Some (JStr "x").
Proof. split; vm_compute; reflexivity. Qed.

End FallbackFacts.

(* ================================================================== *)
(** ** The event stream of a submission *)
(* ================================================================== *)

Module StreamFacts.
Import Frames.
Import Py Sys Prim Discovery McpClient CommonAgent PyFacts MonadFacts
  Statements HandlerFacts ExecutorFacts PlanFacts TotalsFacts.

(** *** Computations that emit no event *)

Lemma quiet_ret {A : Type} (a : A) : quiet (ret a).
Proof. intro w. reflexivity. Qed.

Lemma quiet_raise {A : Type} (e : exn) : quiet (@raise A e).
Proof. intro w. reflexivity. Qed.

Lemma quiet_lift {A : Type} (r : result A) : quiet (lift r).
Proof. intro w. reflexivity. Qed.

Lemma quiet_gets {A : Type} (f : world -> A) : quiet (gets f).
Proof. intro w. reflexivity. Qed.

Lemma quiet_modify (f : world -> world) : quiet (modify f).
Proof. intro w. reflexivity. Qed.

Lemma quiet_send (o : outbound) : quiet (send o).
Proof. intro w. reflexivity. Qed.

Lemma quiet_now env : quiet (now env).
Proof. intro w. reflexivity. Qed.

Lemma quiet_bind {A B : Type} (m : M A) (k : A -> M B) :
  quiet m -> (forall a, quiet (k a)) -> quiet (bind m k).
Proof.
  intros Hm Hk w. unfold bind. specialize (Hm w).
  destruct (m w) as [[ev r] w1]. rewrite events_of in Hm. subst ev.
  destruct r as [a | e]; [ | reflexivity ].
  specialize (Hk a w1). destruct (k a w1) as [[ev1 r1] w2].
  rewrite events_of in *. now subst ev1.
Qed.

Lemma quiet_try {A : Type} (m : M A) (h : exn -> M A) :
  quiet m -> (forall e, quiet (h e)) -> quiet (try_except m h).
Proof.
  intros Hm Hh w. unfold try_except. specialize (Hm w).
  destruct (m w) as [[ev r] w1]. rewrite events_of in Hm. subst ev.
  destruct r as [a | e]; [ reflexivity | ].
  specialize (Hh e w1). destruct (h e w1) as [[ev1 r1] w2].
  rewrite events_of in *. now subst ev1.
Qed.

Ltac quietly :=
  repeat match goal with
    | |- quiet (ret _) => apply quiet_ret
    | |- quiet (raise _) => apply quiet_raise
    | |- quiet (lift _) => apply quiet_lift
    | |- quiet (gets _) => apply quiet_gets
    | |- quiet (modify _) => apply quiet_modify
    | |- quiet (send _) => apply quiet_send
    | |- quiet (now _) => apply quiet_now
    | |- quiet (bind _ _) => apply quiet_bind; [ | intros ]
    | |- quiet (try_except _ _) => apply quiet_try; [ | intros ]
    | |- quiet (match ?x with _ => _ end) => destruct x
    end.

Lemma call_agent_quiet env agent_id task_description previous_results :
  quiet (_call_agent env agent_id task_description previous_results).
Proof.
  unfold _call_agent, Discovery.get_agent_info, _call_a2a_agent,
    _call_legacy_agent, now_seconds, client_post, response_json.
  quietly.
Qed.

Lemma discover_tools_quiet env server_name server_config :
  quiet (discover_tools env server_name server_config).
Proof.
  unfold discover_tools, is_active, start_mcp_server, _initialize_server,
    send_jsonrpc_request, send_jsonrpc_notification, is_active,
    _get_next_request_id, log_first_tools.
  quietly.
Qed.

Lemma infer_loop_quiet env tool_name servers :
  quiet (infer_loop env tool_name servers).
Proof.
  induction servers as [| s rest IH]; simpl; [ quietly | ].
  apply quiet_bind.
  - unfold _query_mcp_server_tools_runtime, get_server_config.
    apply quiet_try; [ | intros; quietly ].
    apply quiet_bind; [ quietly | intros cfg ].
    destruct (negb (truthy cfg)); [ quietly | ].
    apply quiet_bind; [ apply discover_tools_quiet | intros; quietly ].
  - intros tools. destruct (list_mem tool_name tools); [ quietly | exact IH ].
Qed.

Lemma use_mcp_tool_quiet env tool_name task_description :
  quiet (_use_mcp_tool env tool_name task_description).
Proof.
  unfold _use_mcp_tool, _execute_mcp_tool, _invoke_mcp_tool_via_protocol.
  apply quiet_try; [ | intros; quietly ].
  apply quiet_bind; [ quietly | intros has_colon ].
  apply quiet_bind; [ | intros; quietly ].
  destruct has_colon; [ quietly | ].
  apply quiet_bind; [ | intros; quietly ].
  unfold _infer_server_from_tool, list_available_servers.
  apply quiet_try; [ | intros; quietly ].
  apply quiet_bind; [ quietly | intros ].
  apply infer_loop_quiet.
Qed.

(** *** Handlers that always return *)

Lemma try_ret_returns {A : Type} (m : M A) (f : exn -> A) w :
  exists a, outcome (try_except m (fun e => ret (f e)) w) = Ok a.
Proof.
  unfold try_except. destruct (m w) as [[ev r] w1].
  destruct r as [a | e]; eexists; reflexivity.
Qed.

Lemma use_mcp_tool_returns env tool_name task_description w :
  exists r, outcome (_use_mcp_tool env tool_name task_description w) = Ok r.
Proof. unfold _use_mcp_tool. apply try_ret_returns. Qed.

Lemma call_known_or_unknown env agent_id task_description previous_results w :
  registry_well_formed w ->
  exists r,
    outcome (_call_agent env (JStr agent_id) task_description
               previous_results w) = Ok r.
Proof.
  intros Hwf.
  destruct (dict_get agent_id (discovered_agents w)) as [info |] eqn:Hinfo.
  - destruct (truthy info) eqn:Htruthy.
    + destruct (Hwf agent_id info Hinfo Htruthy) as (d & endpoint & -> & Hend).
      now apply (FallbackFacts.call_agent_returns env agent_id
                   task_description previous_results w d endpoint).
    + unfold _call_agent, Discovery.get_agent_info, dict_get_default.
      unfold bind, gets. rewrite Hinfo, Htruthy. eexists. reflexivity.
  - rewrite (FallbackFacts.call_unknown_agent _ _ _ _ _ Hinfo).
    eexists. reflexivity.
Qed.

(** *** What the two kinds of step emit *)

Lemma agent_dispatch_run env agent_id task_desc t0 w :
  registry_well_formed w ->
  let o := stream_dispatch env (JStr "agent_call") (JStr agent_id) task_desc
             t0 w in
  map Routes.signature (events o)
  = [("agent_call_started", None); ("agent_call_completed", None)]
  /\ exists r, outcome o = Ok r.
Proof.
  intros Hwf. cbv zeta. unfold stream_dispatch.
  cbn [is_str String.eqb Ascii.eqb Bool.eqb].
  destruct (call_known_or_unknown env agent_id task_desc
              (execution_results w) w Hwf) as (r & Hr).
  pose proof (call_agent_quiet env (JStr agent_id) task_desc
                (execution_results w) w) as Hq.
  run.
  destruct (_call_agent env (JStr agent_id) task_desc (execution_results w) w)
    as [[ev r'] w1].
  rewrite outcome_of in Hr. rewrite events_of in Hq. subst ev r'.
  split; [ reflexivity | ].
  eexists. reflexivity.
Qed.

Lemma tool_dispatch_run env target task_desc t0 w :
  let o := stream_dispatch env (JStr "tool_use") target task_desc t0 w in
  map Routes.signature (events o) = [("mcp_tool_used", None)]
  /\ exists r, outcome o = Ok r.
Proof.
  cbv zeta. unfold stream_dispatch.
  cbn [is_str String.eqb Ascii.eqb Bool.eqb].
  destruct (use_mcp_tool_returns env target task_desc w) as (r & Hr).
  pose proof (use_mcp_tool_quiet env target task_desc w) as Hq.
  run.
  destruct (_use_mcp_tool env target task_desc w) as [[ev r'] w1].
  rewrite outcome_of in Hr. rewrite events_of in Hq. subst ev r'.
  split; [ reflexivity | ].
  eexists. reflexivity.
Qed.

(** *** The system context *)

Lemma context_agents_run ids :
  forall acc w,
    registry_well_formed w ->
    exists acc', context_agents ids acc w = ([], Ok acc', w).
Proof.
  induction ids as [| agent_id rest IH]; intros acc w Hwf.
  - exists acc. reflexivity.
  - cbn [context_agents]. unfold Discovery.get_agent_info, dict_get_default.
    unfold bind at 1. unfold gets at 1.
    destruct (dict_get agent_id (discovered_agents w)) as [info |] eqn:Hinfo.
    + destruct (truthy info) eqn:Htruthy.
      * destruct (Hwf agent_id info Hinfo Htruthy)
          as (d & endpoint & -> & Hend).
        unfold py_index, py_get. rewrite Hend.
        unfold Discovery.get_agent_capabilities.
        unfold bind at 1. unfold lift at 1. unfold bind at 1.
        unfold gets at 1. unfold bind at 1. unfold lift at 1.
        match goal with
        | |- context [context_agents rest ?a w] =>
            destruct (IH a w Hwf) as (acc' & ->)
        end.
        exists acc'. reflexivity.
      * destruct (IH acc w Hwf) as (acc' & ->). exists acc'. reflexivity.
    + cbn [truthy]. destruct (IH acc w Hwf) as (acc' & ->).
      exists acc'. reflexivity.
Qed.

Lemma context_servers_run servers :
  forall acc w,
    exists acc', context_servers servers acc w = ([], Ok acc', w).
Proof.
  induction servers as [| server rest IH]; intros acc w.
  - exists acc. reflexivity.
  - cbn [context_servers]. unfold get_server_config.
    unfold bind at 1. unfold try_except. unfold bind at 1. unfold gets at 1.
    destruct (truthy (dict_get_default server JNull (servers_config w))).
    + destruct (py_get "description" (JStr "No description")
                  (dict_get_default server JNull (servers_config w)))
        as [description | e].
      * destruct (py_get "command" (JStr "Unknown")
                    (dict_get_default server JNull (servers_config w)))
          as [command | e].
        -- unfold bind, lift, ret. cbn [app].
           match goal with
           | |- context [context_servers rest ?a w] =>
               destruct (IH a w) as (acc' & ->)
           end.
           exists acc'. reflexivity.
        -- unfold bind, lift, ret. cbn [app].
           destruct (IH acc w) as (acc' & ->). exists acc'. reflexivity.
      * unfold bind, lift, ret. cbn [app].
        destruct (IH acc w) as (acc' & ->). exists acc'. reflexivity.
    + unfold ret. cbn [app].
      destruct (IH acc w) as (acc' & ->). exists acc'. reflexivity.
Qed.

Lemma build_system_context_run w :
  registry_well_formed w ->
  exists system_context, _build_system_context w = ([], Ok system_context, w).
Proof.
  intros Hwf. unfold _build_system_context, Discovery.get_available_agents,
    list_available_servers.
  unfold bind at 1. unfold gets at 1.
  destruct (context_agents_run (dict_keys (discovered_agents w)) [] w Hwf)
    as (agents & Hagents).
  unfold bind at 1. rewrite Hagents.
  unfold bind at 1. unfold gets at 1.
  destruct (context_servers_run (dict_keys (servers_config w)) ([], []) w)
    as ([tools details] & Hservers).
  unfold bind at 1. rewrite Hservers.
  eexists. reflexivity.
Qed.

(** *** The streamed reply *)

Lemma stream_chunks_run (chunks : list string) w :
  stream_chunks chunks w = (map progress_event chunks, Ok (joined chunks), w).
Proof.
  induction chunks as [| chunk rest IH]; [ reflexivity | ].
  cbn [stream_chunks]. unfold bind at 1. unfold yield at 1.
  unfold bind at 1. rewrite IH. unfold ret. rewrite app_nil_r. reflexivity.
Qed.

Lemma progress_signature (chunks : list string) :
  map Routes.signature (map progress_event chunks)
  = repeat ("llm_analysis_progress", None) (List.length chunks).
Proof.
  induction chunks as [| chunk rest IH]; [ reflexivity | ].
  cbn [map List.length repeat]. now rewrite IH.
Qed.

(** *** The two steps *)

Lemma well_formed_same w w' :
  discovered_agents w' = discovered_agents w ->
  registry_well_formed w -> registry_well_formed w'.
Proof. intros E H agent_id info. rewrite E. apply H. Qed.

Lemma agent_step_run env task_id d agent_id w l :
  task_has task_id w "steps" (JArr l) ->
  registry_well_formed w ->
  action_of d = JStr "agent_call" ->
  target_of d = JStr agent_id ->
  exists evs w' record entry,
    stream_step env task_id (JObj d) w = (evs, Ok tt, w')
    /\ map Routes.signature evs
       = [("step_started", Some (step_number_of d));
          ("agent_call_started", None);
          ("agent_call_completed", None)]
    /\ execution_results w' = (execution_results w ++ [record])%list
    /\ record_of d record
    /\ task_has task_id w' "steps" (JArr (l ++ [entry])%list)
    /\ entry_of d entry
    /\ (forall key v, key <> "steps" ->
                      task_has task_id w key v -> task_has task_id w' key v)
    /\ settled w w'.
Proof.
  intros Htask Hwf Hact Htgt.
  pose proof (stream_step_run env task_id d w l Htask) as H.
  cbv zeta in H.
  assert (Hwf0 : registry_well_formed (set_ticks (S (ticks w)) w))
    by (eapply well_formed_same; [ | exact Hwf ]; reflexivity).
  destruct (agent_dispatch_run env agent_id (task_of d) (clock env (ticks w))
              _ Hwf0) as (Hsig & r & Hr).
  cbv zeta in Hsig, Hr.
  assert (Hplain : plain_result r = true).
  { apply (dispatched_plain env d w r). unfold dispatched.
    rewrite Hact, Htgt. exact Hr. }
  rewrite Hact, Htgt in H. rewrite Hr in H.
  cbn [is_str String.eqb Ascii.eqb Bool.eqb negb] in H.
  destruct H as (w' & Hrun & Hres & Htask' & Hkeep & Hset & _).
  eexists. exists w'. eexists. eexists.
  split; [ exact Hrun | ].
  split; [ cbn [map]; rewrite map_app, Hsig; reflexivity | ].
  split; [ exact Hres | ].
  split; [ eexists; eexists; eexists; split; [ reflexivity | exact Hplain ] | ].
  split; [ exact Htask' | ].
  split; [ eexists; eexists; eexists; split; [ reflexivity | exact Hplain ] | ].
  split; assumption.
Qed.

Lemma tool_step_run env task_id d w l :
  task_has task_id w "steps" (JArr l) ->
  action_of d = JStr "tool_use" ->
  exists evs w' record entry,
    stream_step env task_id (JObj d) w = (evs, Ok tt, w')
    /\ map Routes.signature evs
       = [("step_started", Some (step_number_of d));
          ("mcp_tool_used", None);
          ("step_completed", Some (step_number_of d))]
    /\ execution_results w' = (execution_results w ++ [record])%list
    /\ record_of d record
    /\ task_has task_id w' "steps" (JArr (l ++ [entry])%list)
    /\ entry_of d entry
    /\ (forall key v, key <> "steps" ->
                      task_has task_id w key v -> task_has task_id w' key v)
    /\ settled w w'.
Proof.
  intros Htask Hact.
  pose proof (stream_step_run env task_id d w l Htask) as H.
  cbv zeta in H.
  destruct (tool_dispatch_run env (target_of d) (task_of d)
              (clock env (ticks w)) (set_ticks (S (ticks w)) w))
    as (Hsig & r & Hr).
  cbv zeta in Hsig, Hr.
  assert (Hplain : plain_result r = true).
  { apply (dispatched_plain env d w r). unfold dispatched.
    rewrite Hact. exact Hr. }
  rewrite Hact in H. rewrite Hr in H.
  cbn [is_str String.eqb Ascii.eqb Bool.eqb negb] in H.
  destruct H as (w' & Hrun & Hres & Htask' & Hkeep & Hset & _).
  eexists. exists w'. eexists. eexists.
  split; [ exact Hrun | ].
  split; [ cbn [map]; rewrite map_app, Hsig; reflexivity | ].
  split; [ exact Hres | ].
  split; [ eexists; eexists; eexists; split; [ reflexivity | exact Hplain ] | ].
  split; [ exact Htask' | ].
  split; [ eexists; eexists; eexists; split; [ reflexivity | exact Hplain ] | ].
  split; assumption.
Qed.

Lemma two_steps_run env task_id d1 d2 agent_id w l :
  task_has task_id w "steps" (JArr l) ->
  registry_well_formed w ->
  action_of d1 = JStr "agent_call" ->
  target_of d1 = JStr agent_id ->
  action_of d2 = JStr "tool_use" ->
  exists evs w' records e1 e2,
    stream_steps env task_id [JObj d1; JObj d2] w = (evs, Ok tt, w')
    /\ map Routes.signature evs
       = [("step_started", Some (step_number_of d1));
          ("agent_call_started", None);
          ("agent_call_completed", None);
          ("step_started", Some (step_number_of d2));
          ("mcp_tool_used", None);
          ("step_completed", Some (step_number_of d2))]
    /\ execution_results w' = (execution_results w ++ records)%list
    /\ Forall2 record_of [d1; d2] records
    /\ task_has task_id w' "steps" (JArr (l ++ [e1; e2])%list)
    /\ entry_of d1 e1 /\ entry_of d2 e2
    /\ (forall key v, key <> "steps" ->
                      task_has task_id w key v -> task_has task_id w' key v)
    /\ settled w w'.
Proof.
  intros Htask Hwf Hact1 Htgt1 Hact2.
  destruct (agent_step_run env task_id d1 agent_id w l Htask Hwf Hact1 Htgt1)
    as (evs1 & w1 & rec1 & e1 & Hrun1 & Hsig1 & Hres1 & Hrec1 & Htask1 & He1
        & Hkeep1 & Hset1).
  destruct (tool_step_run env task_id d2 w1 _ Htask1 Hact2)
    as (evs2 & w2 & rec2 & e2 & Hrun2 & Hsig2 & Hres2 & Hrec2 & Htask2 & He2
        & Hkeep2 & Hset2).
  exists (evs1 ++ evs2)%list, w2, [rec1; rec2], e1, e2.
  split.
  { cbn [stream_steps]. unfold bind at 1. rewrite Hrun1.
    unfold bind at 1. rewrite Hrun2. unfold ret.
    now rewrite app_nil_r. }
  split; [ rewrite map_app, Hsig1, Hsig2; reflexivity | ].
  split; [ rewrite Hres2, Hres1, <- app_assoc; reflexivity | ].
  split; [ repeat constructor; assumption | ].
  split; [ rewrite <- app_assoc in Htask2; exact Htask2 | ].
  split; [ exact He1 | ]. split; [ exact He2 | ].
  split; [ auto | eapply settled_trans; eauto ].
Qed.

(** *** The executor on the two steps *)

Lemma settled_set_ticks n w : settled w (set_ticks n w).
Proof. repeat split. Qed.

Lemma execute_two_steps_run env task_id decision d1 d2 agent_id w l :
  dict_get_default "execution_plan" (JArr []) decision
  = JArr [JObj d1; JObj d2] ->
  task_has task_id w "steps" (JArr l) ->
  registry_well_formed w ->
  action_of d1 = JStr "agent_call" ->
  target_of d1 = JStr agent_id ->
  action_of d2 = JStr "tool_use" ->
  exists evs w' e1 e2,
    _execute_llm_plan_stream env task_id (JObj decision) w = (evs, Ok tt, w')
    /\ map Routes.signature evs
       = [("execution_started", None);
          ("step_started", Some (step_number_of d1));
          ("agent_call_started", None);
          ("agent_call_completed", None);
          ("step_started", Some (step_number_of d2));
          ("mcp_tool_used", None);
          ("step_completed", Some (step_number_of d2));
          ("execution_completed", None)]
    /\ task_has task_id w' "steps" (JArr (l ++ [e1; e2])%list)
    /\ entry_of d1 e1 /\ entry_of d2 e2
    /\ (forall key v, key <> "steps" ->
                      task_has task_id w key v -> task_has task_id w' key v)
    /\ settled w w'.
Proof.
  intros Hplan Htask Hwf Hact1 Htgt1 Hact2.
  set (ws := set_ticks (S (ticks (set_execution_results [] w)))
               (set_execution_results [] w)).
  assert (Htask_s : task_has task_id ws "steps" (JArr l))
    by (eapply task_has_other; [ | exact Htask ]; reflexivity).
  assert (Hwf_s : registry_well_formed ws)
    by (eapply well_formed_same; [ | exact Hwf ]; reflexivity).
  destruct (two_steps_run env task_id d1 d2 agent_id ws l Htask_s Hwf_s
              Hact1 Htgt1 Hact2)
    as (evs & w1 & records & e1 & e2 & Hrun & Hsig & Hres & Hall & Htask1
        & He1 & He2 & Hkeep & Hset).
  simpl in Hres. subst ws.
  unfold _execute_llm_plan_stream. unfold py_get. rewrite Hplan.
  unfold py_len, py_iter. run. rewrite Hrun.
  cbn [execution_results set_ticks]. rewrite Hres.
  rewrite (success_flags_records [d1; d2] records Hall).
  eexists. eexists. exists e1, e2.
  split; [ reflexivity | ].
  split.
  { cbn [map app]. rewrite !map_app, Hsig. reflexivity. }
  split; [ eapply task_has_other; [ | exact Htask1 ]; reflexivity | ].
  split; [ exact He1 | ]. split; [ exact He2 | ].
  split.
  { intros key v Hkey Hv. eapply task_has_other; [ reflexivity | ].
    apply Hkeep; [ exact Hkey | ].
    eapply task_has_other; [ | exact Hv ]. reflexivity. }
  eapply settled_trans; [ | apply settled_set_ticks ].
  eapply settled_trans; [ | exact Hset ].
  repeat split.
Qed.

(** *** The task table *)

Lemma get_task_run task_id task w :
  dict_get task_id (active_tasks w) = Some task ->
  get_task task_id w = ([], Ok task, w).
Proof. intros H. unfold get_task, bind, gets. now rewrite H. Qed.

Lemma task_set_run task_id key value t w :
  dict_get task_id (active_tasks w) = Some (JObj t) ->
  task_set task_id key value w
  = ([], Ok tt,
     set_active_tasks
       (dict_set task_id (JObj (dict_set key value t)) (active_tasks w)) w).
Proof.
  intros H. unfold task_set. unfold bind at 1.
  rewrite (get_task_run _ _ _ H). reflexivity.
Qed.

Lemma task_steps_append_run task_id entry t l w :
  dict_get task_id (active_tasks w) = Some (JObj t) ->
  dict_get "steps" t = Some (JArr l) ->
  task_steps_append task_id entry w
  = ([], Ok tt,
     set_active_tasks
       (dict_set task_id
          (JObj (dict_set "steps" (JArr (l ++ [entry])%list) t))
          (active_tasks w)) w).
Proof.
  intros H Hsteps. unfold task_steps_append. unfold bind at 1.
  rewrite (get_task_run _ _ _ H). unfold py_index. rewrite Hsteps.
  unfold bind at 1. unfold lift at 1.
  rewrite (task_set_run _ _ _ _ _ H). reflexivity.
Qed.

(** *** The streaming path of the coordinator *)

(** The decoding of the streamed reply touches nothing and emits
    nothing; it gives [v] exactly when the reply parses into [v]. *)
Lemma decode_streamed_run env text v w :
  parses_into env text v -> decode_streamed env text w = ([], Ok v, w).
Proof.
  unfold decode_streamed.
  intros [H | (H & group & rest & Hsearch & Hgroup)]; rewrite H.
  - reflexivity.
  - rewrite Hsearch, Hgroup. reflexivity.
Qed.

Lemma decode_streamed_parses env text v w :
  outcome (decode_streamed env text w) = Ok v -> parses_into env text v.
Proof.
  unfold decode_streamed, parses_into.
  destruct (json_loads env text) as [v' |] eqn:Hwhole.
  - intros H. injection H as <-. now left.
  - destruct (Re.search braces_pattern text) as [[group rest] |] eqn:Hsearch;
      [ | discriminate ].
    destruct (json_loads env group) as [v' |] eqn:Hgroup; [ | discriminate ].
    intros H. injection H as <-. right. split; [ reflexivity | ].
    exists group, rest. now split.
Qed.

Lemma process_two_steps_run env task_id td decision strategy d1 d2 agent_id
  w t :
  dict_get task_id (active_tasks w) = Some (JObj t) ->
  dict_get "steps" t = Some (JArr []) ->
  llm_ready w = true ->
  registry_well_formed w ->
  (forall prompt,
      parses_into env
        (joined (llm_stream env (List.length (sent w)) prompt))
        (JObj decision)) ->
  dict_get "execution_strategy" decision = Some strategy ->
  dict_get_default "execution_plan" (JArr []) decision
  = JArr [JObj d1; JObj d2] ->
  action_of d1 = JStr "agent_call" ->
  target_of d1 = JStr agent_id ->
  action_of d2 = JStr "tool_use" ->
  exists evs w' chunks stamp e1 e2 completed_at,
    process_task_with_llm_stream env task_id (JObj td) w = (evs, Ok tt, w')
    /\ map Routes.signature evs
       = (("llm_analysis_started", None)
          :: repeat ("llm_analysis_progress", None) (List.length chunks)
          ++ [("llm_analysis_completed", None);
              ("llm_decision_made", None);
              ("execution_started", None);
              ("step_started", Some (step_number_of d1));
              ("agent_call_started", None);
              ("agent_call_completed", None);
              ("step_started", Some (step_number_of d2));
              ("mcp_tool_used", None);
              ("step_completed", Some (step_number_of d2));
              ("execution_completed", None)])%list
    /\ (exists system_context,
          chunks = llm_stream env (List.length (sent w))
                     (stream_prompt system_context
                        (dict_get_default "description" (JStr "") td)))
    /\ task_has task_id w' "steps"
         (JArr [analysis_entry (JObj decision) stamp; e1; e2])
    /\ entry_of d1 e1 /\ entry_of d2 e2
    /\ task_has task_id w' "completed_at" (JInt completed_at)
    /\ (forall key v,
          key <> "steps" -> key <> "status" -> key <> "completed_at" ->
          task_has task_id w key v -> task_has task_id w' key v).
Proof.
  intros Htask Hsteps Hllm Hwf Hreply Hstrategy Hplan Hact1 Htgt1 Hact2.
  destruct (build_system_context_run w Hwf) as (system_context & Hctx).
  unfold process_task_with_llm_stream, stream_message.
  unfold py_get, py_index.
  unfold bind at 1. unfold lift at 1.
  unfold bind at 1. rewrite (get_task_run _ _ _ Htask).
  unfold bind at 1. unfold yield at 1.
  unfold bind at 1. rewrite Hctx.
  unfold try_except.
  unfold bind at 1. unfold gets at 1. rewrite Hllm. cbn [negb].
  unfold bind at 1. unfold bind at 1. unfold send at 1. unfold ret at 1.
  unfold bind at 1. rewrite stream_chunks_run.
  unfold bind at 1. unfold yield at 1.
  unfold bind at 1. rewrite (decode_streamed_run _ _ _ _ (Hreply _)).
  rewrite Hstrategy.
  unfold bind at 1. unfold lift at 1.
  unfold bind at 1. unfold yield at 1.
  unfold bind at 1. unfold now at 1.
  unfold bind at 1.
  lazymatch goal with
  | |- context [task_steps_append task_id ?e ?ws] =>
      rewrite (task_steps_append_run task_id e t [] ws Htask Hsteps);
      cbv beta iota; unfold bind at 1;
      lazymatch goal with
      | |- context [_execute_llm_plan_stream env task_id (JObj decision) ?ws3] =>
          assert (Htask3 : task_has task_id ws3 "steps" (JArr [e]))
            by (eexists; split; apply dict_get_set_same);
          assert (Hwf3 : registry_well_formed ws3)
            by (eapply well_formed_same; [ | exact Hwf ]; reflexivity);
          assert (Hkeep3 : forall key v,
                     key <> "steps" ->
                     task_has task_id w key v -> task_has task_id ws3 key v);
          [ | destruct (execute_two_steps_run env task_id decision d1 d2
                         agent_id ws3 [e] Hplan Htask3 Hwf3 Hact1 Htgt1 Hact2)
                as (evs & w4 & e1 & e2 & Hrun & Hsig & Htask4 & He1 & He2
                    & Hkeep & Hset) ]
      end
  end.
  { intros key v Hkey (t' & Ht' & Hv). rewrite Htask in Ht'.
    injection Ht' as <-. eexists. split; [ apply dict_get_set_same | ].
    rewrite dict_get_set_other by auto. exact Hv. }
  destruct Htask4 as (t4 & Ht4 & Hsteps4).
  unfold bind at 1. rewrite Hrun.
  unfold bind at 1. rewrite (task_set_run task_id "status" _ t4 w4 Ht4).
  unfold bind at 1. unfold now at 1.
  match goal with
  | |- context [task_set task_id "completed_at" ?v ?w6] =>
      rewrite (task_set_run task_id "completed_at" v
                 (dict_set "status" (JStr "completed") t4) w6)
        by apply dict_get_set_same
  end.
  eexists. eexists. eexists. eexists. exists e1, e2. eexists.
  split; [ reflexivity | ].
  split.
  { cbn [map app]. rewrite app_nil_r, !map_app. cbn [map].
    rewrite progress_signature, Hsig. reflexivity. }
  split; [ exists system_context; reflexivity | ].
  split.
  { eexists. split; [ apply dict_get_set_same | ].
    rewrite !dict_get_set_other by discriminate. exact Hsteps4. }
  split; [ exact He1 | ]. split; [ exact He2 | ].
  split.
  { eexists. split; [ apply dict_get_set_same | ]. apply dict_get_set_same. }
  intros key v Hk1 Hk2 Hk3 Hv.
  destruct (Hkeep key v Hk1 (Hkeep3 key v Hk1 Hv)) as (t' & Ht' & Hv').
  rewrite Ht4 in Ht'. injection Ht' as <-.
  eexists. split; [ apply dict_get_set_same | ].
  rewrite !dict_get_set_other by auto. exact Hv'.
Qed.

(** *** The route *)

Lemma entry_result d entry :
  entry_of d entry ->
  exists fields,
    py_get "result" (JObj []) entry = Ok (JObj fields)
    /\ py_get "action" JNull entry = Ok (action_of d)
    /\ py_get "target" (JStr "") entry = Ok (target_of d).
Proof.
  intros (result & duration & stamp & -> & Hplain).
  destruct result as [| | | | | | fields]; try discriminate Hplain.
  exists fields. repeat split.
Qed.

Lemma count_successful_log decision stamp d1 d2 e1 e2 :
  entry_of d1 e1 -> entry_of d2 e2 ->
  exists n,
    Routes.count_successful [analysis_entry decision stamp; e1; e2] = Ok n.
Proof.
  intros H1 H2.
  destruct (entry_result d1 e1 H1) as (f1 & Hr1 & _).
  destruct (entry_result d2 e2 H2) as (f2 & Hr2 & _).
  cbn [Routes.count_successful]. rewrite Hr1, Hr2.
  cbn [analysis_entry py_get py_in dict_get_default dict_get dict_mem
       String.eqb Ascii.eqb Bool.eqb].
  eexists. reflexivity.
Qed.

Lemma targets_of_log kind decision stamp d1 d2 e1 e2 :
  entry_of d1 e1 -> entry_of d2 e2 ->
  Routes.targets_of kind [analysis_entry decision stamp; e1; e2]
  = Ok ((if is_str kind (action_of d1) then [target_of d1] else [])
        ++ (if is_str kind (action_of d2) then [target_of d2] else []))%list.
Proof.
  intros H1 H2.
  destruct (entry_result d1 e1 H1) as (f1 & _ & Ha1 & Ht1).
  destruct (entry_result d2 e2 H2) as (f2 & _ & Ha2 & Ht2).
  cbn [Routes.targets_of]. rewrite Ha1, Ht1, Ha2, Ht2.
  cbn [analysis_entry py_get dict_get_default dict_get
       String.eqb Ascii.eqb Bool.eqb].
  destruct (is_str kind (action_of d1)), (is_str kind (action_of d2));
    destruct kind; reflexivity.
Qed.

Lemma set_of_one_string s : Routes.py_set_list [JStr s] = Ok [JStr s].
Proof. reflexivity. Qed.

Lemma submit_two_steps_run env td decision strategy d1 d2 agent_id tool w :
  truthy (dict_get_default "description" (JStr "") td) = true ->
  llm_ready w = true ->
  registry_well_formed w ->
  (forall prompt,
      parses_into env
        (joined (llm_stream env (List.length (sent w)) prompt))
        (JObj decision)) ->
  dict_get "execution_strategy" decision = Some strategy ->
  dict_get_default "execution_plan" (JArr []) decision
  = JArr [JObj d1; JObj d2] ->
  action_of d1 = JStr "agent_call" ->
  target_of d1 = JStr agent_id ->
  action_of d2 = JStr "tool_use" ->
  target_of d2 = JStr tool ->
  let o := Routes.submit_task_stream env (JObj td) w in
  outcome o = Ok tt
  /\ exists system_context,
       map Routes.signature (events o)
       = two_step_events
           (List.length
              (llm_stream env (List.length (sent w))
                 (stream_prompt system_context
                    (dict_get_default "description" (JStr "") td))))
           (step_number_of d1) (step_number_of d2).
Proof.
  intros Hdesc Hllm Hwf Hreply Hstrategy Hplan Hact1 Htgt1 Hact2 Htgt2.
  cut (exists evs w' system_context,
          Routes.submit_task_stream env (JObj td) w = (evs, Ok tt, w')
          /\ map Routes.signature evs
             = two_step_events
                 (List.length
                    (llm_stream env (List.length (sent w))
                       (stream_prompt system_context
                          (dict_get_default "description" (JStr "") td))))
                 (step_number_of d1) (step_number_of d2)).
  { intros (evs & w' & system_context & Hrun & Hsig). cbv zeta.
    rewrite Hrun. split; [ reflexivity | ].
    exists system_context. exact Hsig. }
  unfold Routes.submit_task_stream, Routes.task_stream.
  unfold py_get at 1.
  unfold bind at 1. unfold gets at 1.
  unfold bind at 1. unfold modify at 1.
  unfold bind at 1. unfold lift at 1.
  rewrite Hdesc. cbn [negb].
  unfold bind at 1. unfold now at 1.
  unfold bind at 1. unfold modify at 1.
  unfold try_except.
  unfold bind at 1. unfold yield at 1.
  unfold bind at 1.
  lazymatch goal with
  | |- context [process_task_with_llm_stream env ?task_id (JObj td) ?w1] =>
      assert (Htask1 : exists t,
                 dict_get task_id (active_tasks w1) = Some (JObj t)
                 /\ dict_get "steps" t = Some (JArr [])
                 /\ exists created, dict_get "created_at" t
                                    = Some (JInt created))
        by (eexists; split; [ apply dict_get_set_same | ];
            split; [ reflexivity | eexists; reflexivity ]);
      destruct Htask1 as (t1 & Ht1 & Hsteps1 & created & Hcreated);
      assert (Hwf1 : registry_well_formed w1)
        by (eapply well_formed_same; [ | exact Hwf ]; reflexivity);
      destruct (process_two_steps_run env task_id td decision strategy d1 d2
                  agent_id w1 t1 Ht1 Hsteps1 Hllm Hwf1 Hreply Hstrategy Hplan
                  Hact1 Htgt1 Hact2)
        as (evs & w2 & chunks & stamp & e1 & e2 & completed_at & Hrun & Hsig
            & (system_context & Hchunks) & Hlog & He1 & He2 & Hdone & Hkeep);
      assert (Hcreated2 : task_has task_id w2 "created_at" (JInt created))
        by (apply Hkeep; try discriminate; exists t1; split; assumption)
  end.
  rewrite Hrun.
  destruct Hlog as (t2 & Ht2 & Hsteps2).
  destruct Hdone as (t2' & Ht2' & Hdone).
  rewrite Ht2 in Ht2'. injection Ht2' as <-.
  destruct Hcreated2 as (t2' & Ht2' & Hcreated2).
  rewrite Ht2 in Ht2'. injection Ht2' as <-.
  destruct (count_successful_log (JObj decision) stamp d1 d2 e1 e2 He1 He2)
    as (n & Hcount).
  unfold bind at 1. rewrite (get_task_run _ _ _ Ht2).
  run. unfold py_get, dict_get_default, py_len, py_iter, Routes.as_time.
  repeat (first
            [ rewrite Hsteps2
            | rewrite Hcount
            | rewrite Hcreated2
            | rewrite Hdone
            | rewrite (targets_of_log _ (JObj decision) stamp d1 d2 e1 e2
                         He1 He2);
              rewrite Hact1, Hact2, Htgt1, Htgt2;
              cbn [is_str String.eqb Ascii.eqb Bool.eqb app]
            | rewrite set_of_one_string ];
          cbv beta iota).
  eexists. eexists. exists system_context.
  split; [ reflexivity | ].
  cbn [map app]. rewrite !map_app, Hsig. subst chunks.
  unfold two_step_events. cbn [app map].
  rewrite <- app_assoc. reflexivity.
Qed.

(** C3.  A streaming submission with a description, a ready LLM client
    and a registry of well-formed entries, whose streamed reply parses
    into a plan object ([json.loads] decodes the whole reply, or
    rejects it and decodes the stretch from its first opening brace to
    its last closing one) with a strategy and two steps, an
    [agent_call] and a [tool_use] with string targets, emits exactly:
    task_started, llm_analysis_started, one llm_analysis_progress per
    chunk of the reply, llm_analysis_completed, llm_decision_made,
    execution_started, step_started of step 1, agent_call_started,
    agent_call_completed, step_started of step 2, mcp_tool_used,
    step_completed of step 2, execution_completed, task_completed; and
    the stream ends without an error. *)
Theorem C3_events_of_a_two_step_plan (env : environment)
  (td decision : dict) (strategy : json) (d1 d2 : dict)
  (agent_id tool : string) (w : world) :
  truthy (dict_get_default "description" (JStr "") td) = true ->
  llm_ready w = true ->
  registry_well_formed w ->
  (forall prompt,
      parses_into env
        (joined (llm_stream env (List.length (sent w)) prompt))
        (JObj decision)) ->
  dict_get "execution_strategy" decision = Some strategy ->
  dict_get_default "execution_plan" (JArr []) decision
  = JArr [JObj d1; JObj d2] ->
  action_of d1 = JStr "agent_call" ->
  target_of d1 = JStr agent_id ->
  action_of d2 = JStr "tool_use" ->
  target_of d2 = JStr tool ->
  let o := Routes.submit_task_stream env (JObj td) w in
  outcome o = Ok tt
  /\ exists system_context,
       map Routes.signature (events o)
       = two_step_events
           (List.length
              (llm_stream env (List.length (sent w))
                 (stream_prompt system_context
                    (dict_get_default "description" (JStr "") td))))
           (step_number_of d1) (step_number_of d2).
Proof.
  exact (submit_two_steps_run env td decision strategy d1 d2 agent_id tool w).
Qed.

Lemma researcher_well_formed :
  registry_well_formed Scenarios.world_with_researcher.
Proof.
  intros agent_id info Hget _. cbn in Hget.
  destruct (agent_id =? "researcher")%string; [ | discriminate Hget ].
  injection Hget as <-. eexists. eexists. split; reflexivity.
Qed.

(** The submission of scenario 1: the reply comes in two chunks. *)
Lemma C3_witness :
  let o := Routes.submit_task_stream Scenarios.env_planner
             (JObj Scenarios.request) Scenarios.world_with_researcher in
  outcome o = Ok tt
  /\ exists system_context,
       map Routes.signature (events o)
       = two_step_events
           (List.length
              (llm_stream Scenarios.env_planner
                 (List.length (sent Scenarios.world_with_researcher))
                 (stream_prompt system_context
                    (dict_get_default "description" (JStr "")
                       Scenarios.request))))
           (step_number_of Scenarios.step_gather)
           (step_number_of Scenarios.step_read_file).
Proof.
  exact (C3_events_of_a_two_step_plan Scenarios.env_planner
           Scenarios.request Scenarios.two_step_plan (JStr "hybrid")
           Scenarios.step_gather Scenarios.step_read_file
           "researcher" "fs:read_file" Scenarios.world_with_researcher
           eq_refl eq_refl researcher_well_formed
           (fun _ => or_introl eq_refl)
           eq_refl eq_refl eq_refl eq_refl eq_refl eq_refl).
Defined.

(** The events of that submission, by running it. *)
Example two_step_submission_events :
  map Routes.signature
    (events (Routes.submit_task_stream Scenarios.env_planner
               (JObj Scenarios.request) Scenarios.world_with_researcher))
  = two_step_events 2 (JInt 1) (JInt 2).
Proof. vm_compute. reflexivity. Qed.

(** The plan wrapped in prose: [json.loads] rejects the reply, the
    stretch between the braces is decoded, and the events are the
    same. *)
Example wordy_reply_is_recovered :
  parses_into Scenarios.env_wordy_planner
    "Here is the plan: {PLAN} Good luck." (JObj Scenarios.two_step_plan)
  /\ json_loads Scenarios.env_wordy_planner
       "Here is the plan: {PLAN} Good luck." = None
  /\ map Routes.signature
       (events (Routes.submit_task_stream Scenarios.env_wordy_planner
                  (JObj Scenarios.request) Scenarios.world_with_researcher))
     = two_step_events 2 (JInt 1) (JInt 2).
Proof.
  split; [ | split ].
  - right. split; [ reflexivity | ].
    exists "{PLAN}", " Good luck.". split; reflexivity.
  - reflexivity.
  - vm_compute. reflexivity.
Qed.

End StreamFacts.

(* ================================================================== *)
(** ** Discovery: traffic, identifiers and the shape of the registry *)
(* ================================================================== *)

Module RegistryFacts.
Import Frames Observations.
Import Py Sys Prim Discovery PyFacts MonadFacts Statements Scenarios
  DiscoveryFacts.





(** *** The shape of the registry *)

Lemma keeps_well_formed_refl w : keeps_well_formed w w.
Proof. intros H. exact H. Qed.

Lemma keeps_well_formed_trans a b c :
  keeps_well_formed a b -> keeps_well_formed b c -> keeps_well_formed a c.
Proof. unfold keeps_well_formed. auto. Qed.

Lemma well_formed_set (agent_id : string) (entry : dict) (endpoint : json)
  (w w' : world) :
  dict_get "endpoint" entry = Some endpoint ->
  discovered_agents w' = dict_set agent_id (JObj entry) (discovered_agents w) ->
  keeps_well_formed w w'.
Proof.
  intros Hend Hreg Hwf id info Hget Htruthy. rewrite Hreg in Hget.
  destruct (String.eqb id agent_id) eqn:E.
  - apply String.eqb_eq in E. subst id.
    rewrite dict_get_set_same in Hget. injection Hget as <-.
    exists entry, endpoint. split; [ reflexivity | exact Hend ].
  - rewrite dict_get_set_other in Hget
      by (intros ->; now rewrite String.eqb_refl in E).
    exact (Hwf id info Hget Htruthy).
Qed.

Lemma well_formed_unchanged w w' :
  discovered_agents w' = discovered_agents w -> keeps_well_formed w w'.
Proof. intros E H id info. rewrite E. apply H. Qed.

Lemma discover_single_well_formed env endpoint :
  preserves keeps_well_formed (_discover_single_agent env endpoint).
Proof.
  intros w.
  pose proof (discover_single_agent_run env endpoint w) as H. cbv zeta in H.
  destruct (accepted "name" _) as [[id card] |];
    [ destruct H as (_ & Hreg & _);
      eapply (well_formed_set id _ (JStr endpoint));
      [ | exact Hreg ]; reflexivity | ].
  destruct (accepted "name" _) as [[id card] |];
    [ destruct H as (_ & Hreg & _);
      eapply (well_formed_set id _ (JStr endpoint));
      [ | exact Hreg ]; reflexivity | ].
  destruct (accepted "agent_name" _) as [[id caps] |];
    [ destruct H as (_ & Hreg & _);
      eapply (well_formed_set id _ (JStr endpoint));
      [ | exact Hreg ]; reflexivity | ].
  destruct (accepted "agent" _) as [[id health] |];
    [ destruct H as (_ & Hreg & _);
      eapply (well_formed_set id _ (JStr endpoint));
      [ | exact Hreg ]; reflexivity | ].
  destruct H as (_ & Hreg & _). now apply well_formed_unchanged.
Qed.

Lemma discover_each_well_formed env endpoints :
  preserves keeps_well_formed (discover_each env endpoints).
Proof.
  induction endpoints as [| endpoint rest IH]; simpl.
  - apply preserves_ret. exact keeps_well_formed_refl.
  - apply preserves_bind; [ exact keeps_well_formed_trans | | intros; exact IH ].
    apply preserves_try; [ exact keeps_well_formed_trans | | ].
    + apply discover_single_well_formed.
    + intros. apply preserves_ret. exact keeps_well_formed_refl.
Qed.

Lemma discover_agents_well_formed env endpoints :
  preserves keeps_well_formed (discover_agents env endpoints).
Proof.
  unfold discover_agents.
  apply preserves_bind; [ exact keeps_well_formed_trans | | ].
  - apply discover_each_well_formed.
  - intros. apply preserves_gets. exact keeps_well_formed_refl.
Qed.

Lemma fresh_is_well_formed : registry_well_formed fresh.
Proof. intros id info H. discriminate H. Qed.

(** Every entry a probe writes is a dict with an endpoint: a registry
    in which every truthy entry has one keeps that shape through a
    discovery round and through any number of refresh cycles, and the
    registry of a freshly started coordinator has it. *)
Theorem discovery_keeps_entries_well_formed (env : environment)
  (endpoints : list string) (cycles : nat) (w : world) :
  registry_well_formed w ->
  registry_well_formed (final (discover_agents env endpoints w))
  /\ registry_well_formed
       (final (_periodic_discovery_refresh env cycles endpoints w)).
Proof.
  intros Hwf. split.
  - now apply (discover_agents_well_formed env endpoints w).
  - revert w Hwf. induction cycles as [| n IH]; intros w Hwf; [ exact Hwf | ].
    cbn [_periodic_discovery_refresh].
    assert (H : preserves keeps_well_formed
                  (try_except (discover_agents env endpoints ;;; ret tt)
                     (fun _ => ret tt))).
    { apply preserves_try; [ exact keeps_well_formed_trans | | ].
      - apply preserves_bind; [ exact keeps_well_formed_trans | | ].
        + apply discover_agents_well_formed.
        + intros. apply preserves_ret. exact keeps_well_formed_refl.
      - intros. apply preserves_ret. exact keeps_well_formed_refl. }
    specialize (H w Hwf). unfold bind.
    destruct (try_except _ _ w) as [[ev r] w1]. rewrite final_of in H.
    destruct r as [[] | e]; [ | exact H ].
    specialize (IH w1 H).
    destruct (_periodic_discovery_refresh env n endpoints w1) as [[ev1 r1] w2].
    exact IH.
Qed.

Lemma discovery_keeps_entries_well_formed_witness :
  registry_well_formed
    (final (discover_agents env_e1_only ["http://e1:1"; "http://e2:1"] fresh))
  /\ registry_well_formed
       (final (_periodic_discovery_refresh env_e1_only 2
                 ["http://e1:1"; "http://e2:1"] fresh)).
Proof.
  exact (discovery_keeps_entries_well_formed env_e1_only
           ["http://e1:1"; "http://e2:1"] 2 fresh fresh_is_well_formed).
Defined.

(** *** Agent identifiers *)





Example ui_designer_agent_id :
  agent_id_of (JStr "UI Designer Agent") = Ok "ui_designer_agent".
Proof. reflexivity. Qed.

End RegistryFacts.

(* ================================================================== *)
(** ** The MCP protocol client *)
(* ================================================================== *)

Module ClientFacts.
Import Frames Observations.
Import Py Sys Prim McpClient PyFacts MonadFacts Statements Scenarios.

Ltac cases :=
  repeat match goal with
    | |- context [match ?x with Ok _ => _ | Raise _ => _ end] => destruct x
    | |- context [if ?b then _ else _] => destruct b
    | |- context [match ?x with JArr _ => _ | _ => _ end] => destruct x
    end.

(** A request to a server that is running: the message, the counter,
    and nothing else changed. *)
Lemma request_run env server_name method params w :
  active server_name w = true ->
  exists r,
    send_jsonrpc_request env server_name method params w
    = ([], r,
       set_sent
         (sent w ++
          [McpWrite server_name
             (jsonrpc_request (mcp_request_id w + 1) method
                (params_or_empty params))])%list
         (set_mcp_request_id (mcp_request_id w + 1) w)).
Proof.
  unfold active. intros Hactive.
  unfold send_jsonrpc_request, is_active, _get_next_request_id. run.
  rewrite Hactive. cbn [negb mcp_active set_mcp_request_id mcp_request_id sent].
  match goal with
  | |- context [mcp_readline env ?n ?s] => destruct (mcp_readline env n s)
  end; cases; eexists; reflexivity.
Qed.

Lemma request_refused env server_name method params w :
  active server_name w = false ->
  send_jsonrpc_request env server_name method params w
  = ([], Raise (not_started server_name), w).
Proof.
  unfold active. intros Hactive.
  unfold send_jsonrpc_request, is_active. run. now rewrite Hactive.
Qed.

(** Requests are numbered 1, 2, 3, ...: a request to a running server
    writes one message whose id is the counter plus one and leaves the
    counter there, whatever the server answers; two requests in a row
    carry consecutive ids; a request to a server that is not running
    raises, writes nothing and uses no id. *)
Theorem request_ids_count_up (env : environment) (server_name : string)
  (method method' : string) (params params' : json) (w : world) :
  (active server_name w = true ->
   let o := send_jsonrpc_request env server_name method params w in
   let o' := send_jsonrpc_request env server_name method' params' (final o) in
   sent (final o')
   = (sent w ++
      [McpWrite server_name
         (jsonrpc_request (mcp_request_id w + 1) method
            (params_or_empty params));
       McpWrite server_name
         (jsonrpc_request (mcp_request_id w + 2) method'
            (params_or_empty params'))])%list
   /\ mcp_request_id (final o) = (mcp_request_id w + 1)%Z
   /\ mcp_request_id (final o') = (mcp_request_id w + 2)%Z)
  /\ (active server_name w = false ->
      send_jsonrpc_request env server_name method params w
      = ([], Raise (not_started server_name), w)).
Proof.
  split; [ | apply request_refused ].
  intros Hactive. cbv zeta.
  destruct (request_run env server_name method params w Hactive) as (r & ->).
  rewrite final_of.
  match goal with
  | |- context [send_jsonrpc_request env server_name method' params' ?w1] =>
      destruct (request_run env server_name method' params' w1 Hactive)
        as (r' & ->)
  end.
  rewrite final_of.
  cbn [sent set_sent set_mcp_request_id mcp_request_id].
  rewrite <- app_assoc.
  replace (mcp_request_id w + 1 + 1)%Z with (mcp_request_id w + 2)%Z by lia.
  repeat split.
Qed.

Lemma request_ids_count_up_witness :
  mcp_request_id
    (final (send_jsonrpc_request silent "fs" "tools/list" JNull world_with_fs))
  = 1%Z.
Proof.
  exact (proj1 (proj2 (proj1 (request_ids_count_up silent "fs" "tools/list"
                                "tools/list" JNull JNull world_with_fs)
                         eq_refl))).
Defined.

(** *** Calling a tool *)

(** What [call_tool] gives back: the [result] field of the server's
    reply ([{}] when it has none); a reply with an [error] object is
    raised as a [ValueError] carrying its message, and so is an empty
    line; to a server that is not running nothing is written. *)
Theorem call_tool_returns_the_reply (env : environment)
  (server_name tool_name : string) (arguments : json) (w : world) :
  let o := call_tool env server_name tool_name arguments w in
  let line := mcp_readline env (List.length (sent w)) server_name in
  (active server_name w = false ->
   o = ([], Raise (not_started server_name), w))
  /\ (active server_name w = true ->
      (forall reply,
          line = LineJson (JObj reply) ->
          dict_mem "error" reply = false ->
          outcome o = Ok (dict_get_default "result" (JObj []) reply))
      /\ (forall reply error,
             line = LineJson (JObj reply) ->
             dict_get "error" reply = Some (JObj error) ->
             outcome o
             = Raise (mk_exn ValueError
                        ("MCP错误: "
                         ++ py_str (dict_get_default "message"
                                      (JStr "Unknown error") error))))
      /\ (line = LineEmpty ->
          outcome o = Raise (mk_exn ValueError "收到空响应"))).
Proof.
  cbv zeta. unfold active. split.
  - intros Hactive. unfold call_tool, is_active. run. now rewrite Hactive.
  - intros Hactive.
    unfold call_tool, send_jsonrpc_request, is_active, _get_next_request_id.
    run. rewrite Hactive.
    cbn [negb mcp_active set_mcp_request_id mcp_request_id sent].
    rewrite Hactive. cbn [negb].
    split; [ | split ].
    + intros reply -> Hno. unfold py_get, py_in. rewrite Hno. reflexivity.
    + intros reply error -> Herr. unfold py_get, py_in, py_index, dict_mem.
      rewrite Herr. reflexivity.
    + intros ->. reflexivity.
Qed.

Lemma call_tool_returns_the_reply_witness :
  outcome (call_tool silent "fs" "read_file" (JObj []) world_with_fs)
  = Raise (mk_exn ValueError "收到空响应").
Proof.
  exact (proj2 (proj2 (proj2 (call_tool_returns_the_reply silent "fs"
                                "read_file" (JObj []) world_with_fs)
                         eq_refl)) eq_refl).
Defined.

(** *** Tool discovery *)

Lemma notification_run server_name method params w :
  active server_name w = true ->
  send_jsonrpc_notification server_name method params w
  = ([], Ok tt,
     set_sent
       (sent w ++
        [McpWrite server_name
           (jsonrpc_notification method (params_or_empty params))])%list w).
Proof.
  unfold active. intros Hactive.
  unfold send_jsonrpc_notification, is_active. run. now rewrite Hactive.
Qed.

(** A request returns exactly when its reply line is a JSON object
    without an [error] member. *)
Lemma request_answered env server_name method params w :
  active server_name w = true ->
  match outcome (send_jsonrpc_request env server_name method params w) with
  | Ok _ => true
  | Raise _ => false
  end
  = answered_well (mcp_readline env (List.length (sent w)) server_name).
Proof.
  unfold active. intros Hactive.
  unfold send_jsonrpc_request, is_active, _get_next_request_id. run.
  rewrite Hactive. cbn [negb mcp_active set_mcp_request_id mcp_request_id sent].
  destruct (mcp_readline env (List.length (sent w)) server_name)
    as [ | | response ]; try reflexivity.
  destruct response; try reflexivity.
  unfold py_get, py_in, py_index, answered_well.
  destruct (dict_mem "error" fields) eqn:Hmem; cbn [negb].
  - unfold dict_mem in Hmem.
    destruct (dict_get "error" fields) as [error |]; [ | discriminate Hmem ].
    destruct error; reflexivity.
  - reflexivity.
Qed.

Lemma initialize_run env server_name w :
  active server_name w = true ->
  exists w',
    _initialize_server env server_name w = ([], Ok tt, w')
    /\ sent w'
       = (sent w ++
          McpWrite server_name
            (jsonrpc_request (mcp_request_id w + 1) "initialize" init_params)
          :: (if answered_well
                   (mcp_readline env (List.length (sent w)) server_name)
              then [McpWrite server_name
                      (jsonrpc_notification "notifications/initialized"
                         (JObj []))]
              else []))%list
    /\ mcp_request_id w' = (mcp_request_id w + 1)%Z
    /\ mcp_active w' = mcp_active w
    /\ mcp_server_tools w' = mcp_server_tools w.
Proof.
  intros Hactive. unfold _initialize_server, try_except. unfold bind at 1.
  rewrite <- (request_answered env server_name "initialize" init_params w
                Hactive).
  destruct (request_run env server_name "initialize" init_params w Hactive)
    as (r & ->).
  rewrite outcome_of.
  destruct r as [res | e].
  - rewrite notification_run by exact Hactive.
    eexists. split; [ reflexivity | ].
    cbn [sent set_sent set_mcp_request_id mcp_request_id mcp_active
         mcp_server_tools].
    rewrite <- app_assoc. repeat split.
  - eexists. split; [ reflexivity | ].
    cbn [sent set_sent set_mcp_request_id mcp_request_id mcp_active
         mcp_server_tools].
    repeat split.
Qed.

(** Tool discovery never raises.  On a server that is running it writes
    the [initialize] request, then the [initialized] notification
    exactly when that request was answered without error (its reply
    line is a JSON object with no [error] member), then the
    [tools/list] request: a failed handshake does not stop the
    listing.  The two requests use the next two ids.  For a server
    that is not running and whose configuration has no command it gives
    the empty list and does nothing. *)
Theorem tool_discovery_handshake (env : environment) (server_name : string)
  (server_config : json) (w : world) :
  let o := discover_tools env server_name server_config w in
  let notified :=
    answered_well (mcp_readline env (List.length (sent w)) server_name) in
  (exists tools, outcome o = Ok tools)
  /\ (active server_name w = true ->
      sent (final o)
      = (sent w ++
         [McpWrite server_name
            (jsonrpc_request (mcp_request_id w + 1) "initialize"
               init_params)]
         ++ (if notified
             then [McpWrite server_name
                     (jsonrpc_notification "notifications/initialized"
                        (JObj []))]
             else [])
         ++ [McpWrite server_name
               (jsonrpc_request (mcp_request_id w + 2) "tools/list"
                  (JObj []))])%list
      /\ mcp_request_id (final o) = (mcp_request_id w + 2)%Z)
  /\ (active server_name w = false ->
      (forall d, server_config = JObj d ->
                 truthy (dict_get_default "command" JNull d) = false ->
                 o = ([], Ok (JArr []), w))).
Proof.
  cbv zeta. split; [ | split ].
  - unfold discover_tools. unfold try_except.
    match goal with
    | |- context [let '(p, w') := ?m w in _] => destruct (m w) as [[ev r] w1]
    end.
    destruct r; eexists; reflexivity.
  - intros Hactive.
    destruct (initialize_run env server_name w Hactive)
      as (w1 & Hinit & Hsent1 & Hid1 & Hact1 & _).
    assert (Hactive1 : active server_name w1 = true)
      by (unfold active in *; now rewrite Hact1).
    destruct (request_run env server_name "tools/list" JNull w1 Hactive1)
      as (r & Hlist).
    cut (exists r w',
            discover_tools env server_name server_config w = ([], r, w')
            /\ sent w'
               = (sent w1 ++
                  [McpWrite server_name
                     (jsonrpc_request (mcp_request_id w1 + 1) "tools/list"
                        (JObj []))])%list
            /\ mcp_request_id w' = (mcp_request_id w1 + 1)%Z).
    { intros (r' & w' & -> & Hsent & Hid). rewrite final_of, Hsent, Hid.
      rewrite Hsent1, Hid1, <- !app_assoc.
      replace (mcp_request_id w + 1 + 1)%Z with (mcp_request_id w + 2)%Z
        by lia.
      split; [ reflexivity | lia ]. }
    unfold discover_tools, try_except. unfold bind at 1.
    unfold is_active at 1. unfold gets at 1.
    unfold active in Hactive. rewrite Hactive.
    unfold bind at 1. unfold ret at 1. cbn [negb].
    unfold bind at 1. rewrite Hinit.
    unfold bind at 1. rewrite Hlist.
    destruct r as [tools_result | e].
    + unfold log_first_tools, py_get. run. cases;
        (eexists; eexists; split; [ reflexivity | split; reflexivity ]).
    + eexists. eexists. split; [ reflexivity | split; reflexivity ].
  - intros Hactive d -> Hcommand.
    unfold discover_tools, start_mcp_server, is_active, py_get. run.
    unfold active in Hactive. rewrite Hactive, Hcommand. reflexivity.
Qed.

(** A server that answers nothing: the handshake fails, no
    notification is written, and the listing is still asked for. *)
Lemma tool_discovery_handshake_witness :
  sent (final (discover_tools silent "fs" (JObj []) world_with_fs))
  = [McpWrite "fs" (jsonrpc_request 1 "initialize" init_params);
     McpWrite "fs" (jsonrpc_request 2 "tools/list" (JObj []))]
  /\ mcp_request_id (final (discover_tools silent "fs" (JObj [])
                              world_with_fs)) = 2%Z.
Proof.
  exact (proj1 (proj2 (tool_discovery_handshake silent "fs" (JObj [])
                         world_with_fs)) eq_refl).
Defined.

End ClientFacts.

(* ================================================================== *)
(** ** The decision parser *)
(* ================================================================== *)

Module DecisionFacts.
Import Frames Observations.
Import Py Sys Re JsonParser PyFacts Statements Scenarios ParserFacts.

Lemma valid_approach_cases (x : json) :
  list_mem x valid_approaches = true ->
  x = JStr "agent_coordination" \/ x = JStr "direct_response"
  \/ x = JStr "mcp_tools".
Proof.
  unfold list_mem, valid_approaches. cbn [existsb py_eqb].
  destruct x as [| | | | s | |]; try discriminate.
  intros H. apply orb_prop in H as [H | H];
    [ left | apply orb_prop in H as [H | H];
             [ right; left
             | right; right; apply orb_prop in H as [H | H];
               [ | discriminate H ] ] ];
    apply String.eqb_eq in H; now subst s.
Qed.

Lemma normal_is_fixed (d : dict) :
  normal_decision d -> validate_decision_structure (JObj d) = (true, JObj d).
Proof.
  intros [Hvalid Hreason]. unfold validate_decision_structure.
  assert (Happroach : dict_mem "approach" d = true
                      /\ truthy (dict_get_default "approach" JNull d) = true).
  { pose proof (valid_approach_cases _ Hvalid) as Hc.
    unfold dict_mem, dict_get_default in *.
    destruct (dict_get "approach" d) as [v |];
      [ | destruct Hc as [Hc | [Hc | Hc]]; discriminate Hc ].
    split; [ reflexivity | ].
    destruct Hc as [-> | [-> | ->]]; reflexivity. }
  destruct Happroach as [Hmem Htruthy].
  rewrite Htruthy, andb_false_r. cbv zeta.
  rewrite Hmem, Hreason. fold valid_approaches. now rewrite Hvalid.
Qed.

Lemma validate_gives_normal (d : dict) :
  exists d', validate_decision_structure (JObj d) = (true, JObj d')
             /\ normal_decision d'.
Proof.
  unfold validate_decision_structure.
  destruct (dict_mem "response" d
            && negb (truthy (dict_get_default "approach" JNull d))).
  { eexists. split; [ reflexivity | ]. split; reflexivity. }
  cbv zeta.
  pose (d1 := if dict_mem "approach" d then d
              else if dict_mem "steps" d
                      || any_key ["agents"; "tasks"; "workflow"] d
                   then dict_set "approach" (JStr "agent_coordination") d
                   else if any_key ["tools"; "mcp"; "figma"] d
                        then dict_set "approach" (JStr "mcp_tools") d
                        else dict_set "approach" (JStr "direct_response") d).
  pose (d2 := if dict_mem "reasoning" d1 then d1
              else dict_set "reasoning"
                     (JStr "Decision made based on user request") d1).
  assert (H2 : dict_mem "reasoning" d2 = true).
  { subst d2. destruct (dict_mem "reasoning" d1) eqn:E; [ exact E | ].
    apply dict_mem_set_same. }
  change (exists d',
             (true,
              JObj (if list_mem (dict_get_default "approach" JNull d2)
                         valid_approaches
                    then d2
                    else dict_set "reasoning"
                           (JStr "Invalid approach specified, defaulting to direct_response")
                           (dict_set "approach" (JStr "direct_response") d2)))
             = (true, JObj d')
             /\ normal_decision d').
  destruct (list_mem (dict_get_default "approach" JNull d2) valid_approaches)
    eqn:Hvalid.
  - exists d2. split; [ reflexivity | ]. split; assumption.
  - eexists. split; [ reflexivity | ]. split.
    + unfold dict_get_default.
      rewrite dict_get_set_other by discriminate.
      rewrite dict_get_set_same. reflexivity.
    + apply dict_mem_set_same.
Qed.

(** The validator rejects what is no dict; a dict it turns into a
    decision with one of the three valid approaches and a reasoning;
    and on such a decision it changes nothing, so validating twice is
    validating once. *)
Theorem validated_decisions_are_normal (data : json) :
  match data with
  | JObj d =>
      exists d',
        validate_decision_structure data = (true, JObj d')
        /\ normal_decision d'
        /\ validate_decision_structure (JObj d') = (true, JObj d')
  | _ => validate_decision_structure data = (false, not_a_dictionary)
  end.
Proof.
  destruct data as [| | | | | | d]; try reflexivity.
  destruct (validate_gives_normal d) as (d' & Hrun & Hnormal).
  exists d'. split; [ exact Hrun | ]. split; [ exact Hnormal | ].
  now apply normal_is_fixed.
Qed.

(** *** Replies that are no decision *)

Lemma lstrip_blank (s : string) :
  all_chars is_space s = true -> lstrip s = "".
Proof.
  induction s as [| c s IH]; [ reflexivity | ].
  cbn [all_chars lstrip]. intros H. apply andb_prop in H as [Hc Hs].
  rewrite Hc. auto.
Qed.

Lemma strip_blank (s : string) :
  all_chars is_space s = true -> strip s = "".
Proof. intros H. unfold strip. now rewrite (lstrip_blank s H). Qed.

(** A reply that is empty or made only of ASCII white space (TAB, LF,
    VT, FF, CR, FS, GS, RS, US, SPACE) is answered with the error
    record [Empty response], before [json.loads] is asked; the decision
    parser hands that record on as it is, so what it returns here has
    no approach. *)
Theorem blank_reply_is_no_decision (env : environment) (s : string) :
  all_chars is_space s = true ->
  parse_llm_response env s = (false, empty_response)
  /\ parse_decision_response env s = empty_response
  /\ ~ (exists d, parse_decision_response env s = JObj d
                  /\ normal_decision d).
Proof.
  intros Hblank.
  assert (Hrun : parse_llm_response env s = (false, empty_response)).
  { unfold parse_llm_response. rewrite (strip_blank s Hblank).
    cbn [String.eqb]. now rewrite orb_true_r. }
  assert (Hdec : parse_decision_response env s = empty_response)
    by (unfold parse_decision_response; now rewrite Hrun).
  split; [ exact Hrun | ]. split; [ exact Hdec | ].
  intros (d & Heq & Hvalid & _). rewrite Hdec in Heq.
  injection Heq as <-. discriminate Hvalid.
Qed.

Lemma blank_reply_is_no_decision_witness :
  parse_decision_response silent ("  " ++ nl) = empty_response.
Proof.
  exact (proj1 (proj2 (blank_reply_is_no_decision silent ("  " ++ nl)
                         eq_refl))).
Defined.

(** A reply that is valid JSON but no object (a list, a number, a
    string) is not used: the decision is a direct response that carries
    the reply as it came, white space included, and the validator's
    error. *)
Theorem non_object_reply_becomes_direct_response (env : environment)
  (s : string) (v : json) :
  strip s <> "" ->
  json_loads env (strip s) = Some v ->
  (forall d, v <> JObj d) ->
  parse_decision_response env s
  = JObj [("approach", JStr "direct_response");
          ("reasoning", JStr "Response structure validation failed");
          ("response", JStr s);
          ("validation_error", JStr "Data is not a dictionary")].
Proof.
  intros Hne Hload Hdict.
  unfold parse_decision_response, parse_llm_response.
  destruct (s =? "") eqn:E1;
    [ apply String.eqb_eq in E1; subst s; now elim Hne | ].
  destruct (strip s =? "") eqn:E2;
    [ apply String.eqb_eq in E2; now elim Hne | ].
  cbn [orb]. cbv zeta. rewrite Hload.
  destruct v as [| | | | | | d]; try reflexivity. now elim (Hdict d).
Qed.

Lemma non_object_reply_becomes_direct_response_witness :
  parse_decision_response
    (with_json_loads (fun s => if s =? "[1]" then Some (JArr [JInt 1])
                               else None) silent)
    (" [1]" ++ nl)
  = JObj [("approach", JStr "direct_response");
          ("reasoning", JStr "Response structure validation failed");
          ("response", JStr (" [1]" ++ nl));
          ("validation_error", JStr "Data is not a dictionary")].
Proof.
  refine (non_object_reply_becomes_direct_response
            (with_json_loads (fun s => if s =? "[1]" then Some (JArr [JInt 1])
                                       else None) silent)
            (" [1]" ++ nl) (JArr [JInt 1]) _ eq_refl _).
  - discriminate.
  - intros d. discriminate.
Defined.

End DecisionFacts.

(* ================================================================== *)
(** ** The provider: the probe and the request body *)
(* ================================================================== *)

Module EnvoyFacts.
Import Frames Observations.
Import Py Sys Prim Provider PyFacts MonadFacts Statements Scenarios
  ProviderFacts.

Lemma chat_request_sends env self messages kwargs w :
  let w' := final (chat_request env self messages kwargs w) in
  sent w' = (sent w ++ [request_of self messages kwargs])%list
  /\ connection_verified w' = connection_verified w.
Proof.
  cbv zeta. unfold chat_request, request_of. run.
  cbn [sent set_ticks set_sent ticks].
  destruct (http_post env _ _ _) as [e | status text parsed].
  - unfold is_class. destruct (exn_cls e); split; reflexivity.
  - destruct (status =? 200)%Z.
    + destruct parsed as [ [] | ]; split; reflexivity.
    + destruct (status =? 401)%Z; [ split; reflexivity | ].
      destruct (status =? 429)%Z; [ split; reflexivity | ].
      destruct (500 <=? status)%Z; split; reflexivity.
Qed.

(** The connection is probed until a probe succeeds, and never again:
    a call on a verified connection sends the request alone; a call on
    an unverified one sends the probe first, and the request after it
    only when the probe was answered with status 200, which sets the
    flag for good; a probe answered otherwise leaves the flag unset, so
    the next call probes again. *)
Theorem connection_is_probed_until_verified (env : environment)
  (self : provider) (messages : json) (kwargs : dict) (w : world) :
  let w' := final (chat_completion env self messages kwargs w) in
  let probe := http_post env (List.length (sent w)) (chat_url self)
                 (test_payload self) in
  (connection_verified w = true ->
   sent w' = (sent w ++ [request_of self messages kwargs])%list
   /\ connection_verified w' = true)
  /\ (connection_verified w = false ->
      probe_message self probe = None ->
      sent w'
      = (sent w ++ [probe_of self; request_of self messages kwargs])%list
      /\ connection_verified w' = true)
  /\ (connection_verified w = false ->
      forall msg, probe_message self probe = Some msg ->
      sent w' = (sent w ++ [probe_of self])%list
      /\ connection_verified w' = false).
Proof.
  cbv zeta. split; [ | split ].
  - intros Hv. rewrite (chat_completion_verified env self messages kwargs w Hv).
    destruct (chat_request_sends env self messages kwargs w) as [Hs Hc].
    cbv zeta in Hs, Hc. rewrite Hs, Hc. split; [ reflexivity | exact Hv ].
  - intros Hv Hp.
    rewrite (chat_completion_probe_ok env self messages kwargs w Hv Hp).
    match goal with
    | |- context [chat_request env self messages kwargs ?w1] =>
        destruct (chat_request_sends env self messages kwargs w1) as [Hs Hc]
    end.
    cbv zeta in Hs, Hc. rewrite Hs, Hc.
    split; [ | reflexivity ].
    cbn [sent set_connection_verified logged set_sent].
    rewrite <- app_assoc. reflexivity.
  - intros Hv msg Hp.
    rewrite (chat_completion_probe_failed env self messages kwargs w msg Hv Hp).
    rewrite final_of. split; [ reflexivity | exact Hv ].
Qed.

Lemma connection_is_probed_until_verified_witness :
  sent (final (chat_completion env_unauthorized siliconflow hello []
                 verified_world))
  = (sent verified_world ++ [request_of siliconflow hello []])%list
  /\ connection_verified
       (final (chat_completion env_unauthorized siliconflow hello []
                 verified_world)) = true.
Proof.
  exact (proj1 (connection_is_probed_until_verified env_unauthorized
                  siliconflow hello [] verified_world) eq_refl).
Defined.

(** *** The request body *)

Lemma merge_keeps_skipped (skip : list string) (k : string) (kwargs : dict) :
  existsb (String.eqb k) skip = true ->
  forall payload,
    dict_get k (merge_kwargs skip kwargs payload) = dict_get k payload.
Proof.
  intros Hskip. unfold merge_kwargs.
  induction kwargs as [| [k' v'] kwargs IH]; intros payload; [ reflexivity | ].
  cbn [fold_left fst snd].
  destruct (existsb (String.eqb k') skip) eqn:E; [ apply IH | ].
  rewrite IH. apply dict_get_set_other.
  intros ->. rewrite Hskip in E. discriminate E.
Qed.

Lemma merge_keeps_absent (skip : list string) (k : string) (kwargs : dict) :
  dict_get k kwargs = None ->
  forall payload,
    dict_get k (merge_kwargs skip kwargs payload) = dict_get k payload.
Proof.
  unfold merge_kwargs.
  induction kwargs as [| [k' v'] kwargs IH]; intros Hnone payload;
    [ reflexivity | ].
  cbn [dict_get] in Hnone.
  destruct (String.eqb k k') eqn:Ek; [ discriminate Hnone | ].
  cbn [fold_left fst snd].
  destruct (existsb (String.eqb k') skip); [ now apply IH | ].
  rewrite (IH Hnone). apply dict_get_set_other.
  intros ->. now rewrite String.eqb_refl in Ek.
Qed.

Lemma absent_key (k : string) (d : dict) :
  ~ In k (map fst d) -> dict_get k d = None.
Proof.
  induction d as [| [k' v'] d IH]; intros Hnot; [ reflexivity | ].
  cbn [dict_get]. destruct (String.eqb k k') eqn:Ek.
  - apply String.eqb_eq in Ek. subst k'. destruct Hnot. now left.
  - apply IH. intros Hin. apply Hnot. now right.
Qed.

(** An option that is not skipped ends in the body, with the value the
    caller gave it. *)
Lemma merge_takes (skip : list string) (k : string) (v : json)
  (kwargs : dict) :
  NoDup (map fst kwargs) ->
  existsb (String.eqb k) skip = false ->
  dict_get k kwargs = Some v ->
  forall payload, dict_get k (merge_kwargs skip kwargs payload) = Some v.
Proof.
  induction kwargs as [| [k' v'] kwargs IH]; intros Hnodup Hskip Hget payload;
    [ discriminate Hget | ].
  cbn [map fst] in Hnodup. inversion Hnodup as [| ? ? Hnotin Hrest]; subst.
  cbn [dict_get] in Hget. unfold merge_kwargs. cbn [fold_left fst snd].
  destruct (String.eqb k k') eqn:Ek.
  - apply String.eqb_eq in Ek. subst k'. injection Hget as ->.
    rewrite Hskip.
    change (dict_get k (merge_kwargs skip kwargs (dict_set k v payload))
            = Some v).
    rewrite merge_keeps_absent by (now apply absent_key).
    apply dict_get_set_same.
  - change (dict_get k
              (merge_kwargs skip kwargs
                 (if existsb (String.eqb k') skip then payload
                  else dict_set k' v' payload)) = Some v).
    now apply IH.
Qed.

(** The body of the request, for the options of a call (a dict, so
    with distinct names, and none of them [messages], which is the
    call's own argument): the messages are the call's; [max_tokens] and
    [temperature] are the caller's when given and 4096 and 0.7
    otherwise; the model is the caller's when given and the provider's
    otherwise; and every option the caller gives is in the body with
    the caller's value. *)
Theorem request_body_defaults (self : provider) (messages : json)
  (kwargs : dict) :
  NoDup (map fst kwargs) ->
  dict_get "messages" kwargs = None ->
  let body := chat_payload self messages kwargs in
  field "messages" body = Some messages
  /\ field "max_tokens" body
     = Some (dict_get_default "max_tokens" (JInt 4096) kwargs)
  /\ field "temperature" body
     = Some (dict_get_default "temperature" (JFloat "0.7") kwargs)
  /\ field "model" body
     = Some (dict_get_default "model" (JStr (model self)) kwargs)
  /\ (forall k v, dict_get k kwargs = Some v -> field k body = Some v).
Proof.
  intros Hnodup Hmessages. cbv zeta. unfold chat_payload, field.
  assert (Hmax : forall payload,
             dict_get "max_tokens"
               (merge_kwargs ["max_tokens"; "temperature"] kwargs payload)
             = dict_get "max_tokens" payload)
    by (intros; now apply merge_keeps_skipped).
  assert (Htemp : forall payload,
             dict_get "temperature"
               (merge_kwargs ["max_tokens"; "temperature"] kwargs payload)
             = dict_get "temperature" payload)
    by (intros; now apply merge_keeps_skipped).
  split; [ rewrite merge_keeps_absent by exact Hmessages; reflexivity | ].
  split; [ rewrite Hmax; reflexivity | ].
  split; [ rewrite Htemp; reflexivity | ].
  split.
  - unfold dict_get_default.
    destruct (dict_get "model" kwargs) as [v |] eqn:Hmodel.
    + now apply merge_takes.
    + rewrite merge_keeps_absent by exact Hmodel. reflexivity.
  - intros k v Hk.
    destruct (existsb (String.eqb k) ["max_tokens"; "temperature"]) eqn:Hskip.
    + cbn [existsb] in Hskip.
      destruct (String.eqb k "max_tokens") eqn:E1.
      * apply String.eqb_eq in E1. subst k. rewrite Hmax.
        unfold dict_get_default. rewrite Hk. reflexivity.
      * destruct (String.eqb k "temperature") eqn:E2; [ | discriminate Hskip ].
        apply String.eqb_eq in E2. subst k. rewrite Htemp.
        unfold dict_get_default. rewrite Hk. reflexivity.
    + now apply merge_takes.
Qed.

(** A call that names its own model and a stop word. *)
Lemma request_body_defaults_witness :
  let body := chat_payload siliconflow hello
                [("model", JStr "Qwen/Qwen2.5-7B"); ("stop", JStr "END")] in
  field "messages" body = Some hello
  /\ field "max_tokens" body = Some (JInt 4096)
  /\ field "temperature" body = Some (JFloat "0.7")
  /\ field "model" body = Some (JStr "Qwen/Qwen2.5-7B")
  /\ field "stop" body = Some (JStr "END").
Proof.
  assert (Hnodup : NoDup (map fst [("model", JStr "Qwen/Qwen2.5-7B");
                                   ("stop", JStr "END")])).
  { cbn [map fst]. constructor.
    - intros [H | []]. discriminate H.
    - constructor; [ intros [] | constructor ]. }
  destruct (request_body_defaults siliconflow hello
              [("model", JStr "Qwen/Qwen2.5-7B"); ("stop", JStr "END")]
              Hnodup eq_refl) as (H1 & H2 & H3 & H4 & H5).
  cbv zeta. split; [ exact H1 | ]. split; [ exact H2 | ].
  split; [ exact H3 | ]. split; [ exact H4 | ].
  exact (H5 "stop" (JStr "END") eq_refl).
Defined.

End EnvoyFacts.

(* ================================================================== *)
(** ** The executor at its edges *)
(* ================================================================== *)

Module EdgeFacts.
Import Frames Observations.
Import Py Sys Prim Discovery McpClient CommonAgent PyFacts MonadFacts
  Statements Scenarios HandlerFacts ExecutorFacts PlanFacts.

(** *** A step whose action is none of the three *)

Lemma unknown_dispatch env action target task_desc t0 w :
  known_action action = false ->
  stream_dispatch env action target task_desc t0 w
  = ([], Ok (unknown_action action), w)
  /\ batch_dispatch env action target task_desc w
     = ([], Ok (unknown_action action), w).
Proof.
  unfold known_action. intros H.
  apply orb_false_elim in H as [H Hc]. apply orb_false_elim in H as [Ha Ht].
  unfold stream_dispatch, batch_dispatch. rewrite Ha, Ht, Hc.
  split; reflexivity.
Qed.

(** A step whose action is not agent_call, tool_use or coordination is
    not dispatched: nothing is sent; its result is the error record
    [Unknown action]; and since that record has no [success] key the
    streaming path reports the step with success true and its
    StepRecord does not count as failed. *)
Theorem unknown_action_is_reported_successful (env : environment)
  (task_id : string) (d : dict) (w : world) (l : list json) :
  task_has task_id w "steps" (JArr l) ->
  known_action (action_of d) = false ->
  exists duration stamp w',
    stream_step env task_id (JObj d) w
    = ([step_started d;
        step_completed d (unknown_action (action_of d)) duration],
       Ok tt, w')
    /\ field "success"
         (step_completed d (unknown_action (action_of d)) duration)
       = Some (JBool true)
    /\ sent w' = sent w
    /\ execution_results w'
       = (execution_results w
          ++ [step_record d (unknown_action (action_of d)) duration stamp])%list
    /\ maps_success_to_false
         (step_record d (unknown_action (action_of d)) duration stamp)
       = false.
Proof.
  intros Htask Hunknown.
  pose proof (stream_step_run env task_id d w l Htask) as H. cbv zeta in H.
  destruct (unknown_dispatch env (action_of d) (target_of d) (task_of d)
              (clock env (ticks w)) (set_ticks (S (ticks w)) w) Hunknown)
    as [Hrun _].
  rewrite Hrun in H. rewrite ?final_of, ?outcome_of, ?events_of in H.
  assert (Hnot : is_str "agent_call" (action_of d) = false).
  { unfold known_action in Hunknown.
    apply orb_false_elim in Hunknown as [Hu _].
    now apply orb_false_elim in Hu as [Hu _]. }
  rewrite Hnot in H. cbn [negb app] in H.
  destruct H as (w' & Hstep & Hres & _ & _ & _ & Hsent & _).
  eexists. eexists. exists w'.
  split; [ exact Hstep | ]. split; [ reflexivity | ].
  split; [ exact Hsent | ]. split; [ exact Hres | reflexivity ].
Qed.

Lemma unknown_action_is_reported_successful_witness :
  exists duration stamp w',
    stream_step silent "task_0"
      (JObj [("step", JInt 1); ("action", JStr "think")]) world_with_task
    = ([step_started [("step", JInt 1); ("action", JStr "think")];
        step_completed [("step", JInt 1); ("action", JStr "think")]
          (unknown_action (JStr "think")) duration],
       Ok tt, w')
    /\ field "success"
         (step_completed [("step", JInt 1); ("action", JStr "think")]
            (unknown_action (JStr "think")) duration)
       = Some (JBool true)
    /\ sent w' = sent world_with_task
    /\ execution_results w'
       = (execution_results world_with_task
          ++ [step_record [("step", JInt 1); ("action", JStr "think")]
                (unknown_action (JStr "think")) duration stamp])%list
    /\ maps_success_to_false
         (step_record [("step", JInt 1); ("action", JStr "think")]
            (unknown_action (JStr "think")) duration stamp)
       = false.
Proof.
  refine (unknown_action_is_reported_successful silent "task_0"
            [("step", JInt 1); ("action", JStr "think")] world_with_task []
            _ eq_refl).
  eexists. split; reflexivity.
Defined.

(** *** A step for an agent the registry does not have *)

Lemma unregistered_dispatch env agent_id task_desc t0 w :
  dict_get agent_id (discovered_agents w) = None ->
  stream_dispatch env (JStr "agent_call") (JStr agent_id) task_desc t0 w
  = ([agent_call_started (JStr agent_id);
      agent_call_completed (JStr agent_id) (agent_not_found agent_id)
        (clock env (ticks w) - t0)],
     Ok (agent_not_found agent_id), set_ticks (S (ticks w)) w).
Proof.
  intros Hnone. unfold stream_dispatch.
  cbn [is_str String.eqb Ascii.eqb Bool.eqb].
  unfold bind at 1. unfold yield at 1. unfold bind at 1. unfold gets at 1.
  unfold bind at 1.
  rewrite (FallbackFacts.call_unknown_agent env agent_id task_desc
             (execution_results w) w Hnone).
  reflexivity.
Qed.

(** An agent_call step that names an agent the registry does not have
    sends nothing.  The streaming path still emits agent_call_started
    and agent_call_completed, the latter with the result [Agent not
    found]; no step_completed follows, and the StepRecord does not
    count as failed. *)
Theorem unregistered_agent_step_is_not_a_failure (env : environment)
  (task_id : string) (d : dict) (agent_id : string) (w : world)
  (l : list json) :
  task_has task_id w "steps" (JArr l) ->
  action_of d = JStr "agent_call" ->
  target_of d = JStr agent_id ->
  dict_get agent_id (discovered_agents w) = None ->
  exists duration stamp w',
    stream_step env task_id (JObj d) w
    = ([step_started d;
        agent_call_started (JStr agent_id);
        agent_call_completed (JStr agent_id) (agent_not_found agent_id)
          (clock env (S (ticks w)) - clock env (ticks w))],
       Ok tt, w')
    /\ sent w' = sent w
    /\ execution_results w'
       = (execution_results w
          ++ [step_record d (agent_not_found agent_id) duration stamp])%list
    /\ maps_success_to_false
         (step_record d (agent_not_found agent_id) duration stamp)
       = false.
Proof.
  intros Htask Hact Htgt Hnone.
  pose proof (stream_step_run env task_id d w l Htask) as H. cbv zeta in H.
  rewrite Hact, Htgt in H.
  rewrite (unregistered_dispatch env agent_id (task_of d)
             (clock env (ticks w)) (set_ticks (S (ticks w)) w)) in H
    by exact Hnone.
  rewrite ?final_of, ?outcome_of, ?events_of in H.
  cbn [is_str String.eqb Ascii.eqb Bool.eqb negb app ticks set_ticks] in H.
  destruct H as (w' & Hstep & Hres & _ & _ & _ & Hsent & _).
  eexists. eexists. exists w'.
  split; [ exact Hstep | ]. split; [ exact Hsent | ].
  split; [ exact Hres | reflexivity ].
Qed.

Lemma unregistered_agent_step_is_not_a_failure_witness :
  exists duration stamp w',
    stream_step silent "task_0" (JObj step_ask_x) world_with_task
    = ([step_started step_ask_x;
        agent_call_started (JStr "x");
        agent_call_completed (JStr "x") (agent_not_found "x")
          (clock silent (S (ticks world_with_task))
           - clock silent (ticks world_with_task))],
       Ok tt, w')
    /\ sent w' = sent world_with_task
    /\ execution_results w'
       = (execution_results world_with_task
          ++ [step_record step_ask_x (agent_not_found "x") duration stamp])%list
    /\ maps_success_to_false
         (step_record step_ask_x (agent_not_found "x") duration stamp)
       = false.
Proof.
  refine (unregistered_agent_step_is_not_a_failure silent "task_0"
            step_ask_x "x" world_with_task [] _ eq_refl eq_refl eq_refl).
  eexists. split; reflexivity.
Defined.

(** *** A tool that names no server *)

(** A tool name without a colon is looked up on the configured servers;
    with no server configured the server is ["unknown"], nothing is
    sent, and the step is still reported with success true around the
    placeholder. *)
Theorem tool_without_server_is_unknown (env : environment) (tool : string)
  (task_desc : json) (w : world) :
  contains ":" tool = false ->
  servers_config w = [] ->
  _use_mcp_tool env (JStr tool) task_desc w
  = ([], Ok (tool_step_result (JStr "unknown") (JStr tool) task_desc), w).
Proof.
  intros Hcolon Hnone.
  unfold _use_mcp_tool, _infer_server_from_tool, list_available_servers,
    _execute_mcp_tool, _invoke_mcp_tool_via_protocol, py_in.
  rewrite Hcolon. run. rewrite Hnone. reflexivity.
Qed.

Lemma tool_without_server_is_unknown_witness :
  _use_mcp_tool silent (JStr "read_file") (JStr "read /tmp/x") fresh
  = ([], Ok (tool_step_result (JStr "unknown") (JStr "read_file")
               (JStr "read /tmp/x")), fresh).
Proof.
  exact (tool_without_server_is_unknown silent "read_file"
           (JStr "read /tmp/x") fresh eq_refl eq_refl).
Defined.

End EdgeFacts.

(* ================================================================== *)
(** ** Calling an agent *)
(* ================================================================== *)

Module AgentCallFacts.
Import Frames Observations.
Import Py Sys Prim Discovery CommonAgent PyFacts MonadFacts Statements
  Scenarios.

Ltac branches :=
  repeat match goal with
    | |- context [match ?x with Ok _ => _ | Raise _ => _ end] => destruct x
    | |- context [match ?x with Some _ => _ | None => _ end] => destruct x
    | |- context [if ?b then _ else _] => destruct b
    end.

Lemma legacy_call_run env agent_id task_description previous_results w
  info endpoint :
  dict_get agent_id (discovered_agents w) = Some (JObj info) ->
  dict_get "endpoint" info = Some endpoint ->
  is_str "a2a" (dict_get_default "protocol" (JStr "unknown") info) = false ->
  let url := py_str endpoint ++ "/task" in
  let body := delegated_task task_description previous_results in
  _call_agent env (JStr agent_id) task_description previous_results w
  = ([],
     Ok match http_post env (List.length (sent w)) url body with
        | HttpFail e =>
            JObj [("error", JStr (exn_msg e)); ("agent", JStr agent_id)]
        | HttpResp status text parsed =>
            if (status =? 200)%Z then
              match parsed with
              | Some v => JObj [("success", JBool true);
                                ("result", v);
                                ("protocol", JStr "legacy")]
              | None => JObj [("error", JStr "Expecting value");
                              ("agent", JStr agent_id)]
              end
            else
              JObj [("error",
                     JStr ("Legacy call failed: HTTP " ++ Z_to_string status));
                    ("response", JStr text)]
        end,
     logged (HttpPost url body) w).
Proof.
  intros Hinfo Hend Hprotocol. cbv zeta.
  unfold _call_agent, Discovery.get_agent_info, _call_legacy_agent.
  unfold py_index, py_get. unfold dict_get_default at 1. run.
  rewrite Hinfo.
  assert (Htruthy : truthy (JObj info) = true)
    by (destruct info; [ discriminate Hend | reflexivity ]).
  rewrite Htruthy. cbn [negb]. rewrite Hend, Hprotocol.
  unfold delegated_task, logged.
  destruct (http_post env _ _ _) as [e | status text parsed];
    [ reflexivity | ].
  destruct (status =? 200)%Z; [ | reflexivity ].
  destruct parsed; reflexivity.
Qed.

(** An agent whose protocol is not a2a (legacy, unknown as stored for a
    health-only agent, or none) is called the legacy way: one POST of
    the plain task body to [/task] of its endpoint.  A 200 answer is
    reported as a success with protocol legacy; any other status is an
    error record with the status and the body text; a failed
    connection is an error record with the exception text; nothing is
    raised. *)
Theorem agents_of_unknown_protocol_are_called_as_legacy (env : environment)
  (agent_id : string) (task_description : json)
  (previous_results : list json) (w : world) (info : dict) (endpoint : json) :
  dict_get agent_id (discovered_agents w) = Some (JObj info) ->
  dict_get "endpoint" info = Some endpoint ->
  is_str "a2a" (dict_get_default "protocol" (JStr "unknown") info) = false ->
  let url := py_str endpoint ++ "/task" in
  let body := delegated_task task_description previous_results in
  let answer := http_post env (List.length (sent w)) url body in
  let o := _call_agent env (JStr agent_id) task_description
             previous_results w in
  sent (final o) = (sent w ++ [HttpPost url body])%list
  /\ (forall text v,
         answer = HttpResp 200 text (Some v) ->
         outcome o = Ok (JObj [("success", JBool true);
                               ("result", v);
                               ("protocol", JStr "legacy")]))
  /\ (forall status text parsed,
         answer = HttpResp status text parsed -> status <> 200%Z ->
         outcome o
         = Ok (JObj [("error",
                      JStr ("Legacy call failed: HTTP "
                            ++ Z_to_string status));
                     ("response", JStr text)]))
  /\ (forall e,
         answer = HttpFail e ->
         outcome o = Ok (JObj [("error", JStr (exn_msg e));
                               ("agent", JStr agent_id)])).
Proof.
  intros Hinfo Hend Hprotocol. cbv zeta.
  rewrite (legacy_call_run env agent_id task_description previous_results w
             info endpoint Hinfo Hend Hprotocol).
  cbv zeta. rewrite final_of, outcome_of.
  split; [ reflexivity | ]. split; [ | split ].
  - intros text v ->. reflexivity.
  - intros status text parsed -> Hstatus.
    apply Z.eqb_neq in Hstatus. now rewrite Hstatus.
  - intros e ->. reflexivity.
Qed.

Lemma agents_of_unknown_protocol_are_called_as_legacy_witness :
  sent (final (_call_agent silent (JStr "z") summarise []
                 (set_discovered_agents
                    [("z", health_entry "http://e:1" health_z)] fresh)))
  = [HttpPost "http://e:1/task" (delegated_task summarise [])].
Proof.
  exact (proj1 (agents_of_unknown_protocol_are_called_as_legacy silent "z"
                  summarise []
                  (set_discovered_agents
                     [("z", health_entry "http://e:1" health_z)] fresh)
                  _ (JStr "http://e:1") eq_refl eq_refl eq_refl)).
Defined.

(** An agent of protocol a2a is sent one POST on [/tasks/send] of its
    endpoint.  The call never raises: a 200 answer with a [result] is a
    success carrying that result, a 200 answer without one is the error
    [No result in A2A response], any other status is an error with the
    status, and a failed connection is an error with the exception
    text and the agent id. *)
Theorem a2a_call_outcomes (env : environment) (agent_id : string)
  (task_description : json) (previous_results : list json) (w : world)
  (info : dict) (endpoint : json) (answer : http_outcome) :
  dict_get agent_id (discovered_agents w) = Some (JObj info) ->
  dict_get "endpoint" info = Some endpoint ->
  dict_get "protocol" info = Some (JStr "a2a") ->
  (forall body,
      http_post env (List.length (sent w)) (py_str endpoint ++ "/tasks/send")
        body = answer) ->
  let o := _call_agent env (JStr agent_id) task_description
             previous_results w in
  (exists body,
      sent (final o)
      = (sent w ++ [HttpPost (py_str endpoint ++ "/tasks/send") body])%list
      /\ field "method" body = Some (JStr "tasks/send")
      /\ a2a_text body = Some task_description)
  /\ (forall text reply r,
         answer = HttpResp 200 text (Some (JObj reply)) ->
         dict_get "result" reply = Some r ->
         outcome o = Ok (JObj [("success", JBool true);
                               ("result", r);
                               ("protocol", JStr "a2a")]))
  /\ (forall text reply,
         answer = HttpResp 200 text (Some (JObj reply)) ->
         dict_get "result" reply = None ->
         outcome o = Ok (JObj [("error", JStr "No result in A2A response");
                               ("response", JObj reply)]))
  /\ (forall status text parsed,
         answer = HttpResp status text parsed -> status <> 200%Z ->
         outcome o
         = Ok (JObj [("error",
                      JStr ("A2A call failed: HTTP " ++ Z_to_string status));
                     ("response", JStr text)]))
  /\ (forall e,
         answer = HttpFail e ->
         outcome o = Ok (JObj [("error", JStr (exn_msg e));
                               ("agent", JStr agent_id)])).
Proof.
  intros Hinfo Hend Hprotocol Hanswer. cbv zeta.
  assert (Htruthy : truthy (JObj info) = true)
    by (destruct info; [ discriminate Hend | reflexivity ]).
  cut (exists body,
          _call_agent env (JStr agent_id) task_description previous_results w
          = ([],
             Ok match answer with
                | HttpFail e =>
                    JObj [("error", JStr (exn_msg e));
                          ("agent", JStr agent_id)]
                | HttpResp status text parsed =>
                    if (status =? 200)%Z then
                      match parsed with
                      | Some (JObj reply) =>
                          match dict_get "result" reply with
                          | Some r => JObj [("success", JBool true);
                                            ("result", r);
                                            ("protocol", JStr "a2a")]
                          | None =>
                              JObj [("error",
                                     JStr "No result in A2A response");
                                    ("response", JObj reply)]
                          end
                      | Some v =>
                          match py_in "result" v with
                          | Ok true =>
                              match py_index "result" v with
                              | Ok r => JObj [("success", JBool true);
                                              ("result", r);
                                              ("protocol", JStr "a2a")]
                              | Raise e =>
                                  JObj [("error", JStr (exn_msg e));
                                        ("agent", JStr agent_id)]
                              end
                          | Ok false =>
                              JObj [("error",
                                     JStr "No result in A2A response");
                                    ("response", v)]
                          | Raise e =>
                              JObj [("error", JStr (exn_msg e));
                                    ("agent", JStr agent_id)]
                          end
                      | None => JObj [("error", JStr "Expecting value");
                                      ("agent", JStr agent_id)]
                      end
                    else
                      JObj [("error",
                             JStr ("A2A call failed: HTTP "
                                   ++ Z_to_string status));
                            ("response", JStr text)]
                end,
             set_sent
               (sent w ++ [HttpPost (py_str endpoint ++ "/tasks/send") body])
               (set_ticks (S (S (S (ticks w)))) w))
          /\ field "method" body = Some (JStr "tasks/send")
          /\ a2a_text body = Some task_description).
  { intros (body & -> & Hmethod & Htext).
    rewrite final_of, outcome_of.
    split; [ exists body; repeat split; assumption | ].
    split; [ intros text reply r -> Hr; now rewrite Hr | ].
    split; [ intros text reply -> Hr; now rewrite Hr | ].
    split.
    - intros status text parsed -> Hstatus.
      apply Z.eqb_neq in Hstatus. now rewrite Hstatus.
    - intros e ->. reflexivity. }
  unfold _call_agent, Discovery.get_agent_info, _call_a2a_agent, now_seconds.
  unfold py_index at 1. unfold py_get at 1.
  unfold dict_get_default at 1. unfold dict_get_default at 1. run.
  rewrite Hinfo, Htruthy. cbn [negb]. rewrite Hend, Hprotocol.
  cbn [is_str String.eqb Ascii.eqb Bool.eqb py_index py_get dict_get
       dict_get_default].
  cbn [sent set_ticks ticks]. rewrite Hanswer.
  eexists. split.
  { destruct answer as [e | status text parsed]; [ reflexivity | ].
    destruct (status =? 200)%Z; [ | reflexivity ].
    destruct parsed as [v |]; [ | reflexivity ].
    destruct v as [| | | | | | reply]; try reflexivity;
      unfold py_in, py_index, dict_mem;
      try (destruct (dict_get "result" reply)); branches; reflexivity. }
  split; reflexivity.
Qed.

Lemma a2a_call_outcomes_witness :
  outcome (_call_agent env_planner (JStr "researcher") summarise []
             world_with_researcher)
  = Ok (JObj [("success", JBool true);
              ("result", JStr "done");
              ("protocol", JStr "a2a")]).
Proof.
  exact (proj1 (proj2 (a2a_call_outcomes env_planner "researcher" summarise
                         [] world_with_researcher _ (JStr "http://r:1")
                         (HttpResp 200 "{}"
                            (Some (JObj [("result", JStr "done")])))
                         eq_refl eq_refl eq_refl (fun _ => eq_refl)))
           "{}" [("result", JStr "done")] (JStr "done") eq_refl eq_refl).
Defined.

End AgentCallFacts.

(* ================================================================== *)
(** ** The batch path *)
(* ================================================================== *)

Module BatchFacts.
Import Frames Observations.
Import Py Sys Prim Discovery CommonAgent PyFacts MonadFacts Statements
  Scenarios HandlerFacts ExecutorFacts PlanFacts.

Lemma batch_steps_objects env task_id (plan : list dict) :
  forall w l,
    task_has task_id w "steps" (JArr l) ->
    exists evs w' records,
      batch_steps env task_id (map JObj plan) w = (evs, Ok tt, w')
      /\ execution_results w' = (execution_results w ++ records)%list
      /\ List.length records = List.length plan
      /\ Forall (fun r => exists fields, r = JObj fields) records.
Proof.
  induction plan as [| d plan IH]; intros w l Htask.
  - exists [], w, []. simpl. rewrite app_nil_r. repeat split; auto.
  - destruct (batch_step_run env task_id d w l Htask)
      as (w1 & l1 & Hrun & Hres & Htask1 & _).
    destruct (IH w1 _ Htask1) as (evs & w' & records & Hrest & Hres' & Hlen
                                  & Hall).
    simpl map. simpl batch_steps. unfold bind at 1. rewrite Hrun, Hrest.
    eexists. exists w'. eexists (_ :: records).
    split; [ reflexivity | ].
    split; [ rewrite Hres', Hres, <- app_assoc; reflexivity | ].
    split; [ simpl; now rewrite Hlen | ].
    constructor; [ | exact Hall ].
    destruct (outcome _); eexists; reflexivity.
Qed.

Lemma count_without_error_objects (records : list json) :
  Forall (fun r => exists fields, r = JObj fields) records ->
  exists n, count_without_error records = Ok n.
Proof.
  induction 1 as [| r records (fields & ->) _ (n & IH)];
    [ exists 0%nat; reflexivity | ].
  cbn [count_without_error py_in]. rewrite IH. eexists. reflexivity.
Qed.

(** On the batch path every step of a plan leaves a record, failed or
    not, so the result's [completed_steps] always equals its
    [total_steps], the length of the plan; the run returns normally
    whatever the steps do. *)
Theorem batch_completed_steps_equal_total (env : environment)
  (task_id : string) (decision : dict) (plan : list dict) (w : world)
  (l : list json) :
  dict_get_default "execution_plan" (JArr []) decision
  = JArr (map JObj plan) ->
  task_has task_id w "steps" (JArr l) ->
  exists r records,
    outcome (_execute_llm_plan env task_id (JObj decision) w) = Ok (JObj r)
    /\ dict_get "total_steps" r = Some (of_nat (List.length plan))
    /\ dict_get "completed_steps" r = Some (of_nat (List.length plan))
    /\ dict_get "execution_results" r = Some (JArr records)
    /\ List.length records = List.length plan.
Proof.
  intros Hplan Htask.
  assert (Htask1 : task_has task_id (set_execution_results [] w) "steps"
                     (JArr l))
    by (eapply task_has_other; [ | exact Htask ]; reflexivity).
  destruct (batch_steps_objects env task_id plan _ l Htask1)
    as (evs & w1 & records & Hrun & Hres & Hlen & Hall).
  simpl in Hres.
  destruct (count_without_error_objects records Hall) as (n & Hcount).
  unfold _execute_llm_plan, _generate_execution_summary.
  unfold py_get. rewrite Hplan. unfold py_len, py_iter. run.
  unfold dict in *. rewrite Hrun.
  cbn [execution_results]. rewrite Hres, Hcount, length_map.
  eexists. exists records.
  split; [ reflexivity | ].
  cbn [dict_get String.eqb Ascii.eqb Bool.eqb]. rewrite Hlen.
  repeat split.
Qed.

Lemma batch_completed_steps_equal_total_witness :
  exists r records,
    outcome (_execute_llm_plan silent "task_0" (JObj plan_with_failure)
               world_with_task) = Ok (JObj r)
    /\ dict_get "total_steps" r = Some (of_nat 2)
    /\ dict_get "completed_steps" r = Some (of_nat 2)
    /\ dict_get "execution_results" r = Some (JArr records)
    /\ List.length records = 2%nat.
Proof.
  refine (batch_completed_steps_equal_total silent "task_0" plan_with_failure
            [step_list_target; step_read_file] world_with_task [] eq_refl _).
  eexists. split; reflexivity.
Defined.

(** *** The connection test *)





End BatchFacts.

(* ================================================================== *)
(** ** The submission route *)
(* ================================================================== *)

Module RouteFacts.
Import Frames Observations.
Import Py Sys Prim Discovery McpClient CommonAgent PyFacts MonadFacts
  Statements Scenarios HandlerFacts ExecutorFacts PlanFacts.

(** *** A submission without a description *)

(** A submission whose description is missing or empty is turned away
    before a task is made: the streaming route emits the single message
    [Task description is required], the plain route raises it, the task
    table is left alone, and yet the task counter has moved: the id is
    used up. *)
Theorem submission_without_description_uses_an_id (env : environment)
  (td : dict) (w : world) :
  truthy (dict_get_default "description" (JStr "") td) = false ->
  Routes.submit_task_stream env (JObj td) w
  = ([description_required], Ok tt, set_task_counter (task_counter w + 1) w)
  /\ Routes.submit_task_json env (JObj td) w
     = ([], Raise (mk_exn OtherError "Task description is required"),
        set_task_counter (task_counter w + 1) w).
Proof.
  intros Hdesc.
  unfold Routes.submit_task_stream, Routes.submit_task_json, py_get. run.
  rewrite Hdesc. split; reflexivity.
Qed.

Lemma submission_without_description_uses_an_id_witness :
  Routes.submit_task_stream silent (JObj [("description", JStr "")]) fresh
  = ([description_required], Ok tt, set_task_counter 1 fresh)
  /\ Routes.submit_task_json silent (JObj [("description", JStr "")]) fresh
     = ([], Raise (mk_exn OtherError "Task description is required"),
        set_task_counter 1 fresh).
Proof.
  exact (submission_without_description_uses_an_id silent
           [("description", JStr "")] fresh eq_refl).
Defined.

(** *** A coordinator without an LLM client *)

(** Without an LLM client the streaming path reports the error and
    stops: no fallback is tried and nothing is sent; the stream is
    task_started, llm_analysis_started, error, task_completed.  (The
    batch path raises at the same place, and the fallback runs.) *)
Theorem streaming_without_llm_skips_the_fallback (env : environment)
  (td : dict) (w : world) :
  truthy (dict_get_default "description" (JStr "") td) = true ->
  llm_ready w = false ->
  registry_well_formed w ->
  exists events w',
    Routes.submit_task_stream env (JObj td) w = (events, Ok tt, w')
    /\ map Routes.event_name events
       = ["task_started"; "llm_analysis_started"; "error"; "task_completed"]
    /\ nth_error events 2
       = Some (JObj [("event", JStr "error");
                     ("error", JStr "LLM客户端未初始化")])
    /\ sent w' = sent w.
Proof.
  intros Hdesc Hllm Hwf.
  unfold Routes.submit_task_stream, Routes.task_stream.
  unfold py_get at 1.
  unfold bind at 1. unfold gets at 1.
  unfold bind at 1. unfold modify at 1.
  unfold bind at 1. unfold lift at 1.
  rewrite Hdesc. cbn [negb].
  unfold bind at 1. unfold now at 1.
  unfold bind at 1. unfold modify at 1.
  unfold try_except at 1.
  unfold bind at 1. unfold yield at 1.
  unfold bind at 1.
  unfold process_task_with_llm_stream. unfold py_get at 1.
  unfold bind at 1. unfold lift at 1.
  unfold bind at 1.
  rewrite StreamFacts.get_task_run
    with (task := JObj [("id", JStr ("task_" ++ Z_to_string (task_counter w)));
                        ("data", JObj td);
                        ("status", JStr "processing");
                        ("created_at",
                         JInt (clock env
                                 (ticks (set_task_counter (task_counter w + 1)
                                           w))));
                        ("steps", JArr [])])
    by apply dict_get_set_same.
  unfold bind at 1. unfold yield at 1.
  unfold bind at 1.
  match goal with
  | |- context [_build_system_context ?w1] =>
      assert (Hwf1 : registry_well_formed w1)
        by (eapply StreamFacts.well_formed_same; [ | exact Hwf ]; reflexivity);
      destruct (StreamFacts.build_system_context_run w1 Hwf1)
        as (system_context & ->)
  end.
  unfold try_except at 1.
  unfold bind at 1. unfold gets at 1.
  cbn [llm_ready set_active_tasks set_ticks set_task_counter].
  rewrite Hllm. cbn [negb]. unfold yield at 1.
  unfold bind at 1.
  rewrite StreamFacts.get_task_run
    with (task := JObj [("id", JStr ("task_" ++ Z_to_string (task_counter w)));
                        ("data", JObj td);
                        ("status", JStr "processing");
                        ("created_at",
                         JInt (clock env
                                 (ticks (set_task_counter (task_counter w + 1)
                                           w))));
                        ("steps", JArr [])])
    by apply dict_get_set_same.
  eexists. eexists. split; [ reflexivity | ].
  split; [ reflexivity | ]. split; reflexivity.
Qed.

Lemma streaming_without_llm_skips_the_fallback_witness :
  exists events w',
    Routes.submit_task_stream silent (JObj request)
      world_without_llm = (events, Ok tt, w')
    /\ map Routes.event_name events
       = ["task_started"; "llm_analysis_started"; "error"; "task_completed"]
    /\ nth_error events 2
       = Some (JObj [("event", JStr "error");
                     ("error", JStr "LLM客户端未初始化")])
    /\ sent w' = sent world_without_llm.
Proof.
  refine (streaming_without_llm_skips_the_fallback silent request
            world_without_llm eq_refl eq_refl _).
  intros id info H. discriminate H.
Defined.

(** *** What a submission leaves alone *)

Lemma settled_of_steady {A : Type} (m : M A) :
  preserves steady m -> preserves settled m.
Proof. intros H w. apply steady_settled, H. Qed.

Ltac settle :=
  preserve settled_refl settled_trans;
  try (intros; repeat split; reflexivity);
  try (apply settled_of_steady;
       first [ apply stream_dispatch_steady
             | apply batch_dispatch_steady
             | apply call_agent_steady ]).

Lemma get_task_settled task_id : preserves settled (get_task task_id).
Proof. unfold get_task. settle. Qed.

Lemma task_set_settled task_id key value :
  preserves settled (task_set task_id key value).
Proof. unfold task_set, get_task. settle. Qed.

Lemma task_steps_append_settled task_id entry :
  preserves settled (task_steps_append task_id entry).
Proof.
  unfold task_steps_append.
  apply preserves_bind; [ exact settled_trans | apply get_task_settled | intros ].
  apply preserves_bind; [ exact settled_trans | settle | intros steps ].
  destruct steps; try settle. apply task_set_settled.
Qed.

Lemma results_append_settled entry : preserves settled (results_append entry).
Proof. unfold results_append. settle. Qed.

Ltac settle_with :=
  repeat first
    [ apply get_task_settled
    | apply task_set_settled
    | apply task_steps_append_settled
    | apply results_append_settled
    | apply settled_of_steady;
      first [ apply stream_dispatch_steady
            | apply batch_dispatch_steady
            | apply call_agent_steady ]
    | progress settle ].

Lemma stream_step_settled env task_id step :
  preserves settled (stream_step env task_id step).
Proof. unfold stream_step. settle_with. Qed.

Lemma stream_steps_settled env task_id plan :
  preserves settled (stream_steps env task_id plan).
Proof.
  induction plan as [ | step rest IH ]; simpl; [ settle | ].
  apply preserves_bind;
    [ exact settled_trans | apply stream_step_settled | intros; exact IH ].
Qed.

Lemma execute_stream_settled env task_id llm_decision :
  preserves settled (_execute_llm_plan_stream env task_id llm_decision).
Proof.
  unfold _execute_llm_plan_stream.
  repeat first [ apply stream_steps_settled | progress settle_with ].
Qed.

Lemma fallback_stream_settled env task_id description :
  preserves settled (_fallback_processing_stream env task_id description).
Proof. unfold _fallback_processing_stream. settle_with. Qed.

Lemma batch_step_settled env task_id step :
  preserves settled (batch_step env task_id step).
Proof. unfold batch_step. settle_with. Qed.

Lemma batch_steps_settled env task_id plan :
  preserves settled (batch_steps env task_id plan).
Proof.
  induction plan as [ | step rest IH ]; simpl; [ settle | ].
  apply preserves_bind;
    [ exact settled_trans | apply batch_step_settled | intros; exact IH ].
Qed.

Lemma execute_batch_settled env task_id llm_decision :
  preserves settled (_execute_llm_plan env task_id llm_decision).
Proof.
  unfold _execute_llm_plan.
  repeat first [ apply batch_steps_settled | progress settle_with ].
Qed.

Lemma fallback_batch_settled env task_id description :
  preserves settled (_fallback_processing env task_id description).
Proof.
  unfold _fallback_processing, Discovery.get_available_agents. settle_with.
Qed.

Lemma context_agents_settled ids acc :
  preserves settled (context_agents ids acc).
Proof.
  revert acc. induction ids as [ | agent_id rest IH ]; intros acc; simpl;
    [ settle | ].
  unfold Discovery.get_agent_info, Discovery.get_agent_capabilities.
  repeat first [ apply IH | progress settle ].
Qed.

Lemma context_servers_settled servers acc :
  preserves settled (context_servers servers acc).
Proof.
  revert acc. induction servers as [ | server rest IH ]; intros acc; simpl;
    [ settle | ].
  unfold McpClient.get_server_config.
  repeat first [ apply IH | progress settle ].
Qed.

Lemma build_system_context_settled : preserves settled _build_system_context.
Proof.
  unfold _build_system_context, Discovery.get_available_agents,
    McpClient.list_available_servers.
  repeat first [ apply context_agents_settled
               | apply context_servers_settled
               | progress settle ].
Qed.

Lemma stream_chunks_settled chunks : preserves settled (stream_chunks chunks).
Proof.
  induction chunks as [ | chunk rest IH ]; simpl;
    repeat first [ apply IH | progress settle ].
Qed.

Lemma process_stream_settled env task_id task_data :
  preserves settled (process_task_with_llm_stream env task_id task_data).
Proof.
  unfold process_task_with_llm_stream, stream_message, decode_streamed.
  repeat first [ apply build_system_context_settled
               | apply stream_chunks_settled
               | apply execute_stream_settled
               | apply fallback_stream_settled
               | progress settle_with ].
Qed.

Lemma process_batch_settled env task_id task_data :
  preserves settled (process_task_with_llm env task_id task_data).
Proof.
  unfold process_task_with_llm, send_message.
  repeat first [ apply build_system_context_settled
               | apply execute_batch_settled
               | apply fallback_batch_settled
               | progress settle_with ].
Qed.

Lemma task_stream_settled env task_id task_data description :
  preserves settled (Routes.task_stream env task_id task_data description).
Proof.
  unfold Routes.task_stream.
  repeat first [ apply process_stream_settled | progress settle_with ].
Qed.

Lemma settled_submitted w w' :
  settled (set_task_counter (task_counter w + 1) w) w' -> submitted w w'.
Proof.
  unfold settled, submitted. simpl. intros H. decompose [and] H.
  repeat split; assumption.
Qed.

Lemma final_gets_bind {A B : Type} (f : world -> A) (k : A -> M B) w :
  final (bind (gets f) k w) = final (k (f w) w).
Proof.
  unfold bind, gets, final. destruct (k (f w) w) as [[ev r] w']. reflexivity.
Qed.

Lemma final_modify_bind {B : Type} (g : world -> world) (k : unit -> M B) w :
  final (bind (modify g) k w) = final (k tt (g w)).
Proof.
  unfold bind, modify, final. destruct (k tt (g w)) as [[ev r] w']. reflexivity.
Qed.

Ltac after_the_counter :=
  rewrite final_gets_bind, final_modify_bind;
  match goal with
  | |- settled ?a (final (?m ?a)) =>
      cut (preserves settled m); [ intros H; exact (H a) | ]
  end.

(** Whatever the request, the LLM, the agents and the tool servers do,
    a submission (streamed or not) uses exactly one task id and changes
    neither the registry, nor the capability table, nor the MCP
    configuration, nor the LLM client. *)
Theorem submission_uses_one_id_and_keeps_the_registry (env : environment)
  (task_data : json) (w : world) :
  submitted w (final (Routes.submit_task_stream env task_data w))
  /\ submitted w (final (Routes.submit_task_json env task_data w)).
Proof.
  split; apply settled_submitted.
  - unfold Routes.submit_task_stream. after_the_counter.
    repeat first [ apply task_stream_settled | progress settle_with ].
  - unfold Routes.submit_task_json. after_the_counter.
    repeat first [ apply process_batch_settled | progress settle_with ].
Qed.

End RouteFacts.
